(** * cli/cliutils: the typed HTTP invocation layer of the hzn command

    A shallow embedding of [cli/cliutils/cliutils.go]: the status check
    [isGoodCode], the local-agent operations [HorizonGet], [HorizonDelete],
    [HorizonPutPost], the registry operations [ExchangeGet],
    [ExchangePutPost], [ExchangeDelete] and the credential lookup
    [GetExchangeAuth].

    Go [int] is read as [Z] (status codes are only compared), Go [string]
    and [[]byte] as [string] (a sequence of 8-bit characters).  A call runs
    against a [World] (environment variables, command-line flags, the
    answer of the network) and produces a trace of observable events and
    an [Outcome]: a normal return, a process exit through [Fatal], or a
    run-time panic.  The flags of [Opts] are taken as set at start-up, and
    the closing of response bodies is left out.  The functions of the Go
    standard library the operations call are a parameter, [GoLib]. *)

From Stdlib Require Import ZArith List String Ascii Bool Lia Permutation.
From Stdlib Require Import DecimalString.
Import ListNotations.
Local Open Scope string_scope.
Local Open Scope Z_scope.

(** ** Constants of the package *)

Definition HZN_API : string := "http://localhost".
Definition HZN_API_MAC : string := "http://localhost:8081".
Definition JSON_INDENT : string := "  ".

Definition CLI_INPUT_ERROR : Z := 1.
Definition JSON_PARSING_ERROR : Z := 3.
Definition FILE_IO_ERROR : Z := 4.
Definition HTTP_ERROR : Z := 5.
Definition CLI_GENERAL_ERROR : Z := 7.
Definition NOT_FOUND : Z := 8.
Definition SIGNATURE_INVALID : Z := 9.
Definition INTERNAL_ERROR : Z := 99.

Definition MethodGet : string := "GET".
Definition MethodDelete : string := "DELETE".

(** ** The status acceptance check *)

(** [isGoodCode]: an empty list accepts everything, otherwise the range
    loop returns at the first element equal to the observed code. *)
Definition isGoodCode (actualHttpCode : Z) (goodHttpCodes : list Z) : bool :=
  if (Z.of_nat (List.length goodHttpCodes) =? 0) then true
  else
    (fix range (l : list Z) : bool :=
       match l with
       | [] => false
       | code :: rest => if code =? actualHttpCode then true else range rest
       end) goodHttpCodes.

(** ** Text helpers *)

Definition nl : string := String (ascii_of_nat 10) "".

Definition nonempty (s : string) : bool := negb (String.eqb s "").

(** [strings.HasSuffix]. *)
Definition HasSuffix (s suffix : string) : bool :=
  let n := String.length s in
  let m := String.length suffix in
  if (m <=? n)%nat then String.eqb (substring (n - m) m s) suffix else false.

(** [strconv.Itoa]. *)
Definition Itoa (n : Z) : string := NilZero.string_of_int (Z.to_int n).

(** [base64.StdEncoding.EncodeToString]: three source bytes make a 24-bit
    value cut into four 6-bit indices of the standard alphabet; a remainder
    of one or two bytes is padded with '='. *)
Definition encodeStd : string :=
  "ABCDEFGHIJKLMNOPQRSTUVWXYZabcdefghijklmnopqrstuvwxyz0123456789+/".

Definition byte (a : ascii) : Z := Z.of_N (N_of_ascii a).

Definition encode (i : Z) : ascii :=
  match String.get (Z.to_nat (Z.land i 63)) encodeStd with
  | Some c => c
  | None => "="%char
  end.

Fixpoint EncodeToString (src : string) : string :=
  match src with
  | EmptyString => ""
  | String a EmptyString =>
      let val := Z.shiftl (byte a) 16 in
      String (encode (Z.shiftr val 18)) (String (encode (Z.shiftr val 12)) "==")
  | String a (String b EmptyString) =>
      let val := Z.lor (Z.shiftl (byte a) 16) (Z.shiftl (byte b) 8) in
      String (encode (Z.shiftr val 18))
        (String (encode (Z.shiftr val 12))
           (String (encode (Z.shiftr val 6)) "="))
  | String a (String b (String c rest)) =>
      let val := Z.lor (Z.lor (Z.shiftl (byte a) 16) (Z.shiftl (byte b) 8)) (byte c) in
      String (encode (Z.shiftr val 18))
        (String (encode (Z.shiftr val 12))
           (String (encode (Z.shiftr val 6))
              (String (encode val) (EncodeToString rest))))
  end.

(** ** Requests, responses, the world and the trace *)

(** A non-nil Go [error], by the text of its [Error()]. *)
Definition error : Type := string.

(** An operand of a format string. *)
Inductive Arg : Type :=
| AStr (s : string)
| AInt (n : Z)
| AErr (e : error).

Record Request : Type := mkRequest {
  Method : string;
  URL : string;
  Header : list (string * string);
  ReqBody : option string }.

(** [req.Header.Add(key, value)] on keys already in canonical form. *)
Definition Header_Add (key value : string) (req : Request) : Request :=
  {| Method := Method req; URL := URL req;
     Header := (Header req ++ [(key, value)])%list; ReqBody := ReqBody req |}.

(** The values stored under a header key, in the order they were added. *)
Definition Header_Values (key : string) (req : Request) : list string :=
  map snd (filter (fun kv => String.eqb (fst kv) key) (Header req)).

(** A response: its status code and its body stream, which delivers
    [RespData] and then ends, or breaks with [RespErr]. *)
Record Response : Type := mkResponse {
  StatusCode : Z;
  RespData : string;
  RespErr : option error }.

(** [ioutil.ReadAll(resp.Body)]. *)
Definition ReadAll (resp : Response) : error + string :=
  match RespErr resp with
  | Some err => inl err
  | None => inr (RespData resp)
  end.

(** [GetRespBodyAsString]: [buf.ReadFrom] keeps what was read and its error
    is dropped. *)
Definition GetRespBodyAsString (resp : Response) : string := RespData resp.

(** What a call can observe of the process and of the network. *)
Record World : Type := mkWorld {
  Getenv : string -> string;            (* os.Getenv *)
  GOOS : string;                        (* runtime.GOOS *)
  OptsVerbose : bool;                   (* *Opts.Verbose *)
  OptsIsDryRun : bool;                  (* *Opts.IsDryRun *)
  RoundTrip : Request -> error + Response }.

Inductive Event : Type :=
| Stderr (text : string)                (* written to os.Stderr *)
| NewRequest (method url : string)      (* http.NewRequest was called *)
| Send (req : Request).                 (* the request was handed to the transport *)

Inductive Outcome (A : Type) : Type :=
| Returned (a : A)
| Exited (exitCode : Z)                 (* os.Exit *)
| Panicked (msg : string).              (* run-time panic *)
Arguments Returned {A} a.
Arguments Exited {A} exitCode.
Arguments Panicked {A} msg.

(** Computations: read the world, log events, stop at an exit or a panic. *)
Definition M (A : Type) : Type := World -> list Event * Outcome A.

Definition ret {A : Type} (a : A) : M A := fun _ => ([], Returned a).

Definition bind {A B : Type} (m : M A) (f : A -> M B) : M B :=
  fun w =>
    match m w with
    | (t, Returned a) => let (t', r) := f a w in ((t ++ t')%list, r)
    | (t, Exited c) => (t, Exited c)
    | (t, Panicked msg) => (t, Panicked msg)
    end.

Notation "x <- m ;; k" := (bind m (fun x => k))
  (at level 61, m at next level, right associativity).
Notation "m ;;; k" := (bind m (fun _ => k))
  (at level 61, right associativity).

Definition os_Getenv (name : string) : M string :=
  fun w => ([], Returned (Getenv w name)).

Definition runtime_GOOS : M string := fun w => ([], Returned (GOOS w)).

Definition IsDryRun : M bool := fun w => ([], Returned (OptsIsDryRun w)).

Definition panic {A : Type} (msg : string) : M A := fun _ => ([], Panicked msg).

(** [l[0]] on a slice. *)
Definition index0 (l : list Z) : M Z :=
  match l with
  | [] => panic "runtime error: index out of range [0] with length 0"
  | x :: _ => ret x
  end.

(** [httpClient.Do(req)], and [http.Get] once its request is built. *)
Definition httpClient_Do (req : Request) : M (error + Response) :=
  fun w => ([Send req], Returned (RoundTrip w req)).

Definition http_Get (url : string) : M (error + Response) :=
  httpClient_Do {| Method := MethodGet; URL := url; Header := []; ReqBody := None |}.

(** Is the event a construction of a request or an access to the network? *)
Definition is_network (e : Event) : bool :=
  match e with
  | Stderr _ => false
  | NewRequest _ _ => true
  | Send _ => true
  end.

(** The requests a run sent, in order. *)
Definition sent (t : list Event) : list Request :=
  flat_map (fun e => match e with Send req => [req] | _ => [] end) t.

(** ** The operations *)

Section Cliutils.

(** Go values handled through [interface{}] and the descriptors of their
    dynamic types are left to the Go run time. *)
Variables GoValue GoType : Type.

(** The dynamic type of the [structure] argument of a GET, as its type
    switches see it; a pointer is taken to point to a variable. *)
Inductive Target : Type :=
| NilTarget                             (* a nil interface *)
| BytesPtr                              (* *[]byte *)
| StringPtr                             (* *string *)
| Other (ty : GoType).                  (* anything else *)

(** What the caller finds behind [structure] after the call. *)
Inductive Stored : Type :=
| Untouched
| StoredBytes (b : string)
| StoredString (s : string)
| StoredValue (v : GoValue).

(** The dynamic type of the [body] argument of a PUT or POST. *)
Inductive Body : Type :=
| BodyBytes (b : string)                (* []byte *)
| BodyString (s : string)               (* string *)
| BodyOther (v : GoValue).              (* anything else *)

(** The functions of the Go standard packages [fmt], [net/http] and
    [encoding/json] the operations call, and the decoding of
    [exchange.PostDeviceResponse], a type declared outside this package,
    into its [Code] and [Msg] fields. *)
Record GoLib : Type := mkGoLib {
  Sprintf : string -> list Arg -> string;
  NewRequest_err : string -> string -> option error;
  json_Unmarshal : string -> Target -> Stored * option error;
  json_Unmarshal_iface : string -> error + GoValue;
  json_Marshal : GoValue -> error + string;
  json_MarshalIndent : GoValue -> string -> string -> error + string;
  Unmarshal_PostDeviceResponse : string -> error + (string * string) }.

Variable L : GoLib.

Definition fmt_Errorf (format : string) (args : list Arg) : error :=
  Sprintf L format args.

Definition with_newline (msg : string) : string :=
  if HasSuffix msg nl then msg else msg ++ nl.

Definition Verbose (msg : string) (args : list Arg) : M unit :=
  fun w =>
    if negb (OptsVerbose w) then ([], Returned tt)
    else ([Stderr (Sprintf L ("[verbose] " ++ with_newline msg) args)], Returned tt).

Definition Fatal {A : Type} (exitCode : Z) (msg : string) (args : list Arg) : M A :=
  fun _ => ([Stderr (Sprintf L ("Error: " ++ with_newline msg) args)], Exited exitCode).

(** [http.NewRequest(method, url, body)]. *)
Definition http_NewRequest (method url : string) (body : option string)
  : M (error + Request) :=
  fun _ =>
    ([NewRequest method url],
     Returned match NewRequest_err L method url with
              | Some err => inl err
              | None => inr {| Method := method; URL := url; Header := []; ReqBody := body |}
              end).

Definition WithDefaultEnvVar (flag envVarName : string) : M string :=
  if nonempty flag then ret flag
  else
    newFlag <- os_Getenv envVarName ;;
    if nonempty newFlag then ret newFlag else ret flag.

Definition GetHorizonUrlBase : M string :=
  envVar <- os_Getenv "HORIZON_URL" ;;
  if nonempty envVar then ret envVar
  else
    goos <- runtime_GOOS ;;
    if String.eqb goos "darwin" then ret HZN_API_MAC else ret HZN_API.

Definition cant_connect_local : string :=
  "Can't connect to the Horizon REST API to run %s. Run 'systemctl status horizon' to check if the Horizon agent is running. Or set HORIZON_URL to connect to another local port that is connected to a remote Horizon agent via a ssh tunnel. Specific error is: %v".

Definition cant_connect_tunnel : string :=
  "Can't connect to the Horizon REST API to run %s. Maybe the ssh tunnel associated with that port is down? Or maybe the remote Horizon agent at the other end of that tunnel is down. Specific error is: %v".

Definition printHorizonRestError {A : Type} (apiMethod : string) (err : error) : M A :=
  envVar <- os_Getenv "HORIZON_URL" ;;
  let msg :=
    if String.eqb envVar ""
    then Sprintf L cant_connect_local [AStr apiMethod; AErr err]
    else Sprintf L cant_connect_tunnel [AStr apiMethod; AErr err] in
  Fatal HTTP_ERROR msg [].

Definition printHorizonExchRestError {A : Type} (apiMethod : string) (err : error) : M A :=
  envVar <- os_Getenv "HZN_EXCHANGE_URL" ;;
  if String.eqb envVar ""
  then Fatal HTTP_ERROR "Can't connect to the Horizon Exchange REST API to run %s. Set HZN_EXCHANGE_URL to use an Exchange other than the one the Horizon Agent is currently configured for. Specific error is: %v" [AStr apiMethod; AErr err]
  else Fatal HTTP_ERROR "Can't connect to the Horizon Exchange REST API to run %s. Maybe HZN_EXCHANGE_URL is set incorrectly? Or unset HZN_EXCHANGE_URL to use the Exchange that the Horizon Agent is configured for. Specific error is: %v" [AStr apiMethod; AErr err].

(** The results of [HorizonGet]: its two return values and the content of
    [structure]. *)
Record GetResult : Type := mkGetResult {
  httpCode : Z;
  retError : option error;
  stored : Stored }.

Definition HorizonGet (urlSuffix : string) (goodHttpCodes : list Z)
    (structure : Target) (quiet : bool) : M GetResult :=
  base <- GetHorizonUrlBase ;;
  let url := base ++ "/" ++ urlSuffix in
  let apiMsg := MethodGet ++ " " ++ url in
  Verbose apiMsg [] ;;;
  r <- http_Get url ;;
  match r with
  | inl err =>
      if quiet then
        envVar <- os_Getenv "HORIZON_URL" ;;
        if String.eqb envVar ""
        then ret (mkGetResult 0 (Some (fmt_Errorf cant_connect_local [AStr apiMsg; AErr err])) Untouched)
        else ret (mkGetResult 0 (Some (fmt_Errorf cant_connect_tunnel [AStr apiMsg; AErr err])) Untouched)
      else printHorizonRestError apiMsg err
  | inr resp =>
      let httpCode := StatusCode resp in
      Verbose "HTTP code: %d" [AInt httpCode] ;;;
      if negb (isGoodCode httpCode goodHttpCodes) then
        if quiet then
          ret (mkGetResult httpCode
                 (Some (fmt_Errorf "Bad HTTP code from %s: %d" [AStr apiMsg; AInt httpCode]))
                 Untouched)
        else Fatal HTTP_ERROR "bad HTTP code from %s: %d" [AStr apiMsg; AInt httpCode]
      else
        first <- index0 goodHttpCodes ;;
        if httpCode =? first then
          match ReadAll resp with
          | inl err =>
              if quiet then
                ret (mkGetResult httpCode
                       (Some (fmt_Errorf "Failed to read body response from %s: %v" [AStr apiMsg; AErr err]))
                       Untouched)
              else Fatal HTTP_ERROR "failed to read body response from %s: %v" [AStr apiMsg; AErr err]
          | inr bodyBytes =>
              match structure with
              | StringPtr =>
                  (* Just return the unprocessed response body *)
                  ret (mkGetResult httpCode None (StoredString bodyBytes))
              | _ =>
                  (* Put the response body in the specified struct *)
                  let (st, err) := json_Unmarshal L bodyBytes structure in
                  match err with
                  | Some err =>
                      if quiet then
                        ret (mkGetResult httpCode
                               (Some (fmt_Errorf "Failed to unmarshal body response from %s: %v" [AStr apiMsg; AErr err]))
                               st)
                      else Fatal JSON_PARSING_ERROR "failed to unmarshal body response from %s: %v" [AStr apiMsg; AErr err]
                  | None => ret (mkGetResult httpCode None st)
                  end
              end
          end
        else ret (mkGetResult httpCode None Untouched)
  end.

Definition HorizonDelete (urlSuffix : string) (goodHttpCodes : list Z) : M Z :=
  base <- GetHorizonUrlBase ;;
  let url := base ++ "/" ++ urlSuffix in
  let apiMsg := MethodDelete ++ " " ++ url in
  Verbose apiMsg [] ;;;
  dry <- IsDryRun ;;
  if dry then ret 204
  else
    r <- http_NewRequest MethodDelete url None ;;
    match r with
    | inl err => Fatal HTTP_ERROR "%s new request failed: %v" [AStr apiMsg; AErr err]
    | inr req =>
        r <- httpClient_Do req ;;
        match r with
        | inl err => printHorizonRestError apiMsg err
        | inr resp =>
            let httpCode := StatusCode resp in
            Verbose "HTTP code: %d" [AInt httpCode] ;;;
            if negb (isGoodCode httpCode goodHttpCodes) then
              Fatal HTTP_ERROR "bad HTTP code %d from %s: %s"
                [AInt httpCode; AStr apiMsg; AStr (GetRespBodyAsString resp)]
            else ret httpCode
        end
    end.

Definition HorizonPutPost (method urlSuffix : string) (goodHttpCodes : list Z)
    (body : Body) : M (Z * string) :=
  base <- GetHorizonUrlBase ;;
  let url := base ++ "/" ++ urlSuffix in
  let apiMsg := method ++ " " ++ url in
  Verbose apiMsg [] ;;;
  dry <- IsDryRun ;;
  if dry then ret (201, "")
  else
    (* Prepare body *)
    prepared <-
      match body with
      | BodyBytes b => ret (b, true)
      | BodyString b => ret (b, true)
      | BodyOther v =>
          match json_Marshal L v with
          | inl err => Fatal JSON_PARSING_ERROR "failed to marshal body for %s: %v" [AStr apiMsg; AErr err]
          | inr jsonBytes => ret (jsonBytes, false)
          end
      end ;;
    let (jsonBytes, bodyIsBytes) := (prepared : string * bool) in
    (* Create the request and run it *)
    r <- http_NewRequest method url (Some jsonBytes) ;;
    match r with
    | inl err => Fatal HTTP_ERROR "%s new request failed: %v" [AStr apiMsg; AErr err]
    | inr req =>
        let req := Header_Add "Accept" "application/json" req in
        let req :=
          if bodyIsBytes
          then Header_Add "Content-Length" (Itoa (Z.of_nat (String.length jsonBytes))) req
          else Header_Add "Content-Type" "application/json" req in
        r <- httpClient_Do req ;;
        match r with
        | inl err => printHorizonRestError apiMsg err
        | inr resp =>
            (* Process the response *)
            let httpCode := StatusCode resp in
            Verbose "HTTP code: %d" [AInt httpCode] ;;;
            let resp_body := GetRespBodyAsString resp in
            if negb (isGoodCode httpCode goodHttpCodes) then
              Fatal HTTP_ERROR "bad HTTP code %d from %s: %s"
                [AInt httpCode; AStr apiMsg; AStr resp_body]
            else ret (httpCode, resp_body)
        end
    end.

(** The Basic-auth header value built by the registry operations. *)
Definition basic_auth (credentials : string) : string :=
  Sprintf L "Basic %v" [AStr (EncodeToString credentials)].

Definition is_nil (structure : Target) : bool :=
  match structure with
  | NilTarget => true
  | _ => false
  end.

Definition ExchangeGet (urlBase urlSuffix credentials : string)
    (goodHttpCodes : list Z) (structure : Target) : M (Z * Stored) :=
  let url := urlBase ++ "/" ++ urlSuffix in
  let apiMsg := MethodGet ++ " " ++ url in
  Verbose apiMsg [] ;;;
  r <- http_NewRequest MethodGet url None ;;
  match r with
  | inl err => Fatal HTTP_ERROR "%s new request failed: %v" [AStr apiMsg; AErr err]
  | inr req =>
      let req := Header_Add "Accept" "application/json" req in
      let req :=
        if nonempty credentials
        then Header_Add "Authorization" (basic_auth credentials) req
        else req in
      r <- httpClient_Do req ;;
      match r with
      | inl err => printHorizonExchRestError apiMsg err
      | inr resp =>
          match ReadAll resp with
          | inl err => Fatal HTTP_ERROR "failed to read body response from %s: %v" [AStr apiMsg; AErr err]
          | inr bodyBytes =>
              let httpCode := StatusCode resp in
              Verbose "HTTP code: %d" [AInt httpCode] ;;;
              if negb (isGoodCode httpCode goodHttpCodes) then
                Fatal HTTP_ERROR "bad HTTP code %d from %s, output: %s"
                  [AInt httpCode; AStr apiMsg; AStr bodyBytes]
              else if (0 <? Z.of_nat (String.length bodyBytes)) && negb (is_nil structure) then
                (* the DP front-end of exchange will return nothing when auth problem *)
                match structure with
                | BytesPtr =>
                    (* This is the signal that they want the raw body back *)
                    ret (httpCode, StoredBytes bodyBytes)
                | StringPtr =>
                    match json_Unmarshal_iface L bodyBytes with
                    | inl err =>
                        Fatal JSON_PARSING_ERROR "failed to unmarshal exchange body response from %s: %v" [AStr apiMsg; AErr err]
                    | inr jsonStruct =>
                        match json_MarshalIndent L jsonStruct "" JSON_INDENT with
                        | inl err =>
                            Fatal JSON_PARSING_ERROR "failed to marshal exchange output from %s: %v" [AStr apiMsg; AErr err]
                        | inr jsonBytes => ret (httpCode, StoredString jsonBytes)
                        end
                    end
                | _ =>
                    let (st, err) := json_Unmarshal L bodyBytes structure in
                    match err with
                    | Some err =>
                        Fatal JSON_PARSING_ERROR "failed to unmarshal exchange body response from %s: %v" [AStr apiMsg; AErr err]
                    | None => ret (httpCode, st)
                    end
                end
              else ret (httpCode, Untouched)
          end
      end
  end.

Definition ExchangePutPost (method urlBase urlSuffix credentials : string)
    (goodHttpCodes : list Z) (body : Body) : M Z :=
  let url := urlBase ++ "/" ++ urlSuffix in
  let apiMsg := method ++ " " ++ url in
  Verbose apiMsg [] ;;;
  dry <- IsDryRun ;;
  if dry then ret 201
  else
    (* Prepare body *)
    prepared <-
      match body with
      | BodyBytes b => ret (b, true)
      | BodyString b => ret (b, false)
      | BodyOther v =>
          match json_Marshal L v with
          | inl err => Fatal JSON_PARSING_ERROR "failed to marshal exchange body for %s: %v" [AStr apiMsg; AErr err]
          | inr jsonBytes => ret (jsonBytes, false)
          end
      end ;;
    let (jsonBytes, bodyIsBytes) := (prepared : string * bool) in
    (* Create the request and run it *)
    r <- http_NewRequest method url (Some jsonBytes) ;;
    match r with
    | inl err => Fatal HTTP_ERROR "%s new request failed: %v" [AStr apiMsg; AErr err]
    | inr req =>
        let req := Header_Add "Accept" "application/json" req in
        let req :=
          if bodyIsBytes
          then Header_Add "Content-Length" (Itoa (Z.of_nat (String.length jsonBytes))) req
          else Header_Add "Content-Type" "application/json" req in
        let req :=
          if nonempty credentials
          then Header_Add "Authorization" (basic_auth credentials) req
          else req (* else it is an anonymous call *) in
        r <- httpClient_Do req ;;
        match r with
        | inl err => printHorizonExchRestError apiMsg err
        | inr resp =>
            let httpCode := StatusCode resp in
            Verbose "HTTP code: %d" [AInt httpCode] ;;;
            if negb (isGoodCode httpCode goodHttpCodes) then
              match ReadAll resp with
              | inl err => Fatal HTTP_ERROR "failed to read exchange body response from %s: %v" [AStr apiMsg; AErr err]
              | inr bodyBytes =>
                  match Unmarshal_PostDeviceResponse L bodyBytes with
                  | inl _ =>
                      Fatal HTTP_ERROR "bad HTTP code %d from %s: %s"
                        [AInt httpCode; AStr apiMsg; AStr bodyBytes]
                  | inr (respCode, respMsg) =>
                      Fatal HTTP_ERROR "bad HTTP code %d from %s: %s, %s"
                        [AInt httpCode; AStr apiMsg; AStr respCode; AStr respMsg]
                  end
              end
            else ret httpCode
        end
    end.

Definition ExchangeDelete (urlBase urlSuffix credentials : string)
    (goodHttpCodes : list Z) : M Z :=
  let url := urlBase ++ "/" ++ urlSuffix in
  let apiMsg := MethodDelete ++ " " ++ url in
  Verbose apiMsg [] ;;;
  dry <- IsDryRun ;;
  if dry then ret 204
  else
    r <- http_NewRequest MethodDelete url None ;;
    match r with
    | inl err => Fatal HTTP_ERROR "%s new request failed: %v" [AStr apiMsg; AErr err]
    | inr req =>
        let req := Header_Add "Authorization" (basic_auth credentials) req in
        r <- httpClient_Do req ;;
        match r with
        | inl err => printHorizonExchRestError apiMsg err
        | inr resp =>
            (* delete never returns a body *)
            let httpCode := StatusCode resp in
            Verbose "HTTP code: %d" [AInt httpCode] ;;;
            if negb (isGoodCode httpCode goodHttpCodes) then
              Fatal HTTP_ERROR "bad HTTP code %d from %s" [AInt httpCode; AStr apiMsg]
            else ret httpCode
        end
    end.

(** find correct credentials to use. Use -u or -n if one of them is not
    empty. If both are empty, use HZN_EXCHANGE_USER_AUTH first, if it is
    not set use HZN_EXCHANGE_NODE_AUTH. *)
Definition GetExchangeAuth (userPw nodeIdTok : string) : M string :=
  credToUse <-
    (if nonempty userPw then ret userPw
     else if nonempty nodeIdTok then ret nodeIdTok
     else
       tmpU <- WithDefaultEnvVar userPw "HZN_EXCHANGE_USER_AUTH" ;;
       if nonempty tmpU then ret tmpU
       else
         tmpN <- WithDefaultEnvVar nodeIdTok "HZN_EXCHANGE_NODE_AUTH" ;;
         if nonempty tmpN then ret tmpN else ret "") ;;
  (if String.eqb credToUse ""
   then Fatal CLI_INPUT_ERROR "exchange authentication must be specified with one of the following: the -u flag, the -n flag, HZN_EXCHANGE_USER_AUTH or HZN_EXCHANGE_NODE_AUTH" []
   else ret tt) ;;;
  ret credToUse.

End Cliutils.

Arguments NilTarget {GoType}.
Arguments BytesPtr {GoType}.
Arguments StringPtr {GoType}.
Arguments Other {GoType} ty.
Arguments Untouched {GoValue}.
Arguments StoredBytes {GoValue} b.
Arguments StoredString {GoValue} s.
Arguments StoredValue {GoValue} v.
Arguments BodyBytes {GoValue} b.
Arguments BodyString {GoValue} s.
Arguments BodyOther {GoValue} v.
Arguments mkGetResult {GoValue} httpCode retError stored.
Arguments httpCode {GoValue} g.
Arguments retError {GoValue} g.
Arguments stored {GoValue} g.
Arguments Sprintf {GoValue GoType} g _ _.
Arguments NewRequest_err {GoValue GoType} g _ _.
Arguments json_Unmarshal {GoValue GoType} g _ _.
Arguments json_Unmarshal_iface {GoValue GoType} g _.
Arguments json_Marshal {GoValue GoType} g _.
Arguments json_MarshalIndent {GoValue GoType} g _ _ _.
Arguments Unmarshal_PostDeviceResponse {GoValue GoType} g _.
Arguments fmt_Errorf {GoValue GoType} L format args.
Arguments Verbose {GoValue GoType} L msg args _.
Arguments Fatal {GoValue GoType} L {A} exitCode msg args _.
Arguments http_NewRequest {GoValue GoType} L method url body _.
Arguments printHorizonRestError {GoValue GoType} L {A} apiMethod err _.
Arguments printHorizonExchRestError {GoValue GoType} L {A} apiMethod err _.
Arguments basic_auth {GoValue GoType} L credentials.
Arguments is_nil {GoType} structure.
Arguments HorizonGet {GoValue GoType} L urlSuffix goodHttpCodes structure quiet _.
Arguments HorizonDelete {GoValue GoType} L urlSuffix goodHttpCodes _.
Arguments HorizonPutPost {GoValue GoType} L method urlSuffix goodHttpCodes body _.
Arguments ExchangeGet {GoValue GoType} L urlBase urlSuffix credentials goodHttpCodes structure _.
Arguments ExchangePutPost {GoValue GoType} L method urlBase urlSuffix credentials goodHttpCodes body _.
Arguments ExchangeDelete {GoValue GoType} L urlBase urlSuffix credentials goodHttpCodes _.
Arguments GetExchangeAuth {GoValue GoType} L userPw nodeIdTok _.

(** ** A reference run time

    The theorems below hold for every [GoLib].  To run the operations on
    concrete calls, [Ref.lib] implements the library functions on a
    fragment: JSON texts whose numbers are integer literals of magnitude at
    most 2^53 (other than -0) and whose strings are ASCII without escapes,
    and format strings whose verbs are %s, %v, %d and %%.  On that fragment
    it follows [encoding/json] and [fmt], except that the texts of its
    errors are its own; a JSON text outside it is rejected. *)

Module Ref.

#[local] Set Warnings "-register-all".

Inductive value : Type :=
| Null
| Bool (b : bool)
| Number (n : Z)
| Str (s : string)
| Array (l : list value)
| Object (m : list (string * value)).

Definition dquote : ascii := ascii_of_nat 34.
Definition backslash : ascii := ascii_of_nat 92.

Definition is_space (c : ascii) : bool :=
  Ascii.eqb c " " || Ascii.eqb c (ascii_of_nat 9)
  || Ascii.eqb c (ascii_of_nat 10) || Ascii.eqb c (ascii_of_nat 13).

Fixpoint skip_ws (s : string) : string :=
  match s with
  | String c r => if is_space c then skip_ws r else s
  | EmptyString => s
  end.

Definition is_digit (c : ascii) : bool :=
  (48 <=? byte c) && (byte c <=? 57).

(** Strips [lit] from the front of [s]. *)
Fixpoint expect (lit s : string) : option string :=
  match lit with
  | EmptyString => Some s
  | String c lit' =>
      match s with
      | String d s' => if Ascii.eqb c d then expect lit' s' else None
      | EmptyString => None
      end
  end.

(** The characters of a string literal up to its closing quote. *)
Fixpoint parse_chars (s : string) : option (string * string) :=
  match s with
  | EmptyString => None
  | String c r =>
      if Ascii.eqb c dquote then Some ("", r)
      else if Ascii.eqb c backslash || (byte c <? 32) || (127 <? byte c) then None
      else match parse_chars r with
           | Some (str, r') => Some (String c str, r')
           | None => None
           end
  end.

Fixpoint parse_digits (acc : Z) (s : string) : Z * string :=
  match s with
  | String c r => if is_digit c then parse_digits (10 * acc + (byte c - 48)) r else (acc, s)
  | EmptyString => (acc, s)
  end.

Definition parse_nat (s : string) : option (Z * string) :=
  match s with
  | String c r =>
      if Ascii.eqb c "0" then Some (0, r)
      else if is_digit c then Some (parse_digits 0 s)
      else None
  | EmptyString => None
  end.

Definition parse_number (s : string) : option (value * string) :=
  match s with
  | String "-" r =>
      match parse_nat r with
      | Some (n, r') => if (0 <? n) && (n <=? 2 ^ 53) then Some (Number (- n), r') else None
      | None => None
      end
  | _ =>
      match parse_nat s with
      | Some (n, r') => if n <=? 2 ^ 53 then Some (Number n, r') else None
      | None => None
      end
  end.

Fixpoint parse_value (fuel : nat) (s : string) {struct fuel} : option (value * string) :=
  match fuel with
  | O => None
  | S fuel =>
      match skip_ws s with
      | EmptyString => None
      | String c r =>
          if Ascii.eqb c "n" then option_map (pair Null) (expect "ull" r)
          else if Ascii.eqb c "t" then option_map (pair (Bool true)) (expect "rue" r)
          else if Ascii.eqb c "f" then option_map (pair (Bool false)) (expect "alse" r)
          else if Ascii.eqb c dquote then
            match parse_chars r with
            | Some (str, r') => Some (Str str, r')
            | None => None
            end
          else if Ascii.eqb c "[" then
            match skip_ws r with
            | String "]" r' => Some (Array [], r')
            | _ => parse_elems fuel r []
            end
          else if Ascii.eqb c "{" then
            match skip_ws r with
            | String "}" r' => Some (Object [], r')
            | _ => parse_members fuel r []
            end
          else parse_number (String c r)
      end
  end
with parse_elems (fuel : nat) (s : string) (acc : list value) {struct fuel}
  : option (value * string) :=
  match fuel with
  | O => None
  | S fuel =>
      match parse_value fuel s with
      | None => None
      | Some (v, r) =>
          match skip_ws r with
          | String "," r' => parse_elems fuel r' (v :: acc)
          | String "]" r' => Some (Array (rev (v :: acc)), r')
          | _ => None
          end
      end
  end
with parse_members (fuel : nat) (s : string) (acc : list (string * value)) {struct fuel}
  : option (value * string) :=
  match fuel with
  | O => None
  | S fuel =>
      match skip_ws s with
      | String c r =>
          if Ascii.eqb c dquote then
            match parse_chars r with
            | None => None
            | Some (key, r1) =>
                match skip_ws r1 with
                | String ":" r2 =>
                    match parse_value fuel r2 with
                    | None => None
                    | Some (v, r3) =>
                        match skip_ws r3 with
                        | String "," r' => parse_members fuel r' ((key, v) :: acc)
                        | String "}" r' => Some (Object (rev ((key, v) :: acc)), r')
                        | _ => None
                        end
                    end
                | _ => None
                end
            end
          else None
      | EmptyString => None
      end
  end.

(** A whole JSON text: one value, then only white space. *)
Definition parse (data : string) : error + value :=
  match parse_value (2 * String.length data + 2) data with
  | Some (v, r) =>
      match skip_ws r with
      | EmptyString => inr v
      | _ => inl "invalid character after top-level value"
      end
  | None => inl "invalid JSON text"
  end.

(** Decoding into [interface{}] makes a map of each object: of two members
    with one key the later one stays. *)
Fixpoint put {A : Type} (key : string) (v : A) (m : list (string * A)) : list (string * A) :=
  match m with
  | [] => [(key, v)]
  | (k, x) :: m' => if String.eqb k key then put key v m' else (k, x) :: put key v m'
  end.

Fixpoint to_iface (v : value) : value :=
  match v with
  | Array l => Array (map to_iface l)
  | Object m =>
      Object (fold_left (fun acc '(k, x) => put k x acc)
                (map (fun '(k, x) => (k, to_iface x)) m) [])
  | _ => v
  end.

(** Marshalling writes the members of a map in the order of their keys. *)
Fixpoint insert_sorted {A : Type} (kv : string * A) (m : list (string * A)) : list (string * A) :=
  match m with
  | [] => [kv]
  | kv' :: m' => if String.leb (fst kv) (fst kv') then kv :: m else kv' :: insert_sorted kv m'
  end.

Definition sort_keys {A : Type} (m : list (string * A)) : list (string * A) :=
  fold_right insert_sorted [] m.

Fixpoint escape (s : string) : option string :=
  match s with
  | EmptyString => Some ""
  | String c r =>
      match escape r with
      | None => None
      | Some r' =>
          if Ascii.eqb c dquote then Some (String backslash (String dquote r'))
          else if Ascii.eqb c backslash then Some (String backslash (String backslash r'))
          else if Ascii.eqb c "<" then Some ("\u003c" ++ r')
          else if Ascii.eqb c ">" then Some ("\u003e" ++ r')
          else if Ascii.eqb c "&" then Some ("\u0026" ++ r')
          else if (byte c <? 32) || (127 <? byte c) then None
          else Some (String c r')
      end
  end.

Definition quoted (s : string) : option string :=
  option_map (fun e => String dquote (e ++ String dquote "")) (escape s).

Fixpoint repeat_string (s : string) (n : nat) : string :=
  match n with
  | O => ""
  | S n' => s ++ repeat_string s n'
  end.

(** [sep] between the items, which are all to be there. *)
Fixpoint join (sep : string) (items : list (option string)) : option string :=
  match items with
  | [] => Some ""
  | [Some x] => Some x
  | Some x :: rest => option_map (fun r => x ++ sep ++ r) (join sep rest)
  | None :: _ => None
  end.

Definition member (colon : string) (key : string) (text : option string) : option string :=
  match quoted key, text with
  | Some k, Some t => Some (k ++ colon ++ t)
  | _, _ => None
  end.

(** The output of [json.MarshalIndent(v, prefix, indent)] from nesting
    depth [depth] on. *)
Fixpoint render (prefix indent : string) (depth : nat) (v : value) : option string :=
  let line (d : nat) := nl ++ prefix ++ repeat_string indent d in
  match v with
  | Null => Some "null"
  | Bool true => Some "true"
  | Bool false => Some "false"
  | Number n => Some (Itoa n)
  | Str s => quoted s
  | Array [] => Some "[]"
  | Array l =>
      option_map (fun items => "[" ++ line (S depth) ++ items ++ line depth ++ "]")
        (join ("," ++ line (S depth)) (map (render prefix indent (S depth)) l))
  | Object [] => Some "{}"
  | Object m =>
      option_map (fun items => "{" ++ line (S depth) ++ items ++ line depth ++ "}")
        (join ("," ++ line (S depth))
           (map (fun '(k, text) => member ": " k text)
              (sort_keys (map (fun '(k, x) => (k, render prefix indent (S depth) x)) m))))
  end.

(** The output of [json.Marshal(v)]. *)
Fixpoint compact (v : value) : option string :=
  match v with
  | Null => Some "null"
  | Bool true => Some "true"
  | Bool false => Some "false"
  | Number n => Some (Itoa n)
  | Str s => quoted s
  | Array l => option_map (fun items => "[" ++ items ++ "]") (join "," (map compact l))
  | Object m =>
      option_map (fun items => "{" ++ items ++ "}")
        (join ","
           (map (fun '(k, text) => member ":" k text)
              (sort_keys (map (fun '(k, x) => (k, compact x)) m))))
  end.

Definition or_unsupported (o : option string) : error + string :=
  match o with
  | Some text => inr text
  | None => inl "json: string outside the supported fragment"
  end.

(** [base64.StdEncoding.DecodeString] on a text without line breaks. *)
Fixpoint index_of (c : ascii) (alphabet : string) : option Z :=
  match alphabet with
  | EmptyString => None
  | String d r => if Ascii.eqb c d then Some 0 else option_map Z.succ (index_of c r)
  end.

Definition chr (n : Z) : ascii := ascii_of_N (Z.to_N (Z.land n 255)).

Fixpoint DecodeString (s : string) : option string :=
  match s with
  | EmptyString => Some ""
  | String a (String b (String c (String d rest))) =>
      match index_of a encodeStd, index_of b encodeStd with
      | Some x, Some y =>
          if Ascii.eqb c "=" then
            if Ascii.eqb d "=" && String.eqb rest ""
            then Some (String (chr (Z.shiftr (Z.lor (Z.shiftl x 18) (Z.shiftl y 12)) 16)) "")
            else None
          else
            match index_of c encodeStd with
            | None => None
            | Some z =>
                let v3 := Z.lor (Z.lor (Z.shiftl x 18) (Z.shiftl y 12)) (Z.shiftl z 6) in
                if Ascii.eqb d "=" then
                  if String.eqb rest ""
                  then Some (String (chr (Z.shiftr v3 16)) (String (chr (Z.shiftr v3 8)) ""))
                  else None
                else
                  match index_of d encodeStd, DecodeString rest with
                  | Some u, Some tail =>
                      let v := Z.lor v3 u in
                      Some (String (chr (Z.shiftr v 16))
                              (String (chr (Z.shiftr v 8)) (String (chr v) tail)))
                  | _, _ => None
                  end
            end
      | _, _ => None
      end
  | _ => None
  end.

(** The dynamic types, other than nil, *[]byte and *string, a call of this
    run time can pass. *)
Inductive type : Type :=
| PtrMap                                (* *map[string]interface{} *)
| PtrIface.                             (* *interface{} *)

Definition type_error (into : string) : option error :=
  Some ("json: cannot unmarshal into Go value of type " ++ into).

(** A JSON array read into a []byte: each element is to be a number that
    fits a byte, one that is not is left zero and reported. *)
Definition elem_byte (v : value) : ascii * bool :=
  match v with
  | Number n => if (0 <=? n) && (n <=? 255) then (chr n, true) else (chr 0, false)
  | _ => (chr 0, false)
  end.

Definition store (v : value) (structure : Target type) : Stored value * option error :=
  match structure with
  | NilTarget => (Untouched, Some "json: Unmarshal(nil)")
  | BytesPtr =>
      match v with
      | Null => (StoredBytes "", None)
      | Str s =>
          match DecodeString s with
          | Some b => (StoredBytes b, None)
          | None => (Untouched, Some "illegal base64 data")
          end
      | Array l =>
          let elems := map elem_byte l in
          (StoredBytes (fold_right (fun e acc => String (fst e) acc) "" elems),
           if forallb snd elems then None else type_error "uint8")
      | _ => (Untouched, type_error "[]uint8")
      end
  | StringPtr =>
      match v with
      | Null => (Untouched, None)
      | Str s => (StoredString s, None)
      | _ => (Untouched, type_error "string")
      end
  | Other PtrMap =>
      match v with
      | Null => (StoredValue Null, None)
      | Object _ => (StoredValue (to_iface v), None)
      | _ => (Untouched, type_error "map[string]interface {}")
      end
  | Other PtrIface => (StoredValue (to_iface v), None)
  end.

(** [json.Unmarshal(data, structure)]: the text is checked first. *)
Definition Unmarshal (data : string) (structure : Target type) : Stored value * option error :=
  match parse data with
  | inl err => (Untouched, Some err)
  | inr v => store v structure
  end.

Definition Unmarshal_iface (data : string) : error + value :=
  match parse data with
  | inl err => inl err
  | inr v => inr (to_iface v)
  end.

Definition lower (c : ascii) : ascii :=
  if (65 <=? byte c) && (byte c <=? 90) then chr (byte c + 32) else c.

Fixpoint fold_case (s : string) : string :=
  match s with
  | EmptyString => ""
  | String c r => String (lower c) (fold_case r)
  end.

(** Modelled from the spec: [exchange.PostDeviceResponse] is declared
    outside this package; the spec gives it the two fields [code] and
    [msg], taken here as strings as the format of the message uses them.
    Members are read in the order of the text, keys match without regard
    to case, null leaves a field as it is, and a member of another kind is
    an error. *)
Fixpoint fill_response (m : list (string * value)) (acc : string * string) (ok : bool)
  : string * string * bool :=
  match m with
  | [] => (acc, ok)
  | (k, v) :: m' =>
      let key := fold_case k in
      if String.eqb key "code" then
        match v with
        | Str s => fill_response m' (s, snd acc) ok
        | Null => fill_response m' acc ok
        | _ => fill_response m' acc false
        end
      else if String.eqb key "msg" then
        match v with
        | Str s => fill_response m' (fst acc, s) ok
        | Null => fill_response m' acc ok
        | _ => fill_response m' acc false
        end
      else fill_response m' acc ok
  end.

Definition PostDeviceResponse (data : string) : error + (string * string) :=
  match parse data with
  | inl err => inl err
  | inr Null => inr ("", "")
  | inr (Object m) =>
      let '(fields, ok) := fill_response m ("", "") true in
      if ok then inr fields else inl "json: cannot unmarshal into Go struct field"
  | inr _ => inl "json: cannot unmarshal into Go value of type exchange.PostDeviceResponse"
  end.

(** [fmt.Sprintf] for the verbs %s, %v, %d and %%. *)
Definition operand (verb : ascii) (a : Arg) : string :=
  match a with
  | AStr s => if Ascii.eqb verb "d" then "%!d(string=" ++ s ++ ")" else s
  | AInt n => if Ascii.eqb verb "s" then "%!s(int=" ++ Itoa n ++ ")" else Itoa n
  | AErr e => e
  end.

Fixpoint format_with (format : string) (args : list Arg) : string :=
  match format with
  | EmptyString => ""
  | String c tl =>
      if Ascii.eqb c "%" then
        match tl with
        | EmptyString => "%!(NOVERB)"
        | String v r =>
            if Ascii.eqb v "%" then String "%" (format_with r args)
            else if Ascii.eqb v "s" || Ascii.eqb v "v" || Ascii.eqb v "d" then
              match args with
              | a :: args' => operand v a ++ format_with r args'
              | [] => "%!" ++ String v "(MISSING)" ++ format_with r []
              end
            else String c (format_with tl args)
        end
      else String c (format_with tl args)
  end.

(** [http.NewRequest] refuses a method that is not a token and a URL with
    a control character. *)
Definition is_token_char (c : ascii) : bool :=
  let n := byte c in
  ((48 <=? n) && (n <=? 57)) || ((65 <=? n) && (n <=? 90)) || ((97 <=? n) && (n <=? 122))
  || existsb (Ascii.eqb c) (list_ascii_of_string "!#$%&'*+-.^_`|~").

Definition has_control (url : string) : bool :=
  existsb (fun c => (byte c <? 32) || (byte c =? 127)) (list_ascii_of_string url).

Definition NewRequest_check (method url : string) : option error :=
  if negb (forallb is_token_char (list_ascii_of_string (if String.eqb method "" then "GET" else method)))
  then Some "net/http: invalid method"
  else if has_control url then Some "net/url: invalid control character in URL"
  else None.

Definition lib : GoLib value type :=
  {| Sprintf := format_with;
     NewRequest_err := NewRequest_check;
     json_Unmarshal := Unmarshal;
     json_Unmarshal_iface := Unmarshal_iface;
     json_Marshal := fun v => or_unsupported (compact v);
     json_MarshalIndent := fun v prefix indent => or_unsupported (render prefix indent 0 v);
     Unmarshal_PostDeviceResponse := PostDeviceResponse |}.

End Ref.

(** ** The specification's own words *)

(** Credential resolution as the specification words it: the first
    non-empty of the user/password argument, the node-identity/token
    argument, the user-auth and the node-auth environment values. *)
Definition resolve_exchange_auth (w : World) (userPw nodeIdTok : string) : option string :=
  find nonempty
    [userPw; nodeIdTok; Getenv w "HZN_EXCHANGE_USER_AUTH"; Getenv w "HZN_EXCHANGE_NODE_AUTH"].

(** The acceptance check as the specification words it. *)
Definition accept (observedCode : Z) (acceptable : list Z) : Prop :=
  acceptable = [] \/ In observedCode acceptable.

(** ** Worlds for concrete runs *)

(** A Linux host with no environment variable set and both flags off,
    where the network gives [answer] to every request. *)
Definition answering (answer : error + Response) : World :=
  {| Getenv := fun _ => ""; GOOS := "linux";
     OptsVerbose := false; OptsIsDryRun := false;
     RoundTrip := fun _ => answer |}.

(** The same host run with the dry-run and verbose flags. *)
Definition dry_run (answer : error + Response) : World :=
  {| Getenv := fun _ => ""; GOOS := "linux";
     OptsVerbose := true; OptsIsDryRun := true;
     RoundTrip := fun _ => answer |}.

Definition ok_response (code : Z) (body : string) : error + Response :=
  inr {| StatusCode := code; RespData := body; RespErr := None |}.

(** An answer whose body stream breaks after [read]. *)
Definition broken_response (code : Z) (read : string) (err : error) : error + Response :=
  inr {| StatusCode := code; RespData := read; RespErr := Some err |}.

Definition quote (s : string) : string := String Ref.dquote (s ++ String Ref.dquote "").

(** The JSON text of an object with the members b = 1 and a = 2, in that
    order, and its re-serialization with the two-space indent. *)
Definition sample_object : string := "{" ++ quote "b" ++ ":1," ++ quote "a" ++ ":2}".

Definition sample_indented : string :=
  "{" ++ nl ++ "  " ++ quote "a" ++ ": 2," ++ nl ++ "  " ++ quote "b" ++ ": 1" ++ nl ++ "}".

(** ** The requests and decodings the operations are expected to make *)

Section Expected.

Context {GoValue GoType : Type} (L : GoLib GoValue GoType).

(** The base URL of the local agent, as [GetHorizonUrlBase] finds it. *)
Definition horizon_base (w : World) : string :=
  if nonempty (Getenv w "HORIZON_URL") then Getenv w "HORIZON_URL"
  else if String.eqb (GOOS w) "darwin" then HZN_API_MAC else HZN_API.

(** The request [HorizonGet] sends. *)
Definition horizon_get_request (w : World) (urlSuffix : string) : Request :=
  {| Method := MethodGet; URL := horizon_base w ++ "/" ++ urlSuffix;
     Header := []; ReqBody := None |}.

(** The request [ExchangeGet] sends. *)
Definition exchange_get_request (urlBase urlSuffix credentials : string) : Request :=
  let req := Header_Add "Accept" "application/json"
               {| Method := MethodGet; URL := urlBase ++ "/" ++ urlSuffix;
                  Header := []; ReqBody := None |} in
  if nonempty credentials
  then Header_Add "Authorization" (basic_auth L credentials) req
  else req.

(** What [ExchangeGet] makes of an accepted, non-empty body. *)
Definition exchange_decode (code : Z) (bodyBytes : string) (structure : Target GoType)
  : Outcome (Z * Stored GoValue) :=
  match structure with
  | NilTarget => Returned (code, Untouched)
  | BytesPtr => Returned (code, StoredBytes bodyBytes)
  | StringPtr =>
      match json_Unmarshal_iface L bodyBytes with
      | inl _ => Exited JSON_PARSING_ERROR
      | inr jsonStruct =>
          match json_MarshalIndent L jsonStruct "" JSON_INDENT with
          | inl _ => Exited JSON_PARSING_ERROR
          | inr jsonBytes => Returned (code, StoredString jsonBytes)
          end
      end
  | Other _ =>
      match json_Unmarshal L bodyBytes structure with
      | (_, Some _) => Exited JSON_PARSING_ERROR
      | (st, None) => Returned (code, st)
      end
  end.

(** The bytes a PUT or POST sends for [body] and whether they go as an
    upload; [string_uploads] tells how a string body is treated. *)
Definition payload (string_uploads : bool) (body : Body GoValue) : error + (string * bool) :=
  match body with
  | BodyBytes b => inr (b, true)
  | BodyString b => inr (b, string_uploads)
  | BodyOther v =>
      match json_Marshal L v with
      | inl err => inl err
      | inr jsonBytes => inr (jsonBytes, false)
      end
  end.

(** The request a PUT or POST builds before credentials are added. *)
Definition put_post_request (method url jsonBytes : string) (bodyIsBytes : bool) : Request :=
  let req := Header_Add "Accept" "application/json"
               {| Method := method; URL := url; Header := []; ReqBody := Some jsonBytes |} in
  if bodyIsBytes
  then Header_Add "Content-Length" (Itoa (Z.of_nat (String.length jsonBytes))) req
  else Header_Add "Content-Type" "application/json" req.

(** The registry's optional Basic-auth header. *)
Definition with_credentials (credentials : string) (req : Request) : Request :=
  if nonempty credentials
  then Header_Add "Authorization" (basic_auth L credentials) req
  else req.

(** The requests of the two DELETE operations. *)
Definition horizon_delete_request (w : World) (urlSuffix : string) : Request :=
  {| Method := MethodDelete; URL := horizon_base w ++ "/" ++ urlSuffix;
     Header := []; ReqBody := None |}.

Definition exchange_delete_request (urlBase urlSuffix credentials : string) : Request :=
  Header_Add "Authorization" (basic_auth L credentials)
    {| Method := MethodDelete; URL := urlBase ++ "/" ++ urlSuffix;
       Header := []; ReqBody := None |}.

(** The four failures of a local-agent GET and the error its quiet mode
    returns for each. *)
Inductive GetFailure : Type :=
| NoAnswer (err : error)                (* the transport failed *)
| BadCode (code : Z)                    (* the code is not in the list *)
| BodyRead (err : error)                (* the body stream broke *)
| BodyParse (err : error).              (* the body did not unmarshal *)

Definition quiet_error (w : World) (urlSuffix : string) (failure : GetFailure) : error :=
  let apiMsg := MethodGet ++ " " ++ horizon_base w ++ "/" ++ urlSuffix in
  match failure with
  | NoAnswer err =>
      fmt_Errorf L
        (if String.eqb (Getenv w "HORIZON_URL") "" then cant_connect_local else cant_connect_tunnel)
        [AStr apiMsg; AErr err]
  | BadCode code => fmt_Errorf L "Bad HTTP code from %s: %d" [AStr apiMsg; AInt code]
  | BodyRead err =>
      fmt_Errorf L "Failed to read body response from %s: %v" [AStr apiMsg; AErr err]
  | BodyParse err =>
      fmt_Errorf L "Failed to unmarshal body response from %s: %v" [AStr apiMsg; AErr err]
  end.

End Expected.

(** * Further functions of the package *)

(** ** Functions of package [strings], for a separator of one byte *)

(** [strings.Contains]. *)
Fixpoint Contains (s substr : string) : bool :=
  if String.prefix substr s then true
  else match s with
       | EmptyString => false
       | String _ r => Contains r substr
       end.

(** [strings.Split(s, sep)]. *)
Fixpoint Split (s : string) (sep : ascii) : list string :=
  match s with
  | EmptyString => [""]
  | String c r =>
      if Ascii.eqb c sep then "" :: Split r sep
      else match Split r sep with
           | piece :: pieces => String c piece :: pieces
           | [] => [String c ""]
           end
  end.

(** [strings.SplitN(s, sep, n)] for n >= 0: at most [n] pieces, the last
    one the unsplit rest. *)
Fixpoint SplitN (s : string) (sep : ascii) (n : nat) : list string :=
  match n with
  | O => []
  | S O => [s]
  | S n' =>
      match s with
      | EmptyString => [""]
      | String c r =>
          if Ascii.eqb c sep then "" :: SplitN r sep n'
          else match SplitN r sep n with
               | piece :: pieces => String c piece :: pieces
               | [] => [String c ""]
               end
      end
  end.

(** [strings.TrimSuffix]. *)
Definition TrimSuffix (s suffix : string) : string :=
  if HasSuffix s suffix
  then substring 0 (String.length s - String.length suffix) s
  else s.

(** ** Identifiers and credentials *)

(** SplitIdToken splits an id:token or user:pw and return the parts. *)
Definition SplitIdToken (idToken : string) : string * string :=
  let parts := SplitN idToken ":" 2 in
  let id := nth 0 parts "" in
  let token := if (2 <=? List.length parts)%nat then nth 1 parts "" else "" in
  (id, token).

(** AddSlash prepends "/" to the id if it is not the empty string. *)
Definition AddSlash (id : string) : string :=
  if String.eqb id "" then id else "/" ++ id.

(** The characters [FormExchangeId] replaces: the class [$!*,;/?@&~=%]. *)
Definition troublesome (c : ascii) : bool :=
  existsb (Ascii.eqb c) (list_ascii_of_string "$!*,;/?@&~=%").

(** Replace unwanted charactore with - in the id: every match of the class
    is one byte and is replaced by a dash. *)
Fixpoint FormExchangeId (id : string) : string :=
  match id with
  | EmptyString => ""
  | String c r => String (if troublesome c then "-"%char else c) (FormExchangeId r)
  end.

(** The class [A-Za-z0-9+.-] of the scheme pattern. *)
Definition scheme_char (c : ascii) : bool :=
  let n := byte c in
  ((48 <=? n) && (n <=? 57)) || ((65 <=? n) && (n <=? 90)) || ((97 <=? n) && (n <=? 122))
  || Ascii.eqb c "+" || Ascii.eqb c "." || Ascii.eqb c "-".

(** The text after a match of [^[A-Za-z0-9+.-]*?://] at the start of [s],
    if there is one: the pattern takes characters of the class until it
    stands before "://". *)
Fixpoint after_scheme (s : string) : option string :=
  match s with
  | EmptyString => None
  | String c r =>
      if String.prefix "://" s then Some (substring 3 (String.length s - 3) s)
      else if scheme_char c then after_scheme r
      else None
  end.

(** Remove the https:// from the beginning of workloadUrl and replace
    troublesome chars with a dash. *)
Definition FormExchangeIdWithSpecRef (specRef : string) : string :=
  let specRef2 := match after_scheme specRef with
                  | Some rest => rest
                  | None => specRef
                  end in
  FormExchangeId specRef2.

(** FormExchangeId combines url, version, arch the same way the exchange
    does to form the resource ID. *)
Definition FormExchangeIdForService (url version arch : string) : string :=
  let url1 := FormExchangeIdWithSpecRef url in
  url1 ++ "_" ++ version ++ "_" ++ arch.

(** The pattern [^a-[A-Za-z0-9]{6}-] of an API key. *)
Definition alphanumeric (c : ascii) : bool :=
  let n := byte c in
  ((48 <=? n) && (n <=? 57)) || ((65 <=? n) && (n <=? 90)) || ((97 <=? n) && (n <=? 122)).

Definition api_key_pattern (creds : string) : bool :=
  match creds with
  | String "a" (String "-" (String c1 (String c2 (String c3 (String c4 (String c5
      (String c6 (String "-" _)))))))) =>
      forallb alphanumeric [c1; c2; c3; c4; c5; c6]
  | _ => false
  end.

(** ** Helpers that read the environment, print or exit *)

Section Helpers.

Context {GoValue GoType : Type} (L : GoLib GoValue GoType).

Definition Warning (msg : string) (args : list Arg) : M unit :=
  fun _ => ([Stderr (Sprintf L ("Warning: " ++ with_newline msg) args)], Returned tt).

(** Unmarshal simply calls json.Unmarshal and handles any errors. *)
Definition Unmarshal (data : string) (v : Target GoType) (errMsg : string) : M (Stored GoValue) :=
  let (st, err) := json_Unmarshal L data v in
  match err with
  | Some err =>
      Fatal L JSON_PARSING_ERROR "failed to unmarshal bytes from %s: %v" [AStr errMsg; AErr err]
  | None => ret st
  end.

(** MarshalIndent calls json.MarshalIndent and handles any errors. *)
Definition MarshalIndent (v : GoValue) (errMsg : string) : M string :=
  match json_MarshalIndent L v "" JSON_INDENT with
  | inl err =>
      Fatal L JSON_PARSING_ERROR "failed to marshal data type from %s: %v" [AStr errMsg; AErr err]
  | inr jsonBytes => ret jsonBytes
  end.

(** SetWhetherUsingApiKey: [usingApiKey] is [Opts.UsingApiKey] before the
    call, the result is its value after it.  The pattern is a constant
    that compiles, so [regexp.MatchString] reports no error. *)
Definition SetWhetherUsingApiKey (creds : string) (usingApiKey : bool) : M bool :=
  env <- os_Getenv "USING_API_KEY" ;;
  if String.eqb env "0" then ret usingApiKey
  else if api_key_pattern creds then Verbose L "Using API key" [] ;;; ret true
  else ret usingApiKey.

(** OrgAndCreds prepends the org to creds (separated by /) unless creds
    already has an org prepended; [usingApiKey] is [Opts.UsingApiKey]. *)
Definition OrgAndCreds (usingApiKey : bool) (org creds : string) : M string :=
  apiKey <- (if usingApiKey then ret true
             else env <- os_Getenv "USING_API_KEY" ;; ret (String.eqb env "1")) ;;
  if (apiKey : bool) then ret creds
  else
    let (id, _) := SplitIdToken creds in
    if Contains id "/" then ret creds
    else ret (org ++ "/" ++ creds).

(** TrimOrg returns id with the leading "<org>/" removed, if it was
    there. *)
Definition TrimOrg (org id : string) : M (string * string) :=
  let substrings := Split id "/" in
  if (List.length substrings <=? 1)%nat then ret (org, id)
  else if (List.length substrings =? 2)%nat
  then ret (nth 0 substrings "", nth 1 substrings "")
  else
    Fatal L (A := unit) CLI_INPUT_ERROR "the resource id can not contain more than 1 '/'" [] ;;;
    ret ("", "").

(** RequiredWithDefaultEnvVar returns the specified flag if it has a
    non-blank value, or the env var value. *)
Definition RequiredWithDefaultEnvVar (flag envVarName errMsg : string) : M string :=
  if nonempty flag then ret flag
  else
    newFlag <- os_Getenv envVarName ;;
    if nonempty newFlag then ret newFlag
    else Fatal L (A := unit) CLI_INPUT_ERROR errMsg [] ;;; ret flag.

End Helpers.

(** ** Views of a world and of a trace *)


(** The texts a run wrote to os.Stderr, in order. *)
Definition stderr (t : list Event) : list string :=
  flat_map (fun e => match e with Stderr text => [text] | _ => [] end) t.

(** A run keeps the stderr discipline when it writes one text to
    os.Stderr if it ends the process and none otherwise. *)
Definition stderr_discipline {A : Type} (run : list Event * Outcome A) : Prop :=
  match snd run with
  | Exited _ => List.length (stderr (fst run)) = 1%nat
  | _ => stderr (fst run) = []
  end.

(** ** Trimming *)

Fixpoint string_rev (s : string) : string :=
  match s with
  | EmptyString => ""
  | String c r => string_rev r ++ String c ""
  end.

Definition of_bytes (l : list Z) : string :=
  string_of_list_ascii (map (fun n => ascii_of_N (Z.to_N n)) l).

(** The UTF-8 encodings of the runes for which [unicode.IsSpace] holds:
    tab, line feed, vertical tab, form feed, carriage return, space,
    U+0085, U+00A0, U+1680, U+2000 to U+200A, U+2028, U+2029, U+202F,
    U+205F and U+3000. *)
Definition space_encodings : list string :=
  map of_bytes
    [[9]; [10]; [11]; [12]; [13]; [32];
     [194; 133]; [194; 160];
     [225; 154; 128];
     [226; 128; 128]; [226; 128; 129]; [226; 128; 130]; [226; 128; 131];
     [226; 128; 132]; [226; 128; 133]; [226; 128; 134]; [226; 128; 135];
     [226; 128; 136]; [226; 128; 137]; [226; 128; 138];
     [226; 128; 168]; [226; 128; 169]; [226; 128; 175];
     [226; 129; 159];
     [227; 128; 128]].

(** Drops from the front of [s] the [skip] bytes still owed and then every
    text of [encodings] that stands there. *)
Fixpoint trim_left (encodings : list string) (s : string) (skip : nat) : string :=
  match s with
  | EmptyString => ""
  | String _ r =>
      match skip with
      | S k => trim_left encodings r k
      | O =>
          match find (fun enc => String.prefix enc s) encodings with
          | Some enc => trim_left encodings r (String.length enc - 1)
          | None => s
          end
      end
  end.

(** [strings.TrimSpace]: the leading and then the trailing white space
    runes are dropped; a rune is decoded at the front as the encoding that
    stands there and at the back as the encoding the text ends with. *)
Definition TrimSpace (s : string) : string :=
  let left := trim_left space_encodings s 0 in
  string_rev (trim_left (map string_rev space_encodings) (string_rev left) 0).

(** [strings.Trim(s, cutset)] for a cutset of one ASCII character. *)
Definition Trim (s : string) (cutset : ascii) : string :=
  let left := trim_left [String cutset ""] s 0 in
  string_rev (trim_left [String cutset ""] (string_rev left) 0).

(** ** Configuration files *)

(** What opening a file and scanning its lines gives: the file is not
    there, it cannot be opened, or the scanner yields [lines] and then
    stops, at the end of the file or with the error [scanner.Err()]
    returns. *)
Inductive OpenScan : Type :=
| NotExist
| OpenFails (err : error)
| Scans (lines : list string) (err : option error).

(** The files a call can see. *)
Record FileSystem : Type := mkFileSystem {
  ScanFile : string -> OpenScan;          (* os.Open, then a bufio.Scanner *)
  StatNotExist : string -> bool;          (* os.IsNotExist of the error of os.Stat *)
  ReadFile_io : string -> error + string  (* ioutil.ReadFile *) }.

Definition ANAX_OVERWRITE_FILE : string := "/etc/default/horizon".
Definition ANAX_CONFIG_FILE : string := "/etc/horizon/anax.json".
Definition DEFAULT_EXCHANGE_URL : string := "https://alpha.edge-fabric.com/v1/".

(** The value the loop of [GetEnvVarFromFile] finds in a line that is not
    a comment: what follows the first "=" up to the next one, trimmed of
    white space, single quotes and double quotes. *)
Definition line_value (key_value : list string) : string :=
  if (1 <? List.length key_value)%nat then
    let s := nth 1 key_value "" in
    let s := TrimSpace s in
    let s := Trim s "'" in
    let s := Trim s Ref.dquote in
    s
  else "".

(** The loop over the lines: [Some] is a return from inside the loop. *)
Fixpoint scan_for (key : string) (lines : list string) : option string :=
  match lines with
  | [] => None
  | lineContent :: rest =>
      if Contains lineContent key then
        let key_value := Split lineContent "=" in
        (* comment line *)
        if Contains (nth 0 key_value "") "#" then scan_for key rest
        else Some (line_value key_value)
      else scan_for key rest
  end.

(** get a value keyed by key in a file. The file contains key=value for
    each line. *)
Definition GetEnvVarFromFile (fs : FileSystem) (filename key : string)
  : string * option error :=
  match ScanFile fs filename with
  | NotExist => ("", None)
  | OpenFails err => ("", Some err)
  | Scans lines err =>
      match scan_for key lines with
      | Some value => (value, None)
      | None =>
          match err with
          | Some err => ("", Some err)
          | None => ("", None)
          end
      end
  end.

Section ExchangeUrl.

Context {GoValue GoType : Type} (L : GoLib GoValue GoType).

(** [config.HorizonConfig] is declared outside this package: the type,
    its decoding from JSON and its field [Edge.ExchangeURL] are taken as
    they come. *)
Variable HorizonConfig : Type.
Variable Unmarshal_HorizonConfig : string -> error + HorizonConfig.
Variable Edge_ExchangeURL : HorizonConfig -> string.

(** Get the anax configuration from the given configuration file. *)
Definition GetAnaxConfig (fs : FileSystem) (configFile : string)
  : option HorizonConfig * option error :=
  if StatNotExist fs configFile then (None, None)
  else
    match ReadFile_io fs configFile with
    | inl err => (None, Some err)
    | inr byteValue =>
        match Unmarshal_HorizonConfig byteValue with
        | inl err => (None, Some (fmt_Errorf L "Failed to unmarshal bytes. %v" [AErr err]))
        | inr anaxConfig => (Some anaxConfig, None)
        end
    end.

(** Get exchange url from /etc/default/horizon file. if not set, check
    /etc/horizon/anax.json file. *)
Definition GetExchangeUrlFromAnax (fs : FileSystem) : M string :=
  found <-
    (let (value, err) := GetEnvVarFromFile fs ANAX_OVERWRITE_FILE "HZN_EXCHANGE_URL" in
     match err with
     | Some err =>
         Verbose L (Sprintf L "Error getting HZN_EXCHANGE_URL from %v. %v"
                      [AStr ANAX_OVERWRITE_FILE; AErr err]) [] ;;;
         ret None
     | None => if nonempty value then ret (Some value) else ret None
     end) ;;
  match found with
  | Some value => ret value
  | None =>
      let (anaxConfig, err) := GetAnaxConfig fs ANAX_CONFIG_FILE in
      match err with
      | Some err =>
          Verbose L (Sprintf L "Error getting ExchangeUrl from %v. %v"
                       [AStr ANAX_CONFIG_FILE; AErr err]) [] ;;;
          ret ""
      | None =>
          match anaxConfig with
          | Some anaxConfig => ret (Edge_ExchangeURL anaxConfig)
          | None => ret ""
          end
      end
  end.

(** [regexp.MustCompile(`edgenode$`).ReplaceAllLiteralString(s, "edge")]:
    the pattern matches at the end of the text only. *)
Definition replace_edgenode (s : string) : string :=
  if HasSuffix s "edgenode" then TrimSuffix s "edgenode" ++ "edge" else s.

(** GetExchangeUrl returns the exchange url from the env var or anax api;
    [usingApiKey] is [Opts.UsingApiKey]. *)
Definition GetExchangeUrl (fs : FileSystem) (usingApiKey : bool) : M string :=
  exchUrl <- os_Getenv "HZN_EXCHANGE_URL" ;;
  exchUrl <-
    (if String.eqb exchUrl "" then
       Verbose L "HZN_EXCHANGE_URL is not set, get it from horizon agent configuration on the node." [] ;;;
       value <- GetExchangeUrlFromAnax fs ;;
       if nonempty value then ret value
       else
         Verbose L "Could not get the exchange url from the horizon agent, using default value: %v"
           [AStr DEFAULT_EXCHANGE_URL] ;;;
         ret DEFAULT_EXCHANGE_URL
     else ret exchUrl) ;;
  let exchUrl := TrimSuffix exchUrl "/" in (* anax puts a trailing slash on it *)
  apiKey <- (if usingApiKey then ret true
             else env <- os_Getenv "USING_API_KEY" ;; ret (String.eqb env "1")) ;;
  let exchUrl := if (apiKey : bool) then replace_edgenode exchUrl else exchUrl in
  Verbose L "The exchange url: %v" [AStr exchUrl] ;;;
  ret exchUrl.

End ExchangeUrl.

(** A file system for concrete runs: /etc/default/horizon holds [lines]
    and there is no other file. *)
Definition only_overwrite_file (lines : list string) : FileSystem :=
  {| ScanFile := fun name =>
       if String.eqb name ANAX_OVERWRITE_FILE then Scans lines None else NotExist;
     StatNotExist := fun _ => true;
     ReadFile_io := fun _ => inl "no such file or directory" |}.

(** ** Classes of characters, for stating what a text is made of *)

Fixpoint all_chars (p : ascii -> bool) (s : string) : bool :=
  match s with
  | EmptyString => true
  | String c r => p c && all_chars p r
  end.

(** The printable ASCII characters other than the space. *)
Definition graphic (c : ascii) : bool := (33 <=? byte c) && (byte c <=? 126).

(** A graphic character that is no quote and no equals sign. *)
Definition plain_char (c : ascii) : bool :=
  graphic c && negb (Ascii.eqb c "'") && negb (Ascii.eqb c Ref.dquote)
  && negb (Ascii.eqb c "=").


(** A line that GetEnvVarFromFile does not stop at: one that does not
    mention the key, or that begins with #. *)
Definition passed_over (key line : string) : Prop :=
  Contains line key = false \/ exists text, line = "#" ++ text.
(** The same host with one more environment variable set. *)
Definition set_env (name value : string) (w : World) : World :=
  {| Getenv := fun n => if String.eqb n name then value else Getenv w n;
     GOOS := GOOS w;
     OptsVerbose := OptsVerbose w; OptsIsDryRun := OptsIsDryRun w;
     RoundTrip := RoundTrip w |}.

(** What GetExchangeUrl does to the URL it settled on: one trailing slash
    goes and, in API-key mode, a trailing edgenode becomes edge. *)
Definition tidy_url (apiKey : bool) (exchUrl : string) : string :=
  let exchUrl := TrimSuffix exchUrl "/" in
  if apiKey then replace_edgenode exchUrl else exchUrl.

(** API-key mode: the flag of the command line or USING_API_KEY=1. *)
Definition api_key_mode (usingApiKey : bool) (w : World) : bool :=
  usingApiKey || String.eqb (Getenv w "USING_API_KEY") "1".
(** ** Reading JSON files *)

(** Where the first occurrence of [substr] in [s] begins. *)
Fixpoint first_index (s substr : string) : option nat :=
  if String.prefix substr s then Some 0%nat
  else match s with
       | EmptyString => None
       | String _ r => option_map S (first_index r substr)
       end.

(** The length of the match of the pattern (?s)/\*.*?\*/ that begins at
    the start of [s], if there is one: the pattern is not greedy, so the
    match ends with the first "*/" that comes after the opening "/*". *)
Definition comment_length (s : string) : option nat :=
  if String.prefix "/*" s
  then option_map (fun i => (i + 4)%nat)
         (first_index (substring 2 (String.length s - 2) s) "*/")
  else None.

(** [re.ReplaceAll(s, nil)] for that pattern: the matches are taken from
    the left and do not overlap; [skip] counts the bytes of the current
    match that are still to be dropped. *)
Fixpoint strip_comments (s : string) (skip : nat) : string :=
  match s with
  | EmptyString => ""
  | String c r =>
      match skip with
      | S k => strip_comments r k
      | O =>
          match comment_length s with
          | Some n => strip_comments r (n - 1)
          | None => String c (strip_comments r 0)
          end
      end
  end.

Section Files.

Context {GoValue GoType : Type} (L : GoLib GoValue GoType).

(** ExpandEnv is os.Expand with a mapping that prints a warning on
    standard output for a variable that is not defined; standard output
    is not part of a trace, and os.Expand is taken as it comes. *)
Variable ExpandEnv : string -> M string.

(** ReadJsonFile reads json from a file or stdin, eliminates comments,
    substitutes env vars, and returns it.  [stdin] is what
    [ioutil.ReadAll(os.Stdin)] gives. *)
Definition ReadJsonFile (fs : FileSystem) (stdin : error + string) (filePath : string)
  : M string :=
  let read := if String.eqb filePath "-" then stdin else ReadFile_io fs filePath in
  fileBytes <-
    match read with
    | inl err =>
        Fatal L (A := unit) FILE_IO_ERROR "reading %s failed: %v" [AStr filePath; AErr err] ;;;
        ret ""
    | inr fileBytes => ret fileBytes
    end ;;
  (* Remove the comments *)
  let newBytes := strip_comments fileBytes 0 in
  (* Replace env vars *)
  env <- os_Getenv "HZN_DONT_SUBST_ENV_VARS" ;;
  if String.eqb env "1" then ret newBytes
  else ExpandEnv newBytes.

End Files.

(** * Properties *)

(** ** The status acceptance check *)

Lemma isGoodCode_nil (code : Z) : isGoodCode code [] = true.
Proof. reflexivity. Qed.

Lemma isGoodCode_cons (code first : Z) (rest : list Z) :
  isGoodCode code (first :: rest) = existsb (Z.eqb code) (first :: rest).
Proof.
  assert (Hloop : forall l,
             (fix range (l : list Z) : bool :=
                match l with
                | [] => false
                | c :: rest => if c =? code then true else range rest
                end) l = existsb (Z.eqb code) l).
  { induction l as [| c l IH]; [reflexivity |].
    cbn [existsb]. rewrite (Z.eqb_sym code c).
    destruct (c =? code); [reflexivity | exact IH]. }
  unfold isGoodCode.
  replace (Z.of_nat (List.length (first :: rest)) =? 0) with false
    by (symmetry; apply Z.eqb_neq; cbn [List.length]; lia).
  exact (Hloop (first :: rest)).
Qed.

Lemma isGoodCode_accept_iff (code : Z) (acceptable : list Z) :
  isGoodCode code acceptable = true <-> accept code acceptable.
Proof.
  unfold accept. destruct acceptable as [| first rest].
  - split; [now left | reflexivity].
  - rewrite isGoodCode_cons, existsb_exists. split.
    + intros (x & Hin & Heq). apply Z.eqb_eq in Heq. subst x. now right.
    + intros [Hnil | Hin]; [discriminate |].
      exists code. split; [exact Hin | apply Z.eqb_refl].
Qed.

(** C10: the acceptance check is true for every code on the empty list;
    on a non-empty list it is true exactly when the code occurs in the
    list; and it gives the same answer on any reordering of the list.  It
    is a function of its two arguments alone: it reads no world and logs
    no event. *)
Theorem isGoodCode_contract (code : Z) (acceptable reordered : list Z) :
  isGoodCode code [] = true
  /\ (acceptable <> [] -> (isGoodCode code acceptable = true <-> In code acceptable))
  /\ (Permutation acceptable reordered ->
      isGoodCode code acceptable = isGoodCode code reordered).
Proof.
  split; [reflexivity | split].
  - intros Hne. rewrite isGoodCode_accept_iff. unfold accept. tauto.
  - intros Hperm.
    assert (Hiff : isGoodCode code acceptable = true <-> isGoodCode code reordered = true).
    { rewrite !isGoodCode_accept_iff. unfold accept. split.
      - intros [-> | Hin].
        + left. now apply Permutation_nil.
        + right. now apply (Permutation_in _ Hperm).
      - intros [-> | Hin].
        + left. apply Permutation_nil. now apply Permutation_sym.
        + right. now apply (Permutation_in _ (Permutation_sym Hperm)). }
    destruct (isGoodCode code acceptable), (isGoodCode code reordered);
      try reflexivity; destruct Hiff as [H1 H2];
      [symmetry; now apply H1 | now apply H2].
Qed.

Lemma isGoodCode_contract_witness :
  isGoodCode 200 [] = true
  /\ (isGoodCode 404 [200; 404] = true <-> In 404 [200; 404])
  /\ isGoodCode 500 [200; 404] = isGoodCode 500 [404; 200].
Proof.
  destruct (isGoodCode_contract 200 [200; 404] [404; 200]) as (H0 & _ & _).
  destruct (isGoodCode_contract 404 [200; 404] [404; 200]) as (_ & H1 & _).
  destruct (isGoodCode_contract 500 [200; 404] [404; 200]) as (_ & _ & H2).
  split; [exact H0 | split].
  - apply H1. discriminate.
  - apply H2. apply perm_swap.
Defined.

(** ** Reading runs: outcome and trace of a composed computation *)

Section Runs.

Context {GoValue GoType : Type} (L : GoLib GoValue GoType).

Lemma snd_bind {A B : Type} (m : M A) (f : A -> M B) (w : World) :
  snd (bind m f w) =
  match snd (m w) with
  | Returned a => snd (f a w)
  | Exited c => Exited c
  | Panicked msg => Panicked msg
  end.
Proof.
  unfold bind. destruct (m w) as [t [a | c | msg]]; cbn [snd]; try reflexivity.
  destruct (f a w); reflexivity.
Qed.

Lemma fst_bind {A B : Type} (m : M A) (f : A -> M B) (w : World) :
  fst (bind m f w) =
  (fst (m w) ++ match snd (m w) with
                | Returned a => fst (f a w)
                | _ => []
                end)%list.
Proof.
  unfold bind. destruct (m w) as [t [a | c | msg]]; cbn [fst snd];
    try (now rewrite app_nil_r).
  destruct (f a w); reflexivity.
Qed.

Lemma sent_bind {A B : Type} (m : M A) (f : A -> M B) (w : World) :
  sent (fst (bind m f w)) =
  (sent (fst (m w)) ++ match snd (m w) with
                       | Returned a => sent (fst (f a w))
                       | _ => []
                       end)%list.
Proof.
  rewrite fst_bind. unfold sent. rewrite flat_map_app.
  destruct (snd (m w)); reflexivity.
Qed.

Lemma snd_ret {A : Type} (a : A) (w : World) : snd (ret a w) = Returned a.
Proof. reflexivity. Qed.


Lemma snd_Verbose (msg : string) (args : list Arg) (w : World) :
  snd (Verbose L msg args w) = Returned tt.
Proof. unfold Verbose. destruct (OptsVerbose w); reflexivity. Qed.

Lemma sent_Verbose (msg : string) (args : list Arg) (w : World) :
  sent (fst (Verbose L msg args w)) = [].
Proof. unfold Verbose. destruct (OptsVerbose w); reflexivity. Qed.

Lemma network_Verbose (msg : string) (args : list Arg) (w : World) :
  existsb is_network (fst (Verbose L msg args w)) = false.
Proof. unfold Verbose. destruct (OptsVerbose w); reflexivity. Qed.

Lemma snd_Fatal {A : Type} (exitCode : Z) (msg : string) (args : list Arg) (w : World) :
  snd (Fatal L (A := A) exitCode msg args w) = Exited exitCode.
Proof. reflexivity. Qed.

Lemma sent_Fatal {A : Type} (exitCode : Z) (msg : string) (args : list Arg) (w : World) :
  sent (fst (Fatal L (A := A) exitCode msg args w)) = [].
Proof. reflexivity. Qed.

Lemma snd_os_Getenv (name : string) (w : World) :
  snd (os_Getenv name w) = Returned (Getenv w name).
Proof. reflexivity. Qed.

Lemma fst_os_Getenv (name : string) (w : World) : fst (os_Getenv name w) = [].
Proof. reflexivity. Qed.

Lemma snd_IsDryRun (w : World) : snd (IsDryRun w) = Returned (OptsIsDryRun w).
Proof. reflexivity. Qed.

Lemma fst_IsDryRun (w : World) : fst (IsDryRun w) = [].
Proof. reflexivity. Qed.

Lemma run_GetHorizonUrlBase (w : World) :
  GetHorizonUrlBase w = ([], Returned (horizon_base w)).
Proof.
  unfold GetHorizonUrlBase, horizon_base, bind, os_Getenv, runtime_GOOS.
  destruct (nonempty (Getenv w "HORIZON_URL")); [reflexivity |].
  destruct (String.eqb (GOOS w) "darwin"); reflexivity.
Qed.

Lemma snd_printHorizonRestError {A : Type} (apiMethod : string) (err : error) (w : World) :
  snd (printHorizonRestError L (A := A) apiMethod err w) = Exited HTTP_ERROR.
Proof. unfold printHorizonRestError. rewrite snd_bind. reflexivity. Qed.

Lemma sent_printHorizonRestError {A : Type} (apiMethod : string) (err : error) (w : World) :
  sent (fst (printHorizonRestError L (A := A) apiMethod err w)) = [].
Proof. unfold printHorizonRestError. rewrite fst_bind. reflexivity. Qed.

Lemma snd_printHorizonExchRestError {A : Type} (apiMethod : string) (err : error) (w : World) :
  snd (printHorizonExchRestError L (A := A) apiMethod err w) = Exited HTTP_ERROR.
Proof.
  unfold printHorizonExchRestError. rewrite snd_bind. cbn.
  destruct (String.eqb (Getenv w "HZN_EXCHANGE_URL") ""); reflexivity.
Qed.

Lemma sent_printHorizonExchRestError {A : Type} (apiMethod : string) (err : error) (w : World) :
  sent (fst (printHorizonExchRestError L (A := A) apiMethod err w)) = [].
Proof.
  unfold printHorizonExchRestError. rewrite fst_bind. cbn.
  destruct (String.eqb (Getenv w "HZN_EXCHANGE_URL") ""); reflexivity.
Qed.

End Runs.

(** ** Credential resolution *)

Section Credentials.

Context {GoValue GoType : Type} (L : GoLib GoValue GoType).

Lemma nonempty_false (s : string) : nonempty s = false -> s = "".
Proof.
  unfold nonempty. intros H. apply negb_false_iff in H. now apply String.eqb_eq.
Qed.

Lemma nonempty_true (s : string) : nonempty s = true -> String.eqb s "" = false.
Proof. unfold nonempty. intros H. now apply negb_true_iff in H. Qed.

(** C9: the credentials returned are the first non-empty value among the
    user/password argument, the node-identity/token argument,
    HZN_EXCHANGE_USER_AUTH and HZN_EXCHANGE_NODE_AUTH, in that order; when
    all four are empty the process exits with the input-error code. *)
Theorem GetExchangeAuth_precedence (userPw nodeIdTok : string) (w : World) :
  snd (GetExchangeAuth L userPw nodeIdTok w) =
  match resolve_exchange_auth w userPw nodeIdTok with
  | Some credentials => Returned credentials
  | None => Exited CLI_INPUT_ERROR
  end.
Proof.
  unfold GetExchangeAuth, resolve_exchange_auth, WithDefaultEnvVar, bind, os_Getenv, ret.
  cbn [find].
  destruct (nonempty userPw) eqn:Hu.
  { cbn. now rewrite (nonempty_true _ Hu). }
  destruct (nonempty nodeIdTok) eqn:Hn.
  { cbn. now rewrite (nonempty_true _ Hn). }
  cbn.
  destruct (nonempty (Getenv w "HZN_EXCHANGE_USER_AUTH")) eqn:Heu.
  { cbn. rewrite Heu. cbn. now rewrite (nonempty_true _ Heu). }
  cbn. rewrite Hu. cbn.
  destruct (nonempty (Getenv w "HZN_EXCHANGE_NODE_AUTH")) eqn:Hen.
  { cbn. rewrite Hen. cbn. now rewrite (nonempty_true _ Hen). }
  cbn. rewrite Hn. reflexivity.
Qed.

End Credentials.

(** ** The dry-run gate *)

Section DryRun.

Context {GoValue GoType : Type} (L : GoLib GoValue GoType).

Ltac gate H :=
  rewrite ?run_GetHorizonUrlBase; cbn [fst snd app];
  rewrite ?snd_bind, ?fst_bind, ?snd_Verbose; cbn [fst snd app];
  rewrite ?snd_bind, ?fst_bind, ?snd_IsDryRun, ?fst_IsDryRun, ?H; cbn [fst snd app];
  rewrite ?app_nil_r, ?existsb_app, ?network_Verbose; try reflexivity.

(** C2: with the dry-run flag set, a PUT or POST returns code 201 (and,
    for the local agent, an empty response text) and a DELETE returns code
    204, and the run neither builds a request nor touches the network. *)
Theorem dry_run_gate (w : World) (Hdry : OptsIsDryRun w = true)
    (method urlBase urlSuffix credentials : string) (goodHttpCodes : list Z)
    (body : Body GoValue) :
  (snd (HorizonPutPost L method urlSuffix goodHttpCodes body w) = Returned (201, "")
   /\ existsb is_network (fst (HorizonPutPost L method urlSuffix goodHttpCodes body w)) = false)
  /\ (snd (ExchangePutPost L method urlBase urlSuffix credentials goodHttpCodes body w) = Returned 201
      /\ existsb is_network
           (fst (ExchangePutPost L method urlBase urlSuffix credentials goodHttpCodes body w)) = false)
  /\ (snd (HorizonDelete L urlSuffix goodHttpCodes w) = Returned 204
      /\ existsb is_network (fst (HorizonDelete L urlSuffix goodHttpCodes w)) = false)
  /\ (snd (ExchangeDelete L urlBase urlSuffix credentials goodHttpCodes w) = Returned 204
      /\ existsb is_network
           (fst (ExchangeDelete L urlBase urlSuffix credentials goodHttpCodes w)) = false).
Proof.
  repeat split.
  - unfold HorizonPutPost. rewrite snd_bind. gate Hdry.
  - unfold HorizonPutPost. rewrite fst_bind. gate Hdry.
  - unfold ExchangePutPost. rewrite snd_bind. gate Hdry.
  - unfold ExchangePutPost. rewrite fst_bind. gate Hdry.
  - unfold HorizonDelete. rewrite snd_bind. gate Hdry.
  - unfold HorizonDelete. rewrite fst_bind. gate Hdry.
  - unfold ExchangeDelete. rewrite snd_bind. gate Hdry.
  - unfold ExchangeDelete. rewrite fst_bind. gate Hdry.
Qed.

End DryRun.

Lemma dry_run_gate_witness :
  OptsIsDryRun (dry_run (inl "unreachable")) = true
  /\ snd (HorizonPutPost Ref.lib "PUT" "node" [201] (BodyString "{}")
            (dry_run (inl "unreachable"))) = Returned (201, "")
  /\ fst (ExchangeDelete Ref.lib "https://exchange/v1" "orgs/o/nodes/n" "o/u:pw" [204]
            (dry_run (inl "unreachable")))
     = [Stderr ("[verbose] DELETE https://exchange/v1/orgs/o/nodes/n" ++ nl)].
Proof.
  split; [reflexivity | split].
  - exact (proj1 (proj1 (dry_run_gate Ref.lib (dry_run (inl "unreachable")) eq_refl
                           "PUT" "https://exchange/v1" "node" "o/u:pw" [201] (BodyString "{}")))).
  - reflexivity.
Defined.

(** ** The local-agent GET *)

Section LocalGet.

Context {GoValue GoType : Type} (L : GoLib GoValue GoType).

Lemma snd_http_Get (url : string) (w : World) :
  snd (http_Get url w)
  = Returned (RoundTrip w {| Method := MethodGet; URL := url; Header := []; ReqBody := None |}).
Proof. reflexivity. Qed.

Ltac enter_HorizonGet :=
  unfold HorizonGet;
  rewrite snd_bind, run_GetHorizonUrlBase; cbn [snd];
  rewrite snd_bind, snd_Verbose;
  rewrite snd_bind, snd_http_Get;
  match goal with
  | |- context [RoundTrip ?w {| Method := MethodGet; URL := horizon_base ?w ++ "/" ++ ?s;
                                Header := []; ReqBody := None |}] =>
      fold (horizon_get_request w s)
  end.

(** No answer from the agent. *)
Lemma HorizonGet_transport_failure (w : World) (urlSuffix : string) (goodHttpCodes : list Z)
    (structure : Target GoType) (quiet : bool) (err : error) :
  RoundTrip w (horizon_get_request w urlSuffix) = inl err ->
  snd (HorizonGet L urlSuffix goodHttpCodes structure quiet w) =
  if quiet
  then Returned
         (mkGetResult 0
            (Some (fmt_Errorf L
                     (if String.eqb (Getenv w "HORIZON_URL") ""
                      then cant_connect_local else cant_connect_tunnel)
                     [AStr (MethodGet ++ " " ++ horizon_base w ++ "/" ++ urlSuffix); AErr err]))
            Untouched)
  else Exited HTTP_ERROR.
Proof.
  intros Hresp. enter_HorizonGet. rewrite Hresp.
  destruct quiet.
  - rewrite snd_bind, snd_os_Getenv.
    destruct (String.eqb (Getenv w "HORIZON_URL") ""); reflexivity.
  - apply snd_printHorizonRestError.
Qed.

(** An answer whose code the list does not accept. *)
Lemma HorizonGet_bad_code (w : World) (urlSuffix : string) (goodHttpCodes : list Z)
    (structure : Target GoType) (quiet : bool) (resp : Response) :
  RoundTrip w (horizon_get_request w urlSuffix) = inr resp ->
  isGoodCode (StatusCode resp) goodHttpCodes = false ->
  snd (HorizonGet L urlSuffix goodHttpCodes structure quiet w) =
  if quiet
  then Returned
         (mkGetResult (StatusCode resp)
            (Some (fmt_Errorf L "Bad HTTP code from %s: %d"
                     [AStr (MethodGet ++ " " ++ horizon_base w ++ "/" ++ urlSuffix);
                      AInt (StatusCode resp)]))
            Untouched)
  else Exited HTTP_ERROR.
Proof.
  intros Hresp Hbad. enter_HorizonGet. rewrite Hresp.
  rewrite snd_bind, snd_Verbose, Hbad. cbn [negb].
  destruct quiet; reflexivity.
Qed.

(** An accepted answer on the empty list: the first element is read from
    a list that has none. *)
Lemma HorizonGet_empty_list (w : World) (urlSuffix : string) (structure : Target GoType)
    (quiet : bool) (resp : Response) :
  RoundTrip w (horizon_get_request w urlSuffix) = inr resp ->
  snd (HorizonGet L urlSuffix [] structure quiet w)
  = Panicked "runtime error: index out of range [0] with length 0".
Proof.
  intros Hresp. enter_HorizonGet. rewrite Hresp.
  rewrite snd_bind, snd_Verbose, isGoodCode_nil. cbn [negb].
  rewrite snd_bind. reflexivity.
Qed.

(** An accepted answer whose code is not the first of the list. *)
Lemma HorizonGet_secondary_code (w : World) (urlSuffix : string) (first : Z) (rest : list Z)
    (structure : Target GoType) (quiet : bool) (resp : Response) :
  RoundTrip w (horizon_get_request w urlSuffix) = inr resp ->
  isGoodCode (StatusCode resp) (first :: rest) = true ->
  StatusCode resp <> first ->
  snd (HorizonGet L urlSuffix (first :: rest) structure quiet w)
  = Returned (mkGetResult (StatusCode resp) None Untouched).
Proof.
  intros Hresp Hgood Hne. enter_HorizonGet. rewrite Hresp.
  rewrite snd_bind, snd_Verbose, Hgood. cbn [negb].
  rewrite snd_bind. cbn [index0 snd ret].
  apply Z.eqb_neq in Hne. rewrite Hne. reflexivity.
Qed.

(** An answer whose code is the first of the list: the body is read and
    handed to the target. *)
Lemma HorizonGet_first_code (w : World) (urlSuffix : string) (rest : list Z)
    (structure : Target GoType) (quiet : bool) (resp : Response) :
  RoundTrip w (horizon_get_request w urlSuffix) = inr resp ->
  let apiMsg := MethodGet ++ " " ++ horizon_base w ++ "/" ++ urlSuffix in
  snd (HorizonGet L urlSuffix (StatusCode resp :: rest) structure quiet w) =
  match ReadAll resp with
  | inl err =>
      if quiet
      then Returned
             (mkGetResult (StatusCode resp)
                (Some (fmt_Errorf L "Failed to read body response from %s: %v"
                         [AStr apiMsg; AErr err]))
                Untouched)
      else Exited HTTP_ERROR
  | inr bodyBytes =>
      match structure with
      | StringPtr => Returned (mkGetResult (StatusCode resp) None (StoredString bodyBytes))
      | _ =>
          match json_Unmarshal L bodyBytes structure with
          | (st, Some err) =>
              if quiet
              then Returned
                     (mkGetResult (StatusCode resp)
                        (Some (fmt_Errorf L "Failed to unmarshal body response from %s: %v"
                                 [AStr apiMsg; AErr err]))
                        st)
              else Exited JSON_PARSING_ERROR
          | (st, None) => Returned (mkGetResult (StatusCode resp) None st)
          end
      end
  end.
Proof.
  intros Hresp apiMsg. enter_HorizonGet. rewrite Hresp.
  rewrite snd_bind, snd_Verbose.
  replace (isGoodCode (StatusCode resp) (StatusCode resp :: rest)) with true
    by (symmetry; rewrite isGoodCode_cons; cbn [existsb]; now rewrite Z.eqb_refl).
  cbn [negb]. rewrite snd_bind. cbn [index0 snd ret]. rewrite Z.eqb_refl.
  destruct (ReadAll resp) as [err | bodyBytes].
  - destruct quiet; reflexivity.
  - destruct structure; try reflexivity;
      destruct (json_Unmarshal L bodyBytes _) as [st [err |]];
      destruct quiet; reflexivity.
Qed.

End LocalGet.

(** ** The registry GET *)

Section RegistryGet.

Context {GoValue GoType : Type} (L : GoLib GoValue GoType).

Lemma snd_http_NewRequest (method url : string) (body : option string) (w : World) :
  snd (http_NewRequest L method url body w) =
  Returned match NewRequest_err L method url with
           | Some err => inl err
           | None => inr {| Method := method; URL := url; Header := []; ReqBody := body |}
           end.
Proof. reflexivity. Qed.

Lemma sent_http_NewRequest (method url : string) (body : option string) (w : World) :
  sent (fst (http_NewRequest L method url body w)) = [].
Proof. reflexivity. Qed.

Lemma snd_httpClient_Do (req : Request) (w : World) :
  snd (httpClient_Do req w) = Returned (RoundTrip w req).
Proof. reflexivity. Qed.

Lemma sent_httpClient_Do (req : Request) (w : World) :
  sent (fst (httpClient_Do req w)) = [req].
Proof. reflexivity. Qed.

Ltac enter_ExchangeGet Hnew :=
  unfold ExchangeGet;
  rewrite snd_bind, snd_Verbose;
  rewrite snd_bind, snd_http_NewRequest, Hnew; cbv beta iota zeta;
  try (rewrite snd_bind, snd_httpClient_Do;
       match goal with
       | Hresp : RoundTrip ?w ?r' = _ |- context [RoundTrip ?w ?r] =>
           change r with r'
       end).

Lemma ExchangeGet_new_request_failure (w : World) (urlBase urlSuffix credentials : string)
    (goodHttpCodes : list Z) (structure : Target GoType) (err : error) :
  NewRequest_err L MethodGet (urlBase ++ "/" ++ urlSuffix) = Some err ->
  snd (ExchangeGet L urlBase urlSuffix credentials goodHttpCodes structure w)
  = Exited HTTP_ERROR.
Proof. intros Hnew. enter_ExchangeGet Hnew. reflexivity. Qed.

Lemma ExchangeGet_transport_failure (w : World) (urlBase urlSuffix credentials : string)
    (goodHttpCodes : list Z) (structure : Target GoType) (err : error) :
  NewRequest_err L MethodGet (urlBase ++ "/" ++ urlSuffix) = None ->
  RoundTrip w (exchange_get_request L urlBase urlSuffix credentials) = inl err ->
  snd (ExchangeGet L urlBase urlSuffix credentials goodHttpCodes structure w)
  = Exited HTTP_ERROR.
Proof.
  intros Hnew Hresp. enter_ExchangeGet Hnew. rewrite Hresp.
  apply snd_printHorizonExchRestError.
Qed.

Lemma ExchangeGet_response (w : World) (urlBase urlSuffix credentials : string)
    (goodHttpCodes : list Z) (structure : Target GoType) (resp : Response) :
  NewRequest_err L MethodGet (urlBase ++ "/" ++ urlSuffix) = None ->
  RoundTrip w (exchange_get_request L urlBase urlSuffix credentials) = inr resp ->
  snd (ExchangeGet L urlBase urlSuffix credentials goodHttpCodes structure w) =
  match ReadAll resp with
  | inl _ => Exited HTTP_ERROR
  | inr bodyBytes =>
      if negb (isGoodCode (StatusCode resp) goodHttpCodes) then Exited HTTP_ERROR
      else if String.eqb bodyBytes "" then Returned (StatusCode resp, Untouched)
      else exchange_decode L (StatusCode resp) bodyBytes structure
  end.
Proof.
  intros Hnew Hresp. enter_ExchangeGet Hnew. rewrite Hresp.
  destruct (ReadAll resp) as [err | bodyBytes]; [reflexivity |].
  rewrite snd_bind, snd_Verbose.
  destruct (isGoodCode (StatusCode resp) goodHttpCodes); cbn [negb]; [| reflexivity].
  destruct bodyBytes as [| c r]; [reflexivity |].
  replace (0 <? Z.of_nat (String.length (String c r))) with true
    by (symmetry; apply Z.ltb_lt; cbn [String.length]; lia).
  cbn [String.eqb andb].
  destruct structure; cbn [is_nil negb exchange_decode]; try reflexivity.
  - destruct (json_Unmarshal_iface L (String c r)) as [err | v]; [reflexivity |].
    destruct (json_MarshalIndent L v "" JSON_INDENT); reflexivity.
  - destruct (json_Unmarshal L (String c r) (Other ty)) as [st [err |]]; reflexivity.
Qed.

Lemma sent_ExchangeGet (w : World) (urlBase urlSuffix credentials : string)
    (goodHttpCodes : list Z) (structure : Target GoType) :
  sent (fst (ExchangeGet L urlBase urlSuffix credentials goodHttpCodes structure w)) =
  match NewRequest_err L MethodGet (urlBase ++ "/" ++ urlSuffix) with
  | Some _ => []
  | None => [exchange_get_request L urlBase urlSuffix credentials]
  end.
Proof.
  unfold ExchangeGet.
  rewrite sent_bind, snd_Verbose, sent_Verbose. cbn [app].
  rewrite sent_bind, snd_http_NewRequest, sent_http_NewRequest. cbn [app].
  destruct (NewRequest_err L MethodGet (urlBase ++ "/" ++ urlSuffix)); [reflexivity |].
  cbv beta iota zeta.
  rewrite sent_bind, snd_httpClient_Do, sent_httpClient_Do.
  change (if nonempty credentials then _ else _)
    with (exchange_get_request L urlBase urlSuffix credentials).
  cbn [app]. f_equal.
  destruct (RoundTrip w _) as [err | resp]; [apply sent_printHorizonExchRestError |].
  destruct (ReadAll resp) as [err | bodyBytes]; [reflexivity |].
  rewrite sent_bind, snd_Verbose, sent_Verbose. cbn [app].
  destruct (negb _); [reflexivity |].
  destruct (_ && _); [| reflexivity].
  destruct structure; try reflexivity.
  - destruct (json_Unmarshal L bodyBytes NilTarget) as [st [err |]]; reflexivity.
  - destruct (json_Unmarshal_iface L bodyBytes) as [err | v]; [reflexivity |].
    destruct (json_MarshalIndent L v "" JSON_INDENT); reflexivity.
  - destruct (json_Unmarshal L bodyBytes (Other ty)) as [st [err |]]; reflexivity.
Qed.

(** The registry GET attaches the Basic-auth header exactly when the
    credentials are not empty. *)
Lemma exchange_get_authorization (urlBase urlSuffix credentials : string) :
  Header_Values "Authorization" (exchange_get_request L urlBase urlSuffix credentials) =
  if nonempty credentials then [basic_auth L credentials] else [].
Proof.
  unfold exchange_get_request. destruct (nonempty credentials); reflexivity.
Qed.

End RegistryGet.

(** ** The mutating operations *)

Section Mutating.

Context {GoValue GoType : Type} (L : GoLib GoValue GoType).

Ltac walk :=
  repeat first
    [ rewrite snd_bind | rewrite sent_bind
    | rewrite snd_Verbose | rewrite sent_Verbose
    | rewrite snd_IsDryRun | rewrite fst_IsDryRun
    | rewrite snd_http_NewRequest | rewrite sent_http_NewRequest
    | rewrite snd_httpClient_Do | rewrite sent_httpClient_Do
    | rewrite run_GetHorizonUrlBase
    | rewrite snd_printHorizonRestError | rewrite sent_printHorizonRestError
    | rewrite snd_printHorizonExchRestError | rewrite sent_printHorizonExchRestError
    | progress cbn [fst snd app sent flat_map ret negb] ].

Lemma HorizonPutPost_outcome (w : World) (method urlSuffix : string) (goodHttpCodes : list Z)
    (body : Body GoValue) :
  let url := horizon_base w ++ "/" ++ urlSuffix in
  snd (HorizonPutPost L method urlSuffix goodHttpCodes body w) =
  if OptsIsDryRun w then Returned (201, "")
  else
    match payload L true body with
    | inl _ => Exited JSON_PARSING_ERROR
    | inr (jsonBytes, bodyIsBytes) =>
        match NewRequest_err L method url with
        | Some _ => Exited HTTP_ERROR
        | None =>
            match RoundTrip w (put_post_request method url jsonBytes bodyIsBytes) with
            | inl _ => Exited HTTP_ERROR
            | inr resp =>
                if isGoodCode (StatusCode resp) goodHttpCodes
                then Returned (StatusCode resp, RespData resp)
                else Exited HTTP_ERROR
            end
        end
    end.
Proof.
  intros url. unfold HorizonPutPost. walk. fold url.
  destruct (OptsIsDryRun w); [reflexivity |]. walk.
  destruct body as [b | b | v]; cbn [payload];
    [| | destruct (json_Marshal L v) as [err | b]; [reflexivity |]];
    walk; (destruct (NewRequest_err L method url); [reflexivity |]);
    cbv beta iota zeta; walk;
    (match goal with
     | |- context [RoundTrip w ?r] =>
         change r with (put_post_request method url b true)
         || change r with (put_post_request method url b false)
     end);
    (destruct (RoundTrip w _) as [err' | resp]; walk; [reflexivity |]);
    destruct (isGoodCode (StatusCode resp) goodHttpCodes); reflexivity.
Qed.

Lemma sent_HorizonPutPost (w : World) (method urlSuffix : string) (goodHttpCodes : list Z)
    (body : Body GoValue) :
  let url := horizon_base w ++ "/" ++ urlSuffix in
  sent (fst (HorizonPutPost L method urlSuffix goodHttpCodes body w)) =
  if OptsIsDryRun w then []
  else
    match payload L true body with
    | inl _ => []
    | inr (jsonBytes, bodyIsBytes) =>
        match NewRequest_err L method url with
        | Some _ => []
        | None => [put_post_request method url jsonBytes bodyIsBytes]
        end
    end.
Proof.
  intros url. unfold HorizonPutPost. walk. fold url.
  destruct (OptsIsDryRun w); [reflexivity |]. walk.
  destruct body as [b | b | v]; cbn [payload];
    [| | destruct (json_Marshal L v) as [err | b]; [reflexivity |]];
    walk; (destruct (NewRequest_err L method url); [reflexivity |]);
    cbv beta iota zeta; walk;
    (match goal with
     | |- context [RoundTrip w ?r] =>
         change r with (put_post_request method url b true)
         || change r with (put_post_request method url b false)
     end);
    f_equal;
    (destruct (RoundTrip w _) as [err' | resp]; walk; [reflexivity |]);
    destruct (isGoodCode (StatusCode resp) goodHttpCodes); reflexivity.
Qed.

Lemma ExchangePutPost_outcome (w : World) (method urlBase urlSuffix credentials : string)
    (goodHttpCodes : list Z) (body : Body GoValue) :
  let url := urlBase ++ "/" ++ urlSuffix in
  snd (ExchangePutPost L method urlBase urlSuffix credentials goodHttpCodes body w) =
  if OptsIsDryRun w then Returned 201
  else
    match payload L false body with
    | inl _ => Exited JSON_PARSING_ERROR
    | inr (jsonBytes, bodyIsBytes) =>
        match NewRequest_err L method url with
        | Some _ => Exited HTTP_ERROR
        | None =>
            match RoundTrip w (with_credentials L credentials
                                 (put_post_request method url jsonBytes bodyIsBytes)) with
            | inl _ => Exited HTTP_ERROR
            | inr resp =>
                if isGoodCode (StatusCode resp) goodHttpCodes
                then Returned (StatusCode resp)
                else Exited HTTP_ERROR
            end
        end
    end.
Proof.
  intros url. unfold ExchangePutPost. walk. fold url.
  destruct (OptsIsDryRun w); [reflexivity |]. walk.
  destruct body as [b | b | v]; cbn [payload];
    [| | destruct (json_Marshal L v) as [err | b]; [reflexivity |]];
    walk; (destruct (NewRequest_err L method url); [reflexivity |]);
    cbv beta iota zeta; walk;
    (match goal with
     | |- context [RoundTrip w ?r] =>
         change r with (with_credentials L credentials (put_post_request method url b true))
         || change r with (with_credentials L credentials (put_post_request method url b false))
     end);
    (destruct (RoundTrip w _) as [err' | resp]; walk; [reflexivity |]);
    (destruct (isGoodCode (StatusCode resp) goodHttpCodes); walk; [reflexivity |]);
    (destruct (ReadAll resp) as [err' | bodyBytes]; [reflexivity |]);
    destruct (Unmarshal_PostDeviceResponse L bodyBytes) as [err' | [respCode respMsg]];
    reflexivity.
Qed.

Lemma sent_ExchangePutPost (w : World) (method urlBase urlSuffix credentials : string)
    (goodHttpCodes : list Z) (body : Body GoValue) :
  let url := urlBase ++ "/" ++ urlSuffix in
  sent (fst (ExchangePutPost L method urlBase urlSuffix credentials goodHttpCodes body w)) =
  if OptsIsDryRun w then []
  else
    match payload L false body with
    | inl _ => []
    | inr (jsonBytes, bodyIsBytes) =>
        match NewRequest_err L method url with
        | Some _ => []
        | None => [with_credentials L credentials
                     (put_post_request method url jsonBytes bodyIsBytes)]
        end
    end.
Proof.
  intros url. unfold ExchangePutPost. walk. fold url.
  destruct (OptsIsDryRun w); [reflexivity |]. walk.
  destruct body as [b | b | v]; cbn [payload];
    [| | destruct (json_Marshal L v) as [err | b]; [reflexivity |]];
    walk; (destruct (NewRequest_err L method url); [reflexivity |]);
    cbv beta iota zeta; walk;
    (match goal with
     | |- context [RoundTrip w ?r] =>
         change r with (with_credentials L credentials (put_post_request method url b true))
         || change r with (with_credentials L credentials (put_post_request method url b false))
     end);
    f_equal;
    (destruct (RoundTrip w _) as [err' | resp]; walk; [reflexivity |]);
    (destruct (isGoodCode (StatusCode resp) goodHttpCodes); walk; [reflexivity |]);
    (destruct (ReadAll resp) as [err' | bodyBytes]; [reflexivity |]);
    destruct (Unmarshal_PostDeviceResponse L bodyBytes) as [err' | [respCode respMsg]];
    reflexivity.
Qed.

Lemma HorizonDelete_outcome (w : World) (urlSuffix : string) (goodHttpCodes : list Z) :
  snd (HorizonDelete L urlSuffix goodHttpCodes w) =
  if OptsIsDryRun w then Returned 204
  else
    match NewRequest_err L MethodDelete (horizon_base w ++ "/" ++ urlSuffix) with
    | Some _ => Exited HTTP_ERROR
    | None =>
        match RoundTrip w (horizon_delete_request w urlSuffix) with
        | inl _ => Exited HTTP_ERROR
        | inr resp =>
            if isGoodCode (StatusCode resp) goodHttpCodes
            then Returned (StatusCode resp)
            else Exited HTTP_ERROR
        end
    end.
Proof.
  unfold HorizonDelete. walk.
  destruct (OptsIsDryRun w); [reflexivity |]. walk.
  destruct (NewRequest_err L MethodDelete _); [reflexivity |]. walk.
  fold (horizon_delete_request w urlSuffix).
  destruct (RoundTrip w _) as [err | resp]; walk; [reflexivity |].
  destruct (isGoodCode (StatusCode resp) goodHttpCodes); reflexivity.
Qed.

Lemma sent_HorizonDelete (w : World) (urlSuffix : string) (goodHttpCodes : list Z) :
  sent (fst (HorizonDelete L urlSuffix goodHttpCodes w)) =
  if OptsIsDryRun w then []
  else
    match NewRequest_err L MethodDelete (horizon_base w ++ "/" ++ urlSuffix) with
    | Some _ => []
    | None => [horizon_delete_request w urlSuffix]
    end.
Proof.
  unfold HorizonDelete. walk.
  destruct (OptsIsDryRun w); [reflexivity |]. walk.
  destruct (NewRequest_err L MethodDelete _); [reflexivity |]. walk.
  fold (horizon_delete_request w urlSuffix). f_equal.
  destruct (RoundTrip w _) as [err | resp]; walk; [reflexivity |].
  destruct (isGoodCode (StatusCode resp) goodHttpCodes); reflexivity.
Qed.

Lemma ExchangeDelete_outcome (w : World) (urlBase urlSuffix credentials : string)
    (goodHttpCodes : list Z) :
  snd (ExchangeDelete L urlBase urlSuffix credentials goodHttpCodes w) =
  if OptsIsDryRun w then Returned 204
  else
    match NewRequest_err L MethodDelete (urlBase ++ "/" ++ urlSuffix) with
    | Some _ => Exited HTTP_ERROR
    | None =>
        match RoundTrip w (exchange_delete_request L urlBase urlSuffix credentials) with
        | inl _ => Exited HTTP_ERROR
        | inr resp =>
            if isGoodCode (StatusCode resp) goodHttpCodes
            then Returned (StatusCode resp)
            else Exited HTTP_ERROR
        end
    end.
Proof.
  unfold ExchangeDelete. walk.
  destruct (OptsIsDryRun w); [reflexivity |]. walk.
  destruct (NewRequest_err L MethodDelete _); [reflexivity |].
  cbv beta iota zeta. walk.
  fold (exchange_delete_request L urlBase urlSuffix credentials).
  destruct (RoundTrip w _) as [err | resp]; walk; [reflexivity |].
  destruct (isGoodCode (StatusCode resp) goodHttpCodes); reflexivity.
Qed.

Lemma sent_ExchangeDelete (w : World) (urlBase urlSuffix credentials : string)
    (goodHttpCodes : list Z) :
  sent (fst (ExchangeDelete L urlBase urlSuffix credentials goodHttpCodes w)) =
  if OptsIsDryRun w then []
  else
    match NewRequest_err L MethodDelete (urlBase ++ "/" ++ urlSuffix) with
    | Some _ => []
    | None => [exchange_delete_request L urlBase urlSuffix credentials]
    end.
Proof.
  unfold ExchangeDelete. walk.
  destruct (OptsIsDryRun w); [reflexivity |]. walk.
  destruct (NewRequest_err L MethodDelete _); [reflexivity |].
  cbv beta iota zeta. walk.
  fold (exchange_delete_request L urlBase urlSuffix credentials). f_equal.
  destruct (RoundTrip w _) as [err | resp]; walk; [reflexivity |].
  destruct (isGoodCode (StatusCode resp) goodHttpCodes); reflexivity.
Qed.

End Mutating.

(** ** Which answers a GET decodes *)

Section Decoding.

Context {GoValue GoType : Type} (L : GoLib GoValue GoType).

Lemma isGoodCode_In (code first : Z) (rest : list Z) :
  In code (first :: rest) -> isGoodCode code (first :: rest) = true.
Proof. intros Hin. apply isGoodCode_accept_iff. now right. Qed.

(** A local-agent GET that returns with its target written was answered
    with the first code of its list. *)
Lemma HorizonGet_stored_first (w : World) (urlSuffix : string) (goodHttpCodes : list Z)
    (structure : Target GoType) (quiet : bool) (r : GetResult GoValue) :
  snd (HorizonGet L urlSuffix goodHttpCodes structure quiet w) = Returned r ->
  stored r <> Untouched ->
  exists rest, goodHttpCodes = httpCode r :: rest.
Proof.
  intros Hrun Hstored.
  destruct (RoundTrip w (horizon_get_request w urlSuffix)) as [err | resp] eqn:Hresp.
  { rewrite (HorizonGet_transport_failure L w _ _ _ _ err Hresp) in Hrun.
    destruct quiet; [| discriminate]. injection Hrun as <-. now contradiction Hstored. }
  destruct (isGoodCode (StatusCode resp) goodHttpCodes) eqn:Hgood.
  2:{ rewrite (HorizonGet_bad_code L w _ _ _ _ resp Hresp Hgood) in Hrun.
      destruct quiet; [| discriminate]. injection Hrun as <-. now contradiction Hstored. }
  destruct goodHttpCodes as [| first rest].
  { rewrite (HorizonGet_empty_list L w _ _ _ resp Hresp) in Hrun. discriminate. }
  destruct (Z.eq_dec (StatusCode resp) first) as [<- | Hne].
  2:{ rewrite (HorizonGet_secondary_code L w _ _ _ _ _ resp Hresp Hgood Hne) in Hrun.
      injection Hrun as <-. now contradiction Hstored. }
  exists rest. f_equal.
  rewrite (HorizonGet_first_code L w _ _ _ _ resp Hresp) in Hrun.
  destruct (ReadAll resp) as [err | bodyBytes].
  { destruct quiet; [| discriminate]. now injection Hrun as <-. }
  destruct structure;
    try (destruct (json_Unmarshal L bodyBytes _) as [st [err |]];
         try destruct quiet; try discriminate);
    now injection Hrun as <-.
Qed.

(** C1, as the code has it: a local-agent GET answered with an accepted
    code other than the first of a non-empty list leaves its target
    untouched and returns that code with no error, and it writes its
    target only when the code is the first of the list; a registry GET
    decodes a non-empty body at every accepted code, whatever the place of
    the code in the list. *)
Theorem GET_decoding_by_code :
  (forall (w : World) (urlSuffix : string) (first : Z) (rest : list Z)
          (structure : Target GoType) (quiet : bool) (resp : Response),
      RoundTrip w (horizon_get_request w urlSuffix) = inr resp ->
      In (StatusCode resp) (first :: rest) ->
      StatusCode resp <> first ->
      snd (HorizonGet L urlSuffix (first :: rest) structure quiet w)
      = Returned (mkGetResult (StatusCode resp) None Untouched))
  /\ (forall (w : World) (urlSuffix : string) (goodHttpCodes : list Z)
             (structure : Target GoType) (quiet : bool) (r : GetResult GoValue),
         snd (HorizonGet L urlSuffix goodHttpCodes structure quiet w) = Returned r ->
         stored r <> Untouched ->
         exists rest, goodHttpCodes = httpCode r :: rest)
  /\ (forall (w : World) (urlBase urlSuffix credentials : string) (goodHttpCodes : list Z)
             (structure : Target GoType) (resp : Response) (bodyBytes : string),
         NewRequest_err L MethodGet (urlBase ++ "/" ++ urlSuffix) = None ->
         RoundTrip w (exchange_get_request L urlBase urlSuffix credentials) = inr resp ->
         ReadAll resp = inr bodyBytes ->
         bodyBytes <> "" ->
         isGoodCode (StatusCode resp) goodHttpCodes = true ->
         snd (ExchangeGet L urlBase urlSuffix credentials goodHttpCodes structure w)
         = exchange_decode L (StatusCode resp) bodyBytes structure).
Proof.
  split; [| split].
  - intros w urlSuffix first rest structure quiet resp Hresp Hin Hne.
    apply HorizonGet_secondary_code; auto using isGoodCode_In.
  - apply HorizonGet_stored_first.
  - intros w urlBase urlSuffix credentials goodHttpCodes structure resp bodyBytes
           Hnew Hresp Hread Hbody Hgood.
    rewrite (ExchangeGet_response L w _ _ _ _ _ resp Hnew Hresp), Hread, Hgood.
    cbn [negb]. apply String.eqb_neq in Hbody. now rewrite Hbody.
Qed.

(** C6, as the code has it: a registry GET into a string target parses
    an accepted, non-empty body as generic JSON and stores its
    re-serialization with the two-space indent, and exits with the
    JSON-parse code when the body does not parse; a local-agent GET into a
    string target stores the body as it was read, parsed or not. *)
Theorem GET_string_target :
  (forall (w : World) (urlBase urlSuffix credentials : string) (goodHttpCodes : list Z)
          (resp : Response) (bodyBytes : string),
      NewRequest_err L MethodGet (urlBase ++ "/" ++ urlSuffix) = None ->
      RoundTrip w (exchange_get_request L urlBase urlSuffix credentials) = inr resp ->
      ReadAll resp = inr bodyBytes ->
      bodyBytes <> "" ->
      isGoodCode (StatusCode resp) goodHttpCodes = true ->
      snd (ExchangeGet L urlBase urlSuffix credentials goodHttpCodes StringPtr w) =
      match json_Unmarshal_iface L bodyBytes with
      | inl _ => Exited JSON_PARSING_ERROR
      | inr jsonStruct =>
          match json_MarshalIndent L jsonStruct "" "  " with
          | inl _ => Exited JSON_PARSING_ERROR
          | inr jsonBytes => Returned (StatusCode resp, StoredString jsonBytes)
          end
      end)
  /\ (forall (w : World) (urlSuffix : string) (rest : list Z) (quiet : bool)
             (resp : Response) (bodyBytes : string),
         RoundTrip w (horizon_get_request w urlSuffix) = inr resp ->
         ReadAll resp = inr bodyBytes ->
         snd (HorizonGet L urlSuffix (StatusCode resp :: rest) StringPtr quiet w)
         = Returned (mkGetResult (StatusCode resp) None (StoredString bodyBytes))).
Proof.
  split.
  - intros w urlBase urlSuffix credentials goodHttpCodes resp bodyBytes
           Hnew Hresp Hread Hbody Hgood.
    rewrite (ExchangeGet_response L w _ _ _ _ _ resp Hnew Hresp), Hread, Hgood.
    cbn [negb]. apply String.eqb_neq in Hbody. now rewrite Hbody.
  - intros w urlSuffix rest quiet resp bodyBytes Hresp Hread.
    rewrite (HorizonGet_first_code L w _ _ _ _ resp Hresp), Hread. reflexivity.
Qed.

(** C7, as the code has it: a registry GET answered with an accepted code
    and an empty body skips the decoding, whatever its target: the target
    is left as the caller made it and the code is returned; a local-agent
    GET hands the body of an answer with the first code to the JSON
    decoder, empty or not, and fails when the decoder does. *)
Theorem GET_empty_body :
  (forall (w : World) (urlBase urlSuffix credentials : string) (goodHttpCodes : list Z)
          (structure : Target GoType) (resp : Response),
      NewRequest_err L MethodGet (urlBase ++ "/" ++ urlSuffix) = None ->
      RoundTrip w (exchange_get_request L urlBase urlSuffix credentials) = inr resp ->
      ReadAll resp = inr "" ->
      isGoodCode (StatusCode resp) goodHttpCodes = true ->
      snd (ExchangeGet L urlBase urlSuffix credentials goodHttpCodes structure w)
      = Returned (StatusCode resp, Untouched))
  /\ (forall (w : World) (urlSuffix : string) (rest : list Z) (ty : GoType)
             (resp : Response) (st : Stored GoValue) (err : error),
         RoundTrip w (horizon_get_request w urlSuffix) = inr resp ->
         ReadAll resp = inr "" ->
         json_Unmarshal L "" (Other ty) = (st, Some err) ->
         snd (HorizonGet L urlSuffix (StatusCode resp :: rest) (Other ty) false w)
         = Exited JSON_PARSING_ERROR
         /\ exists e,
              snd (HorizonGet L urlSuffix (StatusCode resp :: rest) (Other ty) true w)
              = Returned (mkGetResult (StatusCode resp) (Some e) st)).
Proof.
  split.
  - intros w urlBase urlSuffix credentials goodHttpCodes structure resp
           Hnew Hresp Hread Hgood.
    rewrite (ExchangeGet_response L w _ _ _ _ _ resp Hnew Hresp), Hread, Hgood.
    reflexivity.
  - intros w urlSuffix rest ty resp st err Hresp Hread Hdec.
    rewrite !(HorizonGet_first_code L w _ _ _ _ resp Hresp), Hread, Hdec.
    split; [reflexivity | eexists; reflexivity].
Qed.

End Decoding.

(** *** Concrete runs *)

Lemma GET_decoding_by_code_witness :
  snd (HorizonGet Ref.lib "status" [200; 404] (Other Ref.PtrMap) false
         (answering (ok_response 404 "not found")))
  = Returned (mkGetResult 404 None Untouched)
  /\ snd (ExchangeGet Ref.lib "https://exchange/v1" "orgs/o/nodes/n" "o/u:pw" [200; 404]
            BytesPtr (answering (ok_response 404 "not found")))
     = Returned (404, StoredBytes "not found").
Proof.
  destruct (GET_decoding_by_code Ref.lib) as (Hlocal & _ & Hregistry).
  split.
  - apply (Hlocal (answering (ok_response 404 "not found")) "status" 200 [404]
             (Other Ref.PtrMap) false
             {| StatusCode := 404; RespData := "not found"; RespErr := None |}).
    + reflexivity.
    + right. left. reflexivity.
    + discriminate.
  - apply (Hregistry (answering (ok_response 404 "not found"))
             "https://exchange/v1" "orgs/o/nodes/n" "o/u:pw" [200; 404] BytesPtr
             {| StatusCode := 404; RespData := "not found"; RespErr := None |} "not found").
    + reflexivity.
    + reflexivity.
    + reflexivity.
    + discriminate.
    + reflexivity.
Defined.

(** The registry GET asked for codes 200 and 404 and answered 404 with a
    text that is not JSON: the body is decoded all the same; a map target
    ends the process with the JSON-parse code and a byte target receives
    the body. *)
Lemma ExchangeGet_decodes_secondary_code :
  isGoodCode 404 [200; 404] = true
  /\ 404 <> 200
  /\ snd (ExchangeGet Ref.lib "https://exchange/v1" "orgs/o/nodes/n" "o/u:pw" [200; 404]
            (Other Ref.PtrMap) (answering (ok_response 404 "not found")))
     = Exited JSON_PARSING_ERROR
  /\ snd (ExchangeGet Ref.lib "https://exchange/v1" "orgs/o/nodes/n" "o/u:pw" [200; 404]
            BytesPtr (answering (ok_response 404 "not found")))
     = Returned (404, StoredBytes "not found").
Proof. repeat split; try reflexivity. discriminate. Qed.

Lemma GET_string_target_witness :
  snd (ExchangeGet Ref.lib "https://exchange/v1" "orgs/o/services" "o/u:pw" [200]
         StringPtr (answering (ok_response 200 sample_object)))
  = Returned (200, StoredString sample_indented)
  /\ snd (ExchangeGet Ref.lib "https://exchange/v1" "orgs/o/services" "o/u:pw" [200]
            StringPtr (answering (ok_response 200 "{bad")))
     = Exited JSON_PARSING_ERROR
  /\ snd (HorizonGet Ref.lib "status" [200] StringPtr false
            (answering (ok_response 200 "{bad")))
     = Returned (mkGetResult 200 None (StoredString "{bad")).
Proof.
  destruct (GET_string_target Ref.lib) as (Hregistry & Hlocal).
  split; [| split].
  - apply (Hregistry (answering (ok_response 200 sample_object))
             "https://exchange/v1" "orgs/o/services" "o/u:pw" [200]
             {| StatusCode := 200; RespData := sample_object; RespErr := None |} sample_object);
      try reflexivity; discriminate.
  - apply (Hregistry (answering (ok_response 200 "{bad"))
             "https://exchange/v1" "orgs/o/services" "o/u:pw" [200]
             {| StatusCode := 200; RespData := "{bad"; RespErr := None |} "{bad");
      try reflexivity; discriminate.
  - apply (Hlocal (answering (ok_response 200 "{bad")) "status" [] false
             {| StatusCode := 200; RespData := "{bad"; RespErr := None |} "{bad");
      reflexivity.
Defined.

(** The local-agent GET into a string target: a body that is not JSON is
    returned as it is and no parse failure is raised, and a body that is
    JSON is returned as it is and not as its re-serialization. *)
Lemma HorizonGet_string_is_raw :
  (exists err, json_Unmarshal_iface Ref.lib "{bad" = inl err)
  /\ snd (HorizonGet Ref.lib "status" [200] StringPtr false
            (answering (ok_response 200 "{bad")))
     = Returned (mkGetResult 200 None (StoredString "{bad"))
  /\ snd (HorizonGet Ref.lib "status" [200] StringPtr false
            (answering (ok_response 200 sample_object)))
     = Returned (mkGetResult 200 None (StoredString sample_object))
  /\ sample_object <> sample_indented.
Proof.
  split; [eexists; reflexivity |].
  repeat split; try reflexivity. discriminate.
Qed.

Lemma GET_empty_body_witness :
  snd (ExchangeGet Ref.lib "https://exchange/v1" "orgs/o/nodes/n" "o/u:pw" [200]
         (Other Ref.PtrMap) (answering (ok_response 200 "")))
  = Returned (200, Untouched)
  /\ snd (HorizonGet Ref.lib "node" [200] (Other Ref.PtrMap) false
            (answering (ok_response 200 "")))
     = Exited JSON_PARSING_ERROR.
Proof.
  destruct (GET_empty_body Ref.lib) as (Hregistry & Hlocal).
  split.
  - apply (Hregistry (answering (ok_response 200 ""))
             "https://exchange/v1" "orgs/o/nodes/n" "o/u:pw" [200] (Other Ref.PtrMap)
             {| StatusCode := 200; RespData := ""; RespErr := None |});
      reflexivity.
  - apply (Hlocal (answering (ok_response 200 "")) "node" [] Ref.PtrMap
             {| StatusCode := 200; RespData := ""; RespErr := None |}
             Untouched "invalid JSON text");
      reflexivity.
Defined.

(** The local-agent GET into a map target answered 200 with an empty
    body: the decoding is not skipped; the process ends with the
    JSON-parse code, and in quiet mode an error is returned. *)
Lemma HorizonGet_empty_body_fails :
  snd (HorizonGet Ref.lib "node" [200] (Other Ref.PtrMap) false
         (answering (ok_response 200 "")))
  = Exited JSON_PARSING_ERROR
  /\ exists e,
       snd (HorizonGet Ref.lib "node" [200] (Other Ref.PtrMap) true
              (answering (ok_response 200 "")))
       = Returned (mkGetResult 200 (Some e) Untouched).
Proof. split; [reflexivity | eexists; reflexivity]. Qed.

(** C4: a local-agent GET with the empty list of acceptable codes that
    is answered, here with code 200, does not return the code: after the
    acceptance check has passed, the first element of the empty list is
    read and the run panics, in quiet mode as well. *)
Theorem HorizonGet_empty_list_panics :
  isGoodCode 200 [] = true
  /\ snd (HorizonGet Ref.lib "status" [] StringPtr false (answering (ok_response 200 "{}")))
     = Panicked "runtime error: index out of range [0] with length 0"
  /\ snd (HorizonGet Ref.lib "status" [] (Other Ref.PtrMap) true
            (answering (ok_response 200 "{}")))
     = Panicked "runtime error: index out of range [0] with length 0".
Proof. repeat split. Qed.

(** ** Headers of the requests *)

Section Headers.

Context {GoValue GoType : Type} (L : GoLib GoValue GoType).

Lemma put_post_request_upload (method url jsonBytes : string) :
  ReqBody (put_post_request method url jsonBytes true) = Some jsonBytes
  /\ Header_Values "Content-Length" (put_post_request method url jsonBytes true)
     = [Itoa (Z.of_nat (String.length jsonBytes))]
  /\ Header_Values "Content-Type" (put_post_request method url jsonBytes true) = [].
Proof. repeat split. Qed.

Lemma put_post_request_json (method url jsonBytes : string) :
  ReqBody (put_post_request method url jsonBytes false) = Some jsonBytes
  /\ Header_Values "Content-Type" (put_post_request method url jsonBytes false)
     = ["application/json"]
  /\ Header_Values "Content-Length" (put_post_request method url jsonBytes false) = [].
Proof. repeat split. Qed.

(** Adding the credentials changes neither the body nor the two content
    headers. *)
Lemma with_credentials_content (credentials : string) (req : Request) :
  ReqBody (with_credentials L credentials req) = ReqBody req
  /\ Header_Values "Content-Length" (with_credentials L credentials req)
     = Header_Values "Content-Length" req
  /\ Header_Values "Content-Type" (with_credentials L credentials req)
     = Header_Values "Content-Type" req.
Proof.
  unfold with_credentials. destruct (nonempty credentials); [| repeat split].
  unfold Header_Values, Header_Add. cbn [Header ReqBody].
  rewrite !filter_app, !map_app. cbn. rewrite !app_nil_r. repeat split.
Qed.

(** C5, as the code has it: the local-agent PUT/POST sends raw bytes and
    a string unencoded with a Content-Length header and no Content-Type,
    and any other body JSON-marshaled with Content-Type: application/json
    and no Content-Length; the registry PUT/POST does the same for raw
    bytes and for other bodies but sends a string unencoded with
    Content-Type: application/json and no Content-Length. *)
Theorem put_post_body_headers (w : World) (method urlBase urlSuffix credentials : string)
    (goodHttpCodes : list Z) (body : Body GoValue) (req : Request) :
  (In req (sent (fst (HorizonPutPost L method urlSuffix goodHttpCodes body w))) ->
   match body with
   | BodyBytes b | BodyString b =>
       ReqBody req = Some b
       /\ Header_Values "Content-Length" req = [Itoa (Z.of_nat (String.length b))]
       /\ Header_Values "Content-Type" req = []
   | BodyOther v =>
       exists jsonBytes,
         json_Marshal L v = inr jsonBytes
         /\ ReqBody req = Some jsonBytes
         /\ Header_Values "Content-Type" req = ["application/json"]
         /\ Header_Values "Content-Length" req = []
   end)
  /\ (In req (sent (fst (ExchangePutPost L method urlBase urlSuffix credentials
                           goodHttpCodes body w))) ->
      match body with
      | BodyBytes b =>
          ReqBody req = Some b
          /\ Header_Values "Content-Length" req = [Itoa (Z.of_nat (String.length b))]
          /\ Header_Values "Content-Type" req = []
      | BodyString b =>
          ReqBody req = Some b
          /\ Header_Values "Content-Type" req = ["application/json"]
          /\ Header_Values "Content-Length" req = []
      | BodyOther v =>
          exists jsonBytes,
            json_Marshal L v = inr jsonBytes
            /\ ReqBody req = Some jsonBytes
            /\ Header_Values "Content-Type" req = ["application/json"]
            /\ Header_Values "Content-Length" req = []
      end).
Proof.
  split; intros Hsent.
  - rewrite sent_HorizonPutPost in Hsent.
    destruct (OptsIsDryRun w); [contradiction |].
    destruct body as [b | b | v]; cbn [payload] in Hsent;
      [| | destruct (json_Marshal L v) as [err | b] eqn:Hmarshal; [contradiction |]];
      (destruct (NewRequest_err L method _); [contradiction |]);
      destruct Hsent as [<- | []];
      try (exists b; split; [reflexivity |]);
      repeat split.
  - rewrite sent_ExchangePutPost in Hsent.
    destruct (OptsIsDryRun w); [contradiction |].
    destruct body as [b | b | v]; cbn [payload] in Hsent;
      [| | destruct (json_Marshal L v) as [err | b] eqn:Hmarshal; [contradiction |]];
      (destruct (NewRequest_err L method _); [contradiction |]);
      destruct Hsent as [<- | []];
      try (exists b; split; [reflexivity |]);
      match goal with
      | |- context [with_credentials L ?c ?r] =>
          destruct (with_credentials_content c r) as (-> & -> & ->)
      end;
      repeat split.
Qed.

(** The registry GET and PUT/POST attach the Basic-auth header exactly
    when the credentials are not empty; the registry DELETE attaches it
    always. *)
Lemma with_credentials_authorization (credentials method url jsonBytes : string)
    (bodyIsBytes : bool) :
  Header_Values "Authorization"
    (with_credentials L credentials (put_post_request method url jsonBytes bodyIsBytes)) =
  if nonempty credentials then [basic_auth L credentials] else [].
Proof.
  unfold with_credentials.
  destruct (nonempty credentials), bodyIsBytes; reflexivity.
Qed.

Lemma exchange_delete_authorization (urlBase urlSuffix credentials : string) :
  Header_Values "Authorization" (exchange_delete_request L urlBase urlSuffix credentials)
  = [basic_auth L credentials].
Proof. reflexivity. Qed.

End Headers.

Lemma put_post_body_headers_witness :
  In (put_post_request "PUT" "http://localhost/node" "{}" true)
     (sent (fst (HorizonPutPost Ref.lib "PUT" "node" [201] (BodyString "{}")
                   (answering (ok_response 201 "")))))
  /\ Header_Values "Content-Length" (put_post_request "PUT" "http://localhost/node" "{}" true)
     = ["2"].
Proof.
  assert (Hsent : In (put_post_request "PUT" "http://localhost/node" "{}" true)
                    (sent (fst (HorizonPutPost Ref.lib "PUT" "node" [201] (BodyString "{}")
                                  (answering (ok_response 201 ""))))))
    by (left; reflexivity).
  split; [exact Hsent |].
  exact (proj1 (proj2 (proj1 (put_post_body_headers Ref.lib (answering (ok_response 201 ""))
                                "PUT" "https://exchange/v1" "node" "o/u:pw" [201]
                                (BodyString "{}") _) Hsent))).
Defined.

(** The registry PUT of a string body: the one request sent carries the
    string as it is, with Content-Type: application/json and without a
    Content-Length header. *)
Lemma ExchangePutPost_string_is_json :
  map (fun req => (ReqBody req, Header_Values "Content-Length" req,
                   Header_Values "Content-Type" req))
    (sent (fst (ExchangePutPost Ref.lib "PUT" "https://exchange/v1" "orgs/o/nodes/n"
                  "o/u:pw" [201] (BodyString "{}") (answering (ok_response 201 "")))))
  = [(Some "{}", [], ["application/json"])].
Proof. reflexivity. Qed.

(** C3: the registry DELETE called with the empty credentials string
    sends a request that carries an Authorization header, of value
    "Basic " followed by the encoding of the empty string, where the
    registry GET and PUT/POST of the same call carry none. *)
Theorem ExchangeDelete_empty_credentials_header :
  map (Header_Values "Authorization")
    (sent (fst (ExchangeDelete Ref.lib "https://exchange/v1" "orgs/o/nodes/n" "" [204]
                  (answering (ok_response 204 "")))))
  = [["Basic "]]
  /\ map (Header_Values "Authorization")
       (sent (fst (ExchangeGet Ref.lib "https://exchange/v1" "orgs/o/nodes/n" "" [200]
                     StringPtr (answering (ok_response 200 "{}")))))
     = [[]]
  /\ map (Header_Values "Authorization")
       (sent (fst (ExchangePutPost Ref.lib "PUT" "https://exchange/v1" "orgs/o/nodes/n" ""
                     [201] (BodyString "{}") (answering (ok_response 201 "")))))
     = [[]]
  /\ map (Header_Values "Authorization")
       (sent (fst (ExchangeGet Ref.lib "https://exchange/v1" "orgs/o/nodes/n" "a:b" [200]
                     StringPtr (answering (ok_response 200 "{}")))))
     = [["Basic YTpi"]].
Proof. repeat split. Qed.

(** ** Where failures end *)

Section Failures.

Context {GoValue GoType : Type} (L : GoLib GoValue GoType).

Lemma isGoodCode_outside (code : Z) (goodHttpCodes : list Z) :
  goodHttpCodes <> [] -> ~ In code goodHttpCodes -> isGoodCode code goodHttpCodes = false.
Proof.
  intros Hne Hout. destruct (isGoodCode code goodHttpCodes) eqn:Hgood; [| reflexivity].
  apply isGoodCode_accept_iff in Hgood. destruct Hgood; contradiction.
Qed.

(** Each of the four failures of the local-agent GET ends the process
    when the call is not quiet, and is returned as an error when it is. *)
Lemma HorizonGet_failures (w : World) (urlSuffix : string) (goodHttpCodes : list Z)
    (structure : Target GoType) :
  (forall err,
      RoundTrip w (horizon_get_request w urlSuffix) = inl err ->
      snd (HorizonGet L urlSuffix goodHttpCodes structure false w) = Exited HTTP_ERROR
      /\ snd (HorizonGet L urlSuffix goodHttpCodes structure true w)
         = Returned (mkGetResult 0 (Some (quiet_error L w urlSuffix (NoAnswer err))) Untouched))
  /\ (forall resp,
         RoundTrip w (horizon_get_request w urlSuffix) = inr resp ->
         goodHttpCodes <> [] ->
         ~ In (StatusCode resp) goodHttpCodes ->
         snd (HorizonGet L urlSuffix goodHttpCodes structure false w) = Exited HTTP_ERROR
         /\ snd (HorizonGet L urlSuffix goodHttpCodes structure true w)
            = Returned (mkGetResult (StatusCode resp)
                          (Some (quiet_error L w urlSuffix (BadCode (StatusCode resp))))
                          Untouched))
  /\ (forall resp rest err,
         RoundTrip w (horizon_get_request w urlSuffix) = inr resp ->
         goodHttpCodes = StatusCode resp :: rest ->
         ReadAll resp = inl err ->
         snd (HorizonGet L urlSuffix goodHttpCodes structure false w) = Exited HTTP_ERROR
         /\ snd (HorizonGet L urlSuffix goodHttpCodes structure true w)
            = Returned (mkGetResult (StatusCode resp)
                          (Some (quiet_error L w urlSuffix (BodyRead err))) Untouched))
  /\ (forall resp rest bodyBytes st err,
         RoundTrip w (horizon_get_request w urlSuffix) = inr resp ->
         goodHttpCodes = StatusCode resp :: rest ->
         ReadAll resp = inr bodyBytes ->
         structure <> StringPtr ->
         json_Unmarshal L bodyBytes structure = (st, Some err) ->
         snd (HorizonGet L urlSuffix goodHttpCodes structure false w)
         = Exited JSON_PARSING_ERROR
         /\ snd (HorizonGet L urlSuffix goodHttpCodes structure true w)
            = Returned (mkGetResult (StatusCode resp)
                          (Some (quiet_error L w urlSuffix (BodyParse err))) st)).
Proof.
  repeat apply conj.
  - intros err Hresp.
    rewrite !(HorizonGet_transport_failure L w _ _ _ _ err Hresp). now split.
  - intros resp Hresp Hne Hout.
    rewrite !(HorizonGet_bad_code L w _ _ _ _ resp Hresp (isGoodCode_outside _ _ Hne Hout)).
    now split.
  - intros resp rest err Hresp -> Hread.
    rewrite !(HorizonGet_first_code L w _ _ _ _ resp Hresp), Hread. now split.
  - intros resp rest bodyBytes st err Hresp -> Hread Hstruct Hdec.
    rewrite !(HorizonGet_first_code L w _ _ _ _ resp Hresp), Hread.
    destruct structure; try contradiction; rewrite Hdec; now split.
Qed.

(** A local-agent GET that is not quiet returns no error. *)
Lemma HorizonGet_loud_no_error (w : World) (urlSuffix : string) (goodHttpCodes : list Z)
    (structure : Target GoType) (r : GetResult GoValue) :
  snd (HorizonGet L urlSuffix goodHttpCodes structure false w) = Returned r ->
  retError r = None.
Proof.
  intros Hrun.
  destruct (RoundTrip w (horizon_get_request w urlSuffix)) as [err | resp] eqn:Hresp.
  { rewrite (HorizonGet_transport_failure L w _ _ _ _ err Hresp) in Hrun. discriminate. }
  destruct (isGoodCode (StatusCode resp) goodHttpCodes) eqn:Hgood.
  2:{ rewrite (HorizonGet_bad_code L w _ _ _ _ resp Hresp Hgood) in Hrun. discriminate. }
  destruct goodHttpCodes as [| first rest].
  { rewrite (HorizonGet_empty_list L w _ _ _ resp Hresp) in Hrun. discriminate. }
  destruct (Z.eq_dec (StatusCode resp) first) as [<- | Hne].
  2:{ rewrite (HorizonGet_secondary_code L w _ _ _ _ _ resp Hresp Hgood Hne) in Hrun.
      now injection Hrun as <-. }
  rewrite (HorizonGet_first_code L w _ _ _ _ resp Hresp) in Hrun.
  destruct (ReadAll resp) as [err | bodyBytes]; [discriminate |].
  destruct structure;
    try (destruct (json_Unmarshal L bodyBytes _) as [st [err |]]; try discriminate);
    now injection Hrun as <-.
Qed.

(** Transport failure and a code outside the list end each mutating
    operation. *)
Lemma HorizonPutPost_failures (w : World) (method urlSuffix : string)
    (goodHttpCodes : list Z) (body : Body GoValue) (req : Request) :
  In req (sent (fst (HorizonPutPost L method urlSuffix goodHttpCodes body w))) ->
  (forall err, RoundTrip w req = inl err ->
     snd (HorizonPutPost L method urlSuffix goodHttpCodes body w) = Exited HTTP_ERROR)
  /\ (forall resp, RoundTrip w req = inr resp ->
        isGoodCode (StatusCode resp) goodHttpCodes = false ->
        snd (HorizonPutPost L method urlSuffix goodHttpCodes body w) = Exited HTTP_ERROR).
Proof.
  intros Hsent. rewrite sent_HorizonPutPost in Hsent. rewrite HorizonPutPost_outcome.
  destruct (OptsIsDryRun w); [contradiction |].
  destruct (payload L true body) as [err | [jsonBytes bodyIsBytes]]; [contradiction |].
  destruct (NewRequest_err L method _); [contradiction |].
  destruct Hsent as [<- | []].
  split; [intros err -> | intros resp -> ->]; reflexivity.
Qed.

Lemma ExchangePutPost_failures (w : World) (method urlBase urlSuffix credentials : string)
    (goodHttpCodes : list Z) (body : Body GoValue) (req : Request) :
  In req (sent (fst (ExchangePutPost L method urlBase urlSuffix credentials
                       goodHttpCodes body w))) ->
  (forall err, RoundTrip w req = inl err ->
     snd (ExchangePutPost L method urlBase urlSuffix credentials goodHttpCodes body w)
     = Exited HTTP_ERROR)
  /\ (forall resp, RoundTrip w req = inr resp ->
        isGoodCode (StatusCode resp) goodHttpCodes = false ->
        snd (ExchangePutPost L method urlBase urlSuffix credentials goodHttpCodes body w)
        = Exited HTTP_ERROR).
Proof.
  intros Hsent. rewrite sent_ExchangePutPost in Hsent. rewrite ExchangePutPost_outcome.
  destruct (OptsIsDryRun w); [contradiction |].
  destruct (payload L false body) as [err | [jsonBytes bodyIsBytes]]; [contradiction |].
  destruct (NewRequest_err L method _); [contradiction |].
  destruct Hsent as [<- | []].
  split; [intros err -> | intros resp -> ->]; reflexivity.
Qed.

Lemma HorizonDelete_failures (w : World) (urlSuffix : string) (goodHttpCodes : list Z)
    (req : Request) :
  In req (sent (fst (HorizonDelete L urlSuffix goodHttpCodes w))) ->
  (forall err, RoundTrip w req = inl err ->
     snd (HorizonDelete L urlSuffix goodHttpCodes w) = Exited HTTP_ERROR)
  /\ (forall resp, RoundTrip w req = inr resp ->
        isGoodCode (StatusCode resp) goodHttpCodes = false ->
        snd (HorizonDelete L urlSuffix goodHttpCodes w) = Exited HTTP_ERROR).
Proof.
  intros Hsent. rewrite sent_HorizonDelete in Hsent. rewrite HorizonDelete_outcome.
  destruct (OptsIsDryRun w); [contradiction |].
  destruct (NewRequest_err L MethodDelete _); [contradiction |].
  destruct Hsent as [<- | []].
  split; [intros err -> | intros resp -> ->]; reflexivity.
Qed.

Lemma ExchangeDelete_failures (w : World) (urlBase urlSuffix credentials : string)
    (goodHttpCodes : list Z) (req : Request) :
  In req (sent (fst (ExchangeDelete L urlBase urlSuffix credentials goodHttpCodes w))) ->
  (forall err, RoundTrip w req = inl err ->
     snd (ExchangeDelete L urlBase urlSuffix credentials goodHttpCodes w) = Exited HTTP_ERROR)
  /\ (forall resp, RoundTrip w req = inr resp ->
        isGoodCode (StatusCode resp) goodHttpCodes = false ->
        snd (ExchangeDelete L urlBase urlSuffix credentials goodHttpCodes w)
        = Exited HTTP_ERROR).
Proof.
  intros Hsent. rewrite sent_ExchangeDelete in Hsent. rewrite ExchangeDelete_outcome.
  destruct (OptsIsDryRun w); [contradiction |].
  destruct (NewRequest_err L MethodDelete _); [contradiction |].
  destruct Hsent as [<- | []].
  split; [intros err -> | intros resp -> ->]; reflexivity.
Qed.

(** The registry GET ends on each of the four failures. *)
Lemma ExchangeGet_failures (w : World) (urlBase urlSuffix credentials : string)
    (goodHttpCodes : list Z) (structure : Target GoType) (req : Request) :
  In req (sent (fst (ExchangeGet L urlBase urlSuffix credentials goodHttpCodes structure w))) ->
  (forall err, RoundTrip w req = inl err ->
     snd (ExchangeGet L urlBase urlSuffix credentials goodHttpCodes structure w)
     = Exited HTTP_ERROR)
  /\ (forall resp, RoundTrip w req = inr resp ->
        isGoodCode (StatusCode resp) goodHttpCodes = false ->
        snd (ExchangeGet L urlBase urlSuffix credentials goodHttpCodes structure w)
        = Exited HTTP_ERROR)
  /\ (forall resp err, RoundTrip w req = inr resp ->
        ReadAll resp = inl err ->
        snd (ExchangeGet L urlBase urlSuffix credentials goodHttpCodes structure w)
        = Exited HTTP_ERROR)
  /\ (forall resp bodyBytes, RoundTrip w req = inr resp ->
        ReadAll resp = inr bodyBytes ->
        bodyBytes <> "" ->
        isGoodCode (StatusCode resp) goodHttpCodes = true ->
        match structure with
        | StringPtr => exists err, json_Unmarshal_iface L bodyBytes = inl err
        | Other _ => exists st err, json_Unmarshal L bodyBytes structure = (st, Some err)
        | _ => False
        end ->
        snd (ExchangeGet L urlBase urlSuffix credentials goodHttpCodes structure w)
        = Exited JSON_PARSING_ERROR).
Proof.
  intros Hsent. rewrite sent_ExchangeGet in Hsent.
  destruct (NewRequest_err L MethodGet _) eqn:Hnew; [contradiction |].
  destruct Hsent as [<- | []].
  repeat apply conj.
  - intros err Hresp. now apply ExchangeGet_transport_failure with (err := err).
  - intros resp Hresp Hbad.
    rewrite (ExchangeGet_response L w _ _ _ _ _ resp Hnew Hresp), Hbad.
    destruct (ReadAll resp); reflexivity.
  - intros resp err Hresp Hread.
    rewrite (ExchangeGet_response L w _ _ _ _ _ resp Hnew Hresp), Hread. reflexivity.
  - intros resp bodyBytes Hresp Hread Hbody Hgood Hfail.
    rewrite (ExchangeGet_response L w _ _ _ _ _ resp Hnew Hresp), Hread, Hgood.
    cbn [negb]. apply String.eqb_neq in Hbody. rewrite Hbody.
    destruct structure; try contradiction; cbn [exchange_decode].
    + destruct Hfail as (err & ->). reflexivity.
    + destruct Hfail as (st & err & ->). reflexivity.
Qed.

End Failures.

Section Propagation.

Context {GoValue GoType : Type} (L : GoLib GoValue GoType).

(** C8, as the code has it: the quiet mode of the local-agent GET is the
    only path that returns an error: each of its four failures (no answer,
    a code outside a non-empty list, a broken body stream, a body that
    does not unmarshal) comes back as an error value when the call is
    quiet and ends the process when it is not, and a call that is not
    quiet never returns an error.  In every other operation no answer and
    a code outside the list end the process, and so do a broken body
    stream and a body that does not unmarshal in the registry GET.  (The
    local-agent PUT/POST reads the response body without checking the
    read, so a broken body stream does not end it.) *)
Theorem failure_propagation (w : World) (method urlBase urlSuffix credentials : string)
    (goodHttpCodes : list Z) (structure : Target GoType) (body : Body GoValue)
    (req : Request) :
  ((forall err,
       RoundTrip w (horizon_get_request w urlSuffix) = inl err ->
       snd (HorizonGet L urlSuffix goodHttpCodes structure false w) = Exited HTTP_ERROR
       /\ snd (HorizonGet L urlSuffix goodHttpCodes structure true w)
          = Returned (mkGetResult 0 (Some (quiet_error L w urlSuffix (NoAnswer err))) Untouched))
   /\ (forall resp,
          RoundTrip w (horizon_get_request w urlSuffix) = inr resp ->
          goodHttpCodes <> [] ->
          ~ In (StatusCode resp) goodHttpCodes ->
          snd (HorizonGet L urlSuffix goodHttpCodes structure false w) = Exited HTTP_ERROR
          /\ snd (HorizonGet L urlSuffix goodHttpCodes structure true w)
             = Returned (mkGetResult (StatusCode resp)
                           (Some (quiet_error L w urlSuffix (BadCode (StatusCode resp))))
                           Untouched))
   /\ (forall resp rest err,
          RoundTrip w (horizon_get_request w urlSuffix) = inr resp ->
          goodHttpCodes = StatusCode resp :: rest ->
          ReadAll resp = inl err ->
          snd (HorizonGet L urlSuffix goodHttpCodes structure false w) = Exited HTTP_ERROR
          /\ snd (HorizonGet L urlSuffix goodHttpCodes structure true w)
             = Returned (mkGetResult (StatusCode resp)
                           (Some (quiet_error L w urlSuffix (BodyRead err))) Untouched))
   /\ (forall resp rest bodyBytes st err,
          RoundTrip w (horizon_get_request w urlSuffix) = inr resp ->
          goodHttpCodes = StatusCode resp :: rest ->
          ReadAll resp = inr bodyBytes ->
          structure <> StringPtr ->
          json_Unmarshal L bodyBytes structure = (st, Some err) ->
          snd (HorizonGet L urlSuffix goodHttpCodes structure false w)
          = Exited JSON_PARSING_ERROR
          /\ snd (HorizonGet L urlSuffix goodHttpCodes structure true w)
             = Returned (mkGetResult (StatusCode resp)
                           (Some (quiet_error L w urlSuffix (BodyParse err))) st)))
  /\ (forall r,
         snd (HorizonGet L urlSuffix goodHttpCodes structure false w) = Returned r ->
         retError r = None)
  /\ (In req (sent (fst (HorizonDelete L urlSuffix goodHttpCodes w))) ->
      (forall err, RoundTrip w req = inl err ->
         snd (HorizonDelete L urlSuffix goodHttpCodes w) = Exited HTTP_ERROR)
      /\ (forall resp, RoundTrip w req = inr resp ->
            isGoodCode (StatusCode resp) goodHttpCodes = false ->
            snd (HorizonDelete L urlSuffix goodHttpCodes w) = Exited HTTP_ERROR))
  /\ (In req (sent (fst (HorizonPutPost L method urlSuffix goodHttpCodes body w))) ->
      (forall err, RoundTrip w req = inl err ->
         snd (HorizonPutPost L method urlSuffix goodHttpCodes body w) = Exited HTTP_ERROR)
      /\ (forall resp, RoundTrip w req = inr resp ->
            isGoodCode (StatusCode resp) goodHttpCodes = false ->
            snd (HorizonPutPost L method urlSuffix goodHttpCodes body w) = Exited HTTP_ERROR))
  /\ (In req (sent (fst (ExchangePutPost L method urlBase urlSuffix credentials
                           goodHttpCodes body w))) ->
      (forall err, RoundTrip w req = inl err ->
         snd (ExchangePutPost L method urlBase urlSuffix credentials goodHttpCodes body w)
         = Exited HTTP_ERROR)
      /\ (forall resp, RoundTrip w req = inr resp ->
            isGoodCode (StatusCode resp) goodHttpCodes = false ->
            snd (ExchangePutPost L method urlBase urlSuffix credentials goodHttpCodes body w)
            = Exited HTTP_ERROR))
  /\ (In req (sent (fst (ExchangeDelete L urlBase urlSuffix credentials goodHttpCodes w))) ->
      (forall err, RoundTrip w req = inl err ->
         snd (ExchangeDelete L urlBase urlSuffix credentials goodHttpCodes w)
         = Exited HTTP_ERROR)
      /\ (forall resp, RoundTrip w req = inr resp ->
            isGoodCode (StatusCode resp) goodHttpCodes = false ->
            snd (ExchangeDelete L urlBase urlSuffix credentials goodHttpCodes w)
            = Exited HTTP_ERROR))
  /\ (In req (sent (fst (ExchangeGet L urlBase urlSuffix credentials goodHttpCodes
                           structure w))) ->
      (forall err, RoundTrip w req = inl err ->
         snd (ExchangeGet L urlBase urlSuffix credentials goodHttpCodes structure w)
         = Exited HTTP_ERROR)
      /\ (forall resp, RoundTrip w req = inr resp ->
            isGoodCode (StatusCode resp) goodHttpCodes = false ->
            snd (ExchangeGet L urlBase urlSuffix credentials goodHttpCodes structure w)
            = Exited HTTP_ERROR)
      /\ (forall resp err, RoundTrip w req = inr resp ->
            ReadAll resp = inl err ->
            snd (ExchangeGet L urlBase urlSuffix credentials goodHttpCodes structure w)
            = Exited HTTP_ERROR)
      /\ (forall resp bodyBytes, RoundTrip w req = inr resp ->
            ReadAll resp = inr bodyBytes ->
            bodyBytes <> "" ->
            isGoodCode (StatusCode resp) goodHttpCodes = true ->
            match structure with
            | StringPtr => exists err, json_Unmarshal_iface L bodyBytes = inl err
            | Other _ => exists st err, json_Unmarshal L bodyBytes structure = (st, Some err)
            | _ => False
            end ->
            snd (ExchangeGet L urlBase urlSuffix credentials goodHttpCodes structure w)
            = Exited JSON_PARSING_ERROR)).
Proof.
  split; [apply HorizonGet_failures |].
  split; [apply HorizonGet_loud_no_error |].
  split; [apply HorizonDelete_failures |].
  split; [apply HorizonPutPost_failures |].
  split; [apply ExchangePutPost_failures |].
  split; [apply ExchangeDelete_failures | apply ExchangeGet_failures].
Qed.

End Propagation.

Lemma failure_propagation_witness :
  (snd (HorizonGet Ref.lib "status" [200] StringPtr false (answering (ok_response 500 "down")))
   = Exited HTTP_ERROR
   /\ snd (HorizonGet Ref.lib "status" [200] StringPtr true (answering (ok_response 500 "down")))
      = Returned (mkGetResult 500 (Some "Bad HTTP code from GET http://localhost/status: 500")
                    Untouched))
  /\ snd (ExchangeDelete Ref.lib "https://exchange/v1" "orgs/o/nodes/n" "o/u:pw" [204]
            (answering (inl "connection refused")))
     = Exited HTTP_ERROR.
Proof.
  pose proof (failure_propagation Ref.lib (answering (ok_response 500 "down"))
                "PUT" "https://exchange/v1" "status" "o/u:pw" [200] StringPtr
                (BodyString "{}") (horizon_get_request (answering (ok_response 500 "down")) "status"))
    as ((_ & Hcode & _) & _).
  pose proof (failure_propagation Ref.lib (answering (inl "connection refused"))
                "PUT" "https://exchange/v1" "orgs/o/nodes/n" "o/u:pw" [204] StringPtr
                (BodyString "{}")
                (exchange_delete_request Ref.lib "https://exchange/v1" "orgs/o/nodes/n" "o/u:pw"))
    as (_ & _ & _ & _ & _ & Hdelete & _).
  split.
  - apply (Hcode {| StatusCode := 500; RespData := "down"; RespErr := None |}).
    + reflexivity.
    + discriminate.
    + intros [H | []]. discriminate H.
  - apply Hdelete with (err := "connection refused").
    + left. reflexivity.
    + reflexivity.
Defined.

(** The local-agent PUT answered 201 with a body stream that breaks: the
    read of the body fails, and the call neither ends the process nor
    reports an error; it returns the code with the text read so far. *)
Lemma HorizonPutPost_unchecked_body_read :
  ReadAll {| StatusCode := 201; RespData := "{"; RespErr := Some "unexpected EOF" |}
  = inl "unexpected EOF"
  /\ snd (HorizonPutPost Ref.lib "PUT" "node" [201] (BodyString "{}")
            (answering (broken_response 201 "{" "unexpected EOF")))
     = Returned (201, "{").
Proof. split; reflexivity. Qed.

(** * Further properties *)

(** ** Splitting at a byte *)

Lemma prefix_byte (c d : ascii) (r : string) :
  String.prefix (String c "") (String d r) = Ascii.eqb c d.
Proof.
  cbn. destruct (ascii_dec c d) as [-> | Hne].
  - rewrite Ascii.eqb_refl. now destruct r.
  - symmetry. now apply Ascii.eqb_neq.
Qed.

Lemma Contains_byte_cons (c d : ascii) (r : string) :
  Contains (String d r) (String c "") = Ascii.eqb d c || Contains r (String c "").
Proof.
  cbn [Contains]. rewrite prefix_byte, (Ascii.eqb_sym c d).
  destruct (Ascii.eqb d c); reflexivity.
Qed.

Lemma Contains_byte_nil (c : ascii) : Contains "" (String c "") = false.
Proof. reflexivity. Qed.

Lemma Contains_byte_app (a b : string) (c : ascii) :
  Contains (a ++ b) (String c "") = Contains a (String c "") || Contains b (String c "").
Proof.
  induction a as [| d a IH]; [reflexivity |].
  cbn [append]. rewrite !Contains_byte_cons, IH. now rewrite orb_assoc.
Qed.

Lemma Split_free (s : string) (c : ascii) :
  Contains s (String c "") = false -> Split s c = [s].
Proof.
  induction s as [| d s IH]; [reflexivity |].
  rewrite Contains_byte_cons. intros H. apply orb_false_iff in H as [Hd Hs].
  cbn [Split]. rewrite Hd, (IH Hs). reflexivity.
Qed.

Lemma Split_app (a b : string) (c : ascii) :
  Contains a (String c "") = false ->
  Split (a ++ String c b) c = a :: Split b c.
Proof.
  induction a as [| d a IH]; intros H.
  - cbn. now rewrite Ascii.eqb_refl.
  - rewrite Contains_byte_cons in H. apply orb_false_iff in H as [Hd Ha].
    cbn [append Split]. rewrite Hd, (IH Ha). reflexivity.
Qed.

Lemma SplitN_one (s : string) (c : ascii) : SplitN s c 1 = [s].
Proof. destruct s; reflexivity. Qed.

Lemma SplitN_two_free (s : string) (c : ascii) :
  Contains s (String c "") = false -> SplitN s c 2 = [s].
Proof.
  induction s as [| d s IH]; [reflexivity |].
  rewrite Contains_byte_cons. intros H. apply orb_false_iff in H as [Hd Hs].
  cbn [SplitN]. rewrite Hd. cbn [SplitN] in IH. rewrite (IH Hs). reflexivity.
Qed.

Lemma SplitN_two_app (a b : string) (c : ascii) :
  Contains a (String c "") = false ->
  SplitN (a ++ String c b) c 2 = [a; b].
Proof.
  induction a as [| d a IH]; intros H.
  - cbn [append SplitN]. now rewrite Ascii.eqb_refl, SplitN_one.
  - rewrite Contains_byte_cons in H. apply orb_false_iff in H as [Hd Ha].
    cbn [append SplitN]. rewrite Hd. cbn [SplitN] in IH. rewrite (IH Ha). reflexivity.
Qed.

(** A text is free of a byte, or is cut at its first occurrence. *)
Lemma first_occurrence (s : string) (c : ascii) :
  Contains s (String c "") = false
  \/ exists a b, s = a ++ String c b /\ Contains a (String c "") = false.
Proof.
  induction s as [| d s IH]; [now left |].
  destruct (Ascii.eqb d c) eqn:Hd.
  - right. apply Ascii.eqb_eq in Hd. subst d. exists "", s. now split.
  - destruct IH as [Hfree | (a & b & -> & Ha)].
    + left. now rewrite Contains_byte_cons, Hd, Hfree.
    + right. exists (String d a), b. split; [reflexivity |].
      now rewrite Contains_byte_cons, Hd, Ha.
Qed.

(** ** Identifiers and credentials *)

(** SplitIdToken cuts at the first colon: the id holds no colon; a text
    with a colon is the id, a colon and the token, and a text without one
    is the id alone with the empty token.  Joining an id that holds no
    colon to any token and splitting again gives both back. *)
Theorem SplitIdToken_parts (idToken id token : string) :
  (Contains (fst (SplitIdToken idToken)) ":" = false
   /\ idToken = (if Contains idToken ":"
                 then fst (SplitIdToken idToken) ++ ":" ++ snd (SplitIdToken idToken)
                 else fst (SplitIdToken idToken))
   /\ (Contains idToken ":" = false -> snd (SplitIdToken idToken) = ""))
  /\ (Contains id ":" = false -> SplitIdToken (id ++ ":" ++ token) = (id, token)).
Proof.
  split.
  - unfold SplitIdToken.
    destruct (first_occurrence idToken ":") as [Hfree | (a & b & -> & Ha)].
    + rewrite (SplitN_two_free _ _ Hfree), Hfree. cbn. auto.
    + rewrite (SplitN_two_app _ b _ Ha). cbn [nth List.length Nat.leb fst snd].
      rewrite Contains_byte_app, Contains_byte_cons, Ascii.eqb_refl, orb_true_r.
      repeat split; [exact Ha | discriminate].
  - intros Hid. unfold SplitIdToken.
    change (id ++ ":" ++ token) with (id ++ String ":" token).
    now rewrite (SplitN_two_app _ token _ Hid).
Qed.

Lemma SplitIdToken_parts_witness :
  Contains "myorg/user" ":" = false
  /\ SplitIdToken ("myorg/user" ++ ":" ++ "pw:with:colons") = ("myorg/user", "pw:with:colons").
Proof.
  split; [reflexivity |].
  exact (proj2 (SplitIdToken_parts "" "myorg/user" "pw:with:colons") eq_refl).
Defined.

Lemma append_assoc (a b c : string) : (a ++ b) ++ c = a ++ b ++ c.
Proof. induction a as [| d a IH]; [reflexivity | cbn [append]; now rewrite IH]. Qed.

Lemma append_nil_r (a : string) : a ++ "" = a.
Proof. induction a as [| d a IH]; [reflexivity | cbn [append]; now rewrite IH]. Qed.

Lemma length_append (a b : string) :
  String.length (a ++ b) = (String.length a + String.length b)%nat.
Proof. induction a as [| d a IH]; [reflexivity | cbn; now rewrite IH]. Qed.

Lemma SplitN_two_prepend (a s : string) (c : ascii) :
  Contains a (String c "") = false ->
  nth 0 (SplitN (a ++ s) c 2) "" = a ++ nth 0 (SplitN s c 2) "".
Proof.
  intros Ha.
  destruct (first_occurrence s c) as [Hfree | (x & y & -> & Hx)].
  - rewrite (SplitN_two_free s c Hfree).
    rewrite SplitN_two_free; [reflexivity |].
    now rewrite Contains_byte_app, Ha, Hfree.
  - rewrite (SplitN_two_app x y c Hx).
    rewrite <- append_assoc.
    rewrite SplitN_two_app; [reflexivity |].
    now rewrite Contains_byte_app, Ha, Hx.
Qed.

Lemma run_OrgAndCreds (usingApiKey : bool) (org creds : string) (w : World) :
  OrgAndCreds usingApiKey org creds w =
  ([], Returned
         (if usingApiKey || String.eqb (Getenv w "USING_API_KEY") "1"
             || Contains (fst (SplitIdToken creds)) "/"
          then creds else org ++ "/" ++ creds)).
Proof.
  unfold OrgAndCreds, bind, os_Getenv, ret.
  destruct usingApiKey; cbn; [reflexivity |].
  destruct (String.eqb (Getenv w "USING_API_KEY") "1"); cbn; [reflexivity |].
  destruct (Contains _ "/"); reflexivity.
Qed.

(** OrgAndCreds always returns, and what it returns it leaves alone when
    it is given it again, as long as the org holds no colon: the org is
    prepended at most once.  Outside the API-key mode the id of the result
    names an org. *)
Theorem OrgAndCreds_once (usingApiKey : bool) (org creds : string) (w : World)
    (Horg : Contains org ":" = false) :
  exists result,
    snd (OrgAndCreds usingApiKey org creds w) = Returned result
    /\ snd (OrgAndCreds usingApiKey org result w) = Returned result
    /\ (usingApiKey = false -> Getenv w "USING_API_KEY" <> "1" ->
        Contains (fst (SplitIdToken result)) "/" = true).
Proof.
  rewrite run_OrgAndCreds. eexists. split; [reflexivity |].
  rewrite run_OrgAndCreds. cbn [snd].
  destruct usingApiKey; cbn [orb].
  { split; [reflexivity | discriminate]. }
  destruct (String.eqb (Getenv w "USING_API_KEY") "1") eqn:Henv; cbn [orb].
  { split; [reflexivity |]. intros _ Hne. apply String.eqb_eq in Henv. contradiction. }
  destruct (Contains (fst (SplitIdToken creds)) "/") eqn:Hslash.
  { rewrite Hslash. auto. }
  assert (Hid : Contains (fst (SplitIdToken (org ++ "/" ++ creds))) "/" = true).
  { unfold SplitIdToken. cbn [fst].
    rewrite (SplitN_two_prepend org ("/" ++ creds) ":" Horg).
    rewrite Contains_byte_app.
    rewrite (SplitN_two_prepend "/" creds ":" eq_refl).
    cbn [append]. rewrite Contains_byte_cons. cbn. apply orb_true_r. }
  rewrite Hid. auto.
Qed.

Lemma OrgAndCreds_once_witness :
  Contains "myorg" ":" = false
  /\ snd (OrgAndCreds false "myorg" "user:pw" (answering (inl "unused")))
     = Returned "myorg/user:pw"
  /\ snd (OrgAndCreds false "myorg" "myorg/user:pw" (answering (inl "unused")))
     = Returned "myorg/user:pw".
Proof.
  split; [reflexivity |].
  destruct (OrgAndCreds_once false "myorg" "user:pw" (answering (inl "unused")) eq_refl)
    as (result & Hfirst & Hagain & _).
  assert (Hresult : result = "myorg/user:pw")
    by (cbv in Hfirst; now injection Hfirst as <-).
  subst result. split; assumption.
Defined.

Lemma Split_nonempty (s : string) (c : ascii) : (1 <= List.length (Split s c))%nat.
Proof.
  induction s as [| d s IH]; [cbn; lia |].
  cbn [Split]. destruct (Ascii.eqb d c); [cbn; lia |].
  destruct (Split s c); cbn in *; lia.
Qed.

Lemma Split_length_cons (d : ascii) (s : string) (c : ascii) :
  List.length (Split (String d s) c) =
  ((if Ascii.eqb d c then 1 else 0) + List.length (Split s c))%nat.
Proof.
  cbn [Split]. destruct (Ascii.eqb d c); [reflexivity |].
  pose proof (Split_nonempty s c). destruct (Split s c); cbn in *; lia.
Qed.

Lemma Split_length_app (a b : string) (c : ascii) :
  List.length (Split (a ++ String c b) c)
  = (List.length (Split a c) + List.length (Split b c))%nat.
Proof.
  induction a as [| d a IH].
  - cbn [append]. rewrite Split_length_cons, Ascii.eqb_refl. reflexivity.
  - cbn [append]. rewrite !Split_length_cons, IH. lia.
Qed.

Section Resources.

Context {GoValue GoType : Type} (L : GoLib GoValue GoType).

(** TrimOrg by the number of slashes of the id: with none the org given
    and the id come back; with one, between two parts that hold none, the
    two parts come back and the org given is dropped; with two or more the
    process exits with the input-error code. *)
Theorem TrimOrg_by_slashes (org id o i a b c : string) (w : World) :
  (Contains id "/" = false -> snd (TrimOrg L org id w) = Returned (org, id))
  /\ (Contains o "/" = false -> Contains i "/" = false ->
      snd (TrimOrg L org (o ++ "/" ++ i) w) = Returned (o, i))
  /\ snd (TrimOrg L org (a ++ "/" ++ b ++ "/" ++ c) w) = Exited CLI_INPUT_ERROR.
Proof.
  unfold TrimOrg. repeat apply conj.
  - intros Hid. rewrite (Split_free _ _ Hid). reflexivity.
  - intros Ho Hi. change (o ++ "/" ++ i) with (o ++ String "/" i).
    rewrite (Split_app _ _ _ Ho), (Split_free _ _ Hi). reflexivity.
  - change (a ++ "/" ++ b ++ "/" ++ c) with (a ++ String "/" (b ++ String "/" c)).
    pose proof (Split_length_app a (b ++ String "/" c) "/") as Hlen.
    rewrite (Split_length_app b c "/") in Hlen.
    pose proof (Split_nonempty a "/"). pose proof (Split_nonempty b "/").
    pose proof (Split_nonempty c "/").
    destruct (List.length (Split (a ++ String "/" (b ++ String "/" c)) "/") <=? 1)%nat eqn:Hle;
      [apply Nat.leb_le in Hle; lia |].
    destruct (List.length (Split (a ++ String "/" (b ++ String "/" c)) "/") =? 2)%nat eqn:Heq;
      [apply Nat.eqb_eq in Heq; lia |].
    rewrite snd_bind. reflexivity.
Qed.

End Resources.

Lemma TrimOrg_by_slashes_witness :
  snd (TrimOrg Ref.lib "myorg" "otherorg/gps" (answering (inl "unused")))
  = Returned ("otherorg", "gps")
  /\ snd (TrimOrg Ref.lib "myorg" "gps" (answering (inl "unused")))
     = Returned ("myorg", "gps").
Proof.
  pose proof (TrimOrg_by_slashes Ref.lib "myorg" "gps" "otherorg" "gps" "" "" ""
                (answering (inl "unused"))) as (Hnone & Hone & _).
  split; [apply Hone | apply Hnone]; reflexivity.
Defined.

(** ** Exchange ids *)

Lemma troublesome_dash : troublesome "-" = false.
Proof. reflexivity. Qed.

Lemma FormExchangeId_chars (id : string) :
  forallb (fun c => negb (troublesome c)) (list_ascii_of_string (FormExchangeId id)) = true.
Proof.
  induction id as [| c id IH]; [reflexivity |].
  cbn [FormExchangeId list_ascii_of_string forallb]. rewrite IH, andb_true_r.
  destruct (troublesome c) eqn:Hc; [reflexivity | now rewrite Hc].
Qed.

Lemma clean_no_slash (s : string) :
  forallb (fun c => negb (troublesome c)) (list_ascii_of_string s) = true ->
  Contains s "/" = false.
Proof.
  induction s as [| c s IH]; [reflexivity |].
  cbn [list_ascii_of_string forallb]. intros H. apply andb_true_iff in H as [Hc Hs].
  rewrite Contains_byte_cons, (IH Hs), orb_false_r.
  destruct (Ascii.eqb c "/") eqn:Heq; [| reflexivity].
  apply Ascii.eqb_eq in Heq. subst c. discriminate Hc.
Qed.

Lemma FormExchangeId_clean (s : string) :
  forallb (fun c => negb (troublesome c)) (list_ascii_of_string s) = true ->
  FormExchangeId s = s.
Proof.
  induction s as [| c s IH]; [reflexivity |].
  cbn [list_ascii_of_string forallb]. intros H. apply andb_true_iff in H as [Hc Hs].
  cbn [FormExchangeId]. rewrite (IH Hs).
  apply negb_true_iff in Hc. now rewrite Hc.
Qed.

(** FormExchangeId keeps the length of the id, leaves none of the
    characters $ ! * , ; / ? @ & ~ = % in it (so the result holds no
    slash), changes nothing in an id that has none of them, and applied
    twice does what it does once. *)
Theorem FormExchangeId_sanitizes (id : string) :
  String.length (FormExchangeId id) = String.length id
  /\ forallb (fun c => negb (troublesome c)) (list_ascii_of_string (FormExchangeId id)) = true
  /\ Contains (FormExchangeId id) "/" = false
  /\ FormExchangeId (FormExchangeId id) = FormExchangeId id
  /\ (forallb (fun c => negb (troublesome c)) (list_ascii_of_string id) = true ->
      FormExchangeId id = id).
Proof.
  repeat apply conj.
  - induction id as [| c id IH]; [reflexivity | cbn; now rewrite IH].
  - apply FormExchangeId_chars.
  - apply clean_no_slash, FormExchangeId_chars.
  - apply FormExchangeId_clean, FormExchangeId_chars.
  - apply FormExchangeId_clean.
Qed.

Lemma FormExchangeId_sanitizes_witness :
  forallb (fun c => negb (troublesome c)) (list_ascii_of_string "my.company.gps_1.0") = true
  /\ FormExchangeId "my.company.gps_1.0" = "my.company.gps_1.0".
Proof.
  split; [reflexivity |].
  exact (proj2 (proj2 (proj2 (proj2 (FormExchangeId_sanitizes "my.company.gps_1.0")))) eq_refl).
Defined.

Lemma substring_all (s : string) : substring 0 (String.length s) s = s.
Proof. induction s as [| c s IH]; [reflexivity | cbn; now rewrite IH]. Qed.

Lemma prefix_cons (a b : ascii) (s1 s2 : string) :
  String.prefix (String a s1) (String b s2)
  = if ascii_dec a b then String.prefix s1 s2 else false.
Proof. reflexivity. Qed.

Lemma after_scheme_cons (c : ascii) (s : string) :
  scheme_char c = true -> after_scheme (String c s) = after_scheme s.
Proof.
  intros Hc. cbn [after_scheme]. rewrite Hc, prefix_cons.
  destruct (ascii_dec ":" c) as [<- |]; [| reflexivity].
  cbv in Hc. discriminate Hc.
Qed.

Lemma after_scheme_found (scheme rest : string) :
  forallb scheme_char (list_ascii_of_string scheme) = true ->
  after_scheme (scheme ++ "://" ++ rest) = Some rest.
Proof.
  induction scheme as [| c scheme IH]; intros Hscheme.
  - cbn. rewrite Nat.sub_0_r, substring_all. now destruct rest.
  - cbn [list_ascii_of_string forallb] in Hscheme.
    apply andb_true_iff in Hscheme as [Hc Hscheme].
    change (String c scheme ++ "://" ++ rest) with (String c (scheme ++ "://" ++ rest)).
    rewrite (after_scheme_cons _ _ Hc). exact (IH Hscheme).
Qed.

Lemma after_scheme_none (s : string) :
  Contains s "://" = false -> after_scheme s = None.
Proof.
  induction s as [| c s IH]; [reflexivity |].
  cbn [Contains after_scheme].
  destruct (String.prefix "://" (String c s)); [discriminate |].
  intros Hs. rewrite (IH Hs). now destruct (scheme_char c).
Qed.

(** FormExchangeIdWithSpecRef drops one leading scheme, a run of letters,
    digits, +, . and - followed by ://, and sanitizes the rest; a spec ref
    that holds no :// is only sanitized; and whatever the spec ref, the
    id holds no slash. *)
Theorem FormExchangeIdWithSpecRef_scheme (specRef scheme rest : string) :
  (forallb scheme_char (list_ascii_of_string scheme) = true ->
   FormExchangeIdWithSpecRef (scheme ++ "://" ++ rest) = FormExchangeId rest)
  /\ (Contains specRef "://" = false ->
      FormExchangeIdWithSpecRef specRef = FormExchangeId specRef)
  /\ Contains (FormExchangeIdWithSpecRef specRef) "/" = false.
Proof.
  unfold FormExchangeIdWithSpecRef. repeat apply conj.
  - intros Hscheme. now rewrite (after_scheme_found _ _ Hscheme).
  - intros Hnone. now rewrite (after_scheme_none _ Hnone).
  - apply clean_no_slash, FormExchangeId_chars.
Qed.

Lemma FormExchangeIdWithSpecRef_scheme_witness :
  forallb scheme_char (list_ascii_of_string "https") = true
  /\ FormExchangeIdWithSpecRef ("https" ++ "://" ++ "bluehorizon.network/services/gps")
     = "bluehorizon.network-services-gps".
Proof.
  split; [reflexivity |].
  exact (proj1 (FormExchangeIdWithSpecRef_scheme "" "https" "bluehorizon.network/services/gps")
           eq_refl).
Defined.

(** ** Flags, environment and credentials *)

Section Flags.

Context {GoValue GoType : Type} (L : GoLib GoValue GoType).

Lemma run_WithDefaultEnvVar (flag envVarName : string) (w : World) :
  WithDefaultEnvVar flag envVarName w
  = ([], Returned (if nonempty flag then flag else Getenv w envVarName)).
Proof.
  unfold WithDefaultEnvVar, bind, os_Getenv, ret.
  destruct (nonempty flag) eqn:Hflag; [reflexivity |]. cbn.
  destruct (nonempty (Getenv w envVarName)) eqn:Henv; [reflexivity |].
  now rewrite (nonempty_false _ Hflag), (nonempty_false _ Henv).
Qed.

Lemma nonempty_neq (s : string) : nonempty s = true <-> s <> "".
Proof.
  unfold nonempty. rewrite negb_true_iff. apply String.eqb_neq.
Qed.

(** RequiredWithDefaultEnvVar never returns the empty string: it returns
    what WithDefaultEnvVar returns when that is not empty, the flag before
    the environment, and exits with the input-error code exactly when
    WithDefaultEnvVar would return the empty string; a flag that is set is
    returned whatever the environment holds. *)
Theorem RequiredWithDefaultEnvVar_nonempty (flag envVarName errMsg : string) (w : World) :
  match snd (RequiredWithDefaultEnvVar L flag envVarName errMsg w) with
  | Returned value =>
      value <> "" /\ snd (WithDefaultEnvVar flag envVarName w) = Returned value
  | Exited exitCode =>
      exitCode = CLI_INPUT_ERROR /\ snd (WithDefaultEnvVar flag envVarName w) = Returned ""
  | Panicked _ => False
  end
  /\ (flag <> "" -> snd (RequiredWithDefaultEnvVar L flag envVarName errMsg w) = Returned flag).
Proof.
  rewrite run_WithDefaultEnvVar. unfold RequiredWithDefaultEnvVar.
  destruct (nonempty flag) eqn:Hflag.
  - cbn. split; [split; [now apply nonempty_neq | reflexivity] | reflexivity].
  - rewrite snd_bind, snd_os_Getenv.
    destruct (nonempty (Getenv w envVarName)) eqn:Henv.
    + cbn. split; [split; [now apply nonempty_neq | reflexivity] |].
      intros Hne. apply nonempty_neq in Hne. congruence.
    + rewrite snd_bind, snd_Fatal. cbn [snd].
      split; [split; [reflexivity | now rewrite (nonempty_false _ Henv)] |].
      intros Hne. apply nonempty_neq in Hne. congruence.
Qed.

Lemma snd_SetWhetherUsingApiKey (creds : string) (usingApiKey : bool) (w : World) :
  snd (SetWhetherUsingApiKey L creds usingApiKey w)
  = Returned (usingApiKey
              || (negb (String.eqb (Getenv w "USING_API_KEY") "0") && api_key_pattern creds)).
Proof.
  unfold SetWhetherUsingApiKey. rewrite snd_bind, snd_os_Getenv.
  destruct (String.eqb (Getenv w "USING_API_KEY") "0"); cbn [negb andb].
  - now rewrite orb_false_r.
  - destruct (api_key_pattern creds).
    + rewrite snd_bind, snd_Verbose. cbn. now rewrite orb_true_r.
    + cbn. now rewrite orb_false_r.
Qed.

(** SetWhetherUsingApiKey never clears the flag; it sets it for
    credentials that begin with a-, six letters or digits and a dash,
    unless USING_API_KEY is 0, which leaves the flag as it was; and once
    the flag is set OrgAndCreds returns every credentials string as it is,
    for every org. *)
Theorem SetWhetherUsingApiKey_then_OrgAndCreds (creds : string) (usingApiKey : bool)
    (w : World) :
  exists flag,
    snd (SetWhetherUsingApiKey L creds usingApiKey w) = Returned flag
    /\ (usingApiKey = true -> flag = true)
    /\ (Getenv w "USING_API_KEY" = "0" -> flag = usingApiKey)
    /\ (api_key_pattern creds = true -> Getenv w "USING_API_KEY" <> "0" -> flag = true)
    /\ (flag = true ->
        forall org other, snd (OrgAndCreds flag org other w) = Returned other).
Proof.
  rewrite snd_SetWhetherUsingApiKey. eexists. split; [reflexivity |].
  repeat apply conj.
  - now intros ->.
  - intros ->. cbn. now rewrite orb_false_r.
  - intros -> Henv. apply String.eqb_neq in Henv. rewrite Henv. cbn. apply orb_true_r.
  - intros -> org other. rewrite run_OrgAndCreds. reflexivity.
Qed.

Lemma GetExchangeAuth_returned (userPw nodeIdTok credentials : string) (w : World) :
  snd (GetExchangeAuth L userPw nodeIdTok w) = Returned credentials ->
  credentials <> "".
Proof.
  unfold GetExchangeAuth. rewrite snd_bind.
  assert (Hinner : exists c,
             snd ((if nonempty userPw then ret userPw
                   else if nonempty nodeIdTok then ret nodeIdTok
                   else
                     tmpU <- WithDefaultEnvVar userPw "HZN_EXCHANGE_USER_AUTH" ;;
                     if nonempty tmpU then ret tmpU
                     else
                       tmpN <- WithDefaultEnvVar nodeIdTok "HZN_EXCHANGE_NODE_AUTH" ;;
                       if nonempty tmpN then ret tmpN else ret "") w) = Returned c).
  { destruct (nonempty userPw); [eexists; reflexivity |].
    destruct (nonempty nodeIdTok); [eexists; reflexivity |].
    rewrite snd_bind, run_WithDefaultEnvVar. cbn [snd].
    destruct (nonempty _); [eexists; reflexivity |].
    rewrite snd_bind, run_WithDefaultEnvVar. cbn [snd].
    destruct (nonempty _); eexists; reflexivity. }
  destruct Hinner as (c & ->).
  rewrite snd_bind.
  destruct (String.eqb c "") eqn:Hc.
  - rewrite snd_Fatal. discriminate.
  - cbn. intros H. injection H as <-. now apply String.eqb_neq.
Qed.

(** Credentials that GetExchangeAuth returns are never empty, so a
    registry GET or PUT/POST made with them sends no anonymous request:
    every request it sends carries exactly one Authorization header, the
    Basic encoding of these credentials. *)
Theorem GetExchangeAuth_authorizes (userPw nodeIdTok credentials : string) (w w' : World)
    (method urlBase urlSuffix : string) (goodHttpCodes : list Z)
    (structure : Target GoType) (body : Body GoValue) (req : Request)
    (Hauth : snd (GetExchangeAuth L userPw nodeIdTok w) = Returned credentials) :
  credentials <> ""
  /\ (In req (sent (fst (ExchangeGet L urlBase urlSuffix credentials goodHttpCodes structure w'))) ->
      Header_Values "Authorization" req = [basic_auth L credentials])
  /\ (In req (sent (fst (ExchangePutPost L method urlBase urlSuffix credentials goodHttpCodes
                           body w'))) ->
      Header_Values "Authorization" req = [basic_auth L credentials]).
Proof.
  pose proof (GetExchangeAuth_returned _ _ _ _ Hauth) as Hne.
  assert (Hnonempty : nonempty credentials = true) by now apply nonempty_neq.
  split; [exact Hne | split]; intros Hsent.
  - rewrite sent_ExchangeGet in Hsent.
    destruct (NewRequest_err L MethodGet _); [contradiction |].
    destruct Hsent as [<- | []].
    now rewrite exchange_get_authorization, Hnonempty.
  - rewrite sent_ExchangePutPost in Hsent.
    destruct (OptsIsDryRun w'); [contradiction |].
    destruct (payload L false body) as [err | [jsonBytes bodyIsBytes]]; [contradiction |].
    destruct (NewRequest_err L method _); [contradiction |].
    destruct Hsent as [<- | []].
    now rewrite with_credentials_authorization, Hnonempty.
Qed.

End Flags.

Lemma RequiredWithDefaultEnvVar_nonempty_witness :
  "myorg" <> ""
  /\ snd (RequiredWithDefaultEnvVar Ref.lib "myorg" "HZN_ORG_ID" "organization is required"
            (answering (inl "unused"))) = Returned "myorg".
Proof.
  split; [discriminate |].
  apply (proj2 (RequiredWithDefaultEnvVar_nonempty Ref.lib "myorg" "HZN_ORG_ID"
                  "organization is required" (answering (inl "unused")))).
  discriminate.
Defined.

Lemma SetWhetherUsingApiKey_then_OrgAndCreds_witness :
  api_key_pattern "a-1b2c3d-xyz:secret" = true
  /\ snd (SetWhetherUsingApiKey Ref.lib "a-1b2c3d-xyz:secret" false (answering (inl "unused")))
     = Returned true
  /\ snd (OrgAndCreds true "myorg" "a-1b2c3d-xyz:secret" (answering (inl "unused")))
     = Returned "a-1b2c3d-xyz:secret".
Proof.
  split; [reflexivity |].
  destruct (SetWhetherUsingApiKey_then_OrgAndCreds Ref.lib "a-1b2c3d-xyz:secret" false
              (answering (inl "unused"))) as (flag & Hrun & _ & _ & Hset & Hcreds).
  assert (Hflag : flag = true) by (apply Hset; [reflexivity | discriminate]).
  subst flag. split; [exact Hrun | apply Hcreds; reflexivity].
Defined.

Lemma GetExchangeAuth_authorizes_witness :
  snd (GetExchangeAuth Ref.lib "" "myorg/node1:tok" (answering (inl "unused")))
  = Returned "myorg/node1:tok"
  /\ map (Header_Values "Authorization")
       (sent (fst (ExchangeGet Ref.lib "https://exchange/v1" "orgs/myorg/nodes/node1"
                     "myorg/node1:tok" [200] StringPtr (answering (ok_response 200 "{}")))))
     = [[basic_auth Ref.lib "myorg/node1:tok"]].
Proof.
  assert (Hauth : snd (GetExchangeAuth Ref.lib "" "myorg/node1:tok" (answering (inl "unused")))
                  = Returned "myorg/node1:tok") by reflexivity.
  split; [exact Hauth |].
  pose proof (GetExchangeAuth_authorizes Ref.lib "" "myorg/node1:tok" "myorg/node1:tok"
                (answering (inl "unused")) (answering (ok_response 200 "{}"))
                "GET" "https://exchange/v1" "orgs/myorg/nodes/node1" [200] StringPtr
                (BodyString "")
                (exchange_get_request Ref.lib "https://exchange/v1" "orgs/myorg/nodes/node1"
                   "myorg/node1:tok") Hauth) as (_ & Hget & _).
  change (sent (fst (ExchangeGet Ref.lib "https://exchange/v1" "orgs/myorg/nodes/node1"
                       "myorg/node1:tok" [200] StringPtr (answering (ok_response 200 "{}")))))
    with [exchange_get_request Ref.lib "https://exchange/v1" "orgs/myorg/nodes/node1"
            "myorg/node1:tok"].
  cbn [map]. rewrite (Hget (or_introl eq_refl)). reflexivity.
Defined.

(** ** One request at most, and what comes back *)

Section Requests.

Context {GoValue GoType : Type} (L : GoLib GoValue GoType).




End Requests.


Section Accepted.

Context {GoValue GoType : Type} (L : GoLib GoValue GoType).

Lemma HorizonGet_returned_clean (w : World) (urlSuffix : string) (goodHttpCodes : list Z)
    (structure : Target GoType) (quiet : bool) (r : GetResult GoValue) :
  snd (HorizonGet L urlSuffix goodHttpCodes structure quiet w) = Returned r ->
  retError r = None ->
  goodHttpCodes <> []
  /\ isGoodCode (httpCode r) goodHttpCodes = true
  /\ exists resp,
       RoundTrip w (horizon_get_request w urlSuffix) = inr resp
       /\ StatusCode resp = httpCode r.
Proof.
  intros Hrun Hclean.
  destruct (RoundTrip w (horizon_get_request w urlSuffix)) as [err | resp] eqn:Hresp.
  { rewrite (HorizonGet_transport_failure L w _ _ _ _ err Hresp) in Hrun.
    destruct quiet; [| discriminate]. injection Hrun as <-. discriminate Hclean. }
  destruct (isGoodCode (StatusCode resp) goodHttpCodes) eqn:Hgood.
  2:{ rewrite (HorizonGet_bad_code L w _ _ _ _ resp Hresp Hgood) in Hrun.
      destruct quiet; [| discriminate]. injection Hrun as <-. discriminate Hclean. }
  destruct goodHttpCodes as [| first rest].
  { rewrite (HorizonGet_empty_list L w _ _ _ resp Hresp) in Hrun. discriminate. }
  split; [discriminate |].
  assert (Hcode : httpCode r = StatusCode resp).
  { destruct (Z.eq_dec (StatusCode resp) first) as [<- | Hne].
    2:{ rewrite (HorizonGet_secondary_code L w _ _ _ _ _ resp Hresp Hgood Hne) in Hrun.
        now injection Hrun as <-. }
    rewrite (HorizonGet_first_code L w _ _ _ _ resp Hresp) in Hrun.
    destruct (ReadAll resp) as [err | bodyBytes].
    { destruct quiet; [| discriminate]. now injection Hrun as <-. }
    destruct structure;
      try (destruct (json_Unmarshal L bodyBytes _) as [st [err |]];
           try destruct quiet; try discriminate);
      now injection Hrun as <-. }
  rewrite Hcode. split; [exact Hgood |]. exists resp. now split.
Qed.

(** A code that an operation returns is the status code of the answer to
    its request and a code its list accepts, the synthetic 201 or 204 of
    the dry-run mode apart, which is returned whatever the list holds.  A
    local-agent GET that returns without an error was called with a list
    that is not empty. *)
Theorem returned_code_accepted (w : World) (method urlBase urlSuffix credentials : string)
    (goodHttpCodes : list Z) (structure : Target GoType) (quiet : bool)
    (body : Body GoValue) :
  (forall r,
      snd (HorizonGet L urlSuffix goodHttpCodes structure quiet w) = Returned r ->
      retError r = None ->
      goodHttpCodes <> []
      /\ isGoodCode (httpCode r) goodHttpCodes = true
      /\ exists resp,
           RoundTrip w (horizon_get_request w urlSuffix) = inr resp
           /\ StatusCode resp = httpCode r)
  /\ (forall code st,
         snd (ExchangeGet L urlBase urlSuffix credentials goodHttpCodes structure w)
         = Returned (code, st) ->
         isGoodCode code goodHttpCodes = true
         /\ exists resp,
              RoundTrip w (exchange_get_request L urlBase urlSuffix credentials) = inr resp
              /\ StatusCode resp = code)
  /\ (forall code,
         snd (HorizonDelete L urlSuffix goodHttpCodes w) = Returned code ->
         (OptsIsDryRun w = true /\ code = 204)
         \/ (OptsIsDryRun w = false
             /\ isGoodCode code goodHttpCodes = true
             /\ exists resp,
                  RoundTrip w (horizon_delete_request w urlSuffix) = inr resp
                  /\ StatusCode resp = code))
  /\ (forall code,
         snd (ExchangeDelete L urlBase urlSuffix credentials goodHttpCodes w) = Returned code ->
         (OptsIsDryRun w = true /\ code = 204)
         \/ (OptsIsDryRun w = false
             /\ isGoodCode code goodHttpCodes = true
             /\ exists resp,
                  RoundTrip w (exchange_delete_request L urlBase urlSuffix credentials)
                  = inr resp
                  /\ StatusCode resp = code))
  /\ (forall code text,
         snd (HorizonPutPost L method urlSuffix goodHttpCodes body w) = Returned (code, text) ->
         (OptsIsDryRun w = true /\ code = 201 /\ text = "")
         \/ (OptsIsDryRun w = false
             /\ isGoodCode code goodHttpCodes = true
             /\ exists req resp,
                  In req (sent (fst (HorizonPutPost L method urlSuffix goodHttpCodes body w)))
                  /\ RoundTrip w req = inr resp
                  /\ StatusCode resp = code /\ RespData resp = text))
  /\ (forall code,
         snd (ExchangePutPost L method urlBase urlSuffix credentials goodHttpCodes body w)
         = Returned code ->
         (OptsIsDryRun w = true /\ code = 201)
         \/ (OptsIsDryRun w = false
             /\ isGoodCode code goodHttpCodes = true
             /\ exists req resp,
                  In req (sent (fst (ExchangePutPost L method urlBase urlSuffix credentials
                                       goodHttpCodes body w)))
                  /\ RoundTrip w req = inr resp
                  /\ StatusCode resp = code)).
Proof.
  repeat apply conj.
  - intros r. apply HorizonGet_returned_clean.
  - intros code st Hrun.
    destruct (NewRequest_err L MethodGet (urlBase ++ "/" ++ urlSuffix)) as [err |] eqn:Hnew.
    { rewrite (ExchangeGet_new_request_failure L w _ _ _ _ _ err Hnew) in Hrun.
      discriminate. }
    destruct (RoundTrip w (exchange_get_request L urlBase urlSuffix credentials))
      as [err | resp] eqn:Hresp.
    { rewrite (ExchangeGet_transport_failure L w _ _ _ _ _ err Hnew Hresp) in Hrun.
      discriminate. }
    rewrite (ExchangeGet_response L w _ _ _ _ _ resp Hnew Hresp) in Hrun.
    destruct (ReadAll resp) as [err | bodyBytes]; [discriminate |].
    destruct (isGoodCode (StatusCode resp) goodHttpCodes) eqn:Hgood; [| discriminate].
    cbn [negb] in Hrun.
    assert (Hcode : code = StatusCode resp).
    { destruct (String.eqb bodyBytes ""); [now injection Hrun as <- |].
      destruct structure; cbn [exchange_decode] in Hrun.
      - now injection Hrun as <-.
      - now injection Hrun as <-.
      - destruct (json_Unmarshal_iface L bodyBytes); [discriminate |].
        destruct (json_MarshalIndent L _ _ _); [discriminate |]. now injection Hrun as <-.
      - destruct (json_Unmarshal L bodyBytes _) as [st' [err |]]; [discriminate |].
        now injection Hrun as <-. }
    subst code. split; [exact Hgood |]. exists resp. now split.
  - intros code. rewrite HorizonDelete_outcome.
    destruct (OptsIsDryRun w); [intros H; injection H as <-; now left |].
    destruct (NewRequest_err L _ _); [discriminate |].
    destruct (RoundTrip w _) as [err | resp]; [discriminate |].
    destruct (isGoodCode (StatusCode resp) goodHttpCodes) eqn:Hgood; [| discriminate].
    intros H. injection H as <-. right. repeat split; [exact Hgood |].
    exists resp. now split.
  - intros code. rewrite ExchangeDelete_outcome.
    destruct (OptsIsDryRun w); [intros H; injection H as <-; now left |].
    destruct (NewRequest_err L _ _); [discriminate |].
    destruct (RoundTrip w _) as [err | resp]; [discriminate |].
    destruct (isGoodCode (StatusCode resp) goodHttpCodes) eqn:Hgood; [| discriminate].
    intros H. injection H as <-. right. repeat split; [exact Hgood |].
    exists resp. now split.
  - intros code text. rewrite HorizonPutPost_outcome, sent_HorizonPutPost.
    destruct (OptsIsDryRun w); [intros H; injection H as <- <-; now left |].
    destruct (payload L true body) as [err | [jsonBytes bodyIsBytes]]; [discriminate |].
    destruct (NewRequest_err L _ _); [discriminate |].
    destruct (RoundTrip w _) as [err | resp] eqn:Hresp; [discriminate |].
    destruct (isGoodCode (StatusCode resp) goodHttpCodes) eqn:Hgood; [| discriminate].
    intros H. injection H as <- <-. right. repeat split; [exact Hgood |].
    eexists. exists resp. split; [left; reflexivity |]. now split.
  - intros code. rewrite ExchangePutPost_outcome, sent_ExchangePutPost.
    destruct (OptsIsDryRun w); [intros H; injection H as <-; now left |].
    destruct (payload L false body) as [err | [jsonBytes bodyIsBytes]]; [discriminate |].
    destruct (NewRequest_err L _ _); [discriminate |].
    destruct (RoundTrip w _) as [err | resp] eqn:Hresp; [discriminate |].
    destruct (isGoodCode (StatusCode resp) goodHttpCodes) eqn:Hgood; [| discriminate].
    intros H. injection H as <-. right. repeat split; [exact Hgood |].
    eexists. exists resp. split; [left; reflexivity |]. now split.
Qed.

End Accepted.

Lemma returned_code_accepted_witness :
  snd (ExchangeGet Ref.lib "https://exchange/v1" "orgs/o/nodes/n" "o/u:pw" [200; 404]
         StringPtr (answering (ok_response 404 "")))
  = Returned (404, Untouched)
  /\ isGoodCode 404 [200; 404] = true.
Proof.
  assert (Hrun : snd (ExchangeGet Ref.lib "https://exchange/v1" "orgs/o/nodes/n" "o/u:pw"
                        [200; 404] StringPtr (answering (ok_response 404 "")))
                 = Returned (404, Untouched)) by reflexivity.
  split; [exact Hrun |].
  pose proof (returned_code_accepted Ref.lib (answering (ok_response 404 ""))
                "GET" "https://exchange/v1" "orgs/o/nodes/n" "o/u:pw" [200; 404] StringPtr
                false (BodyString "")) as (_ & Hget & _).
  exact (proj1 (Hget 404 Untouched Hrun)).
Defined.

(** ** What a call writes to stderr *)

Section Stderr.

Context {GoValue GoType : Type} (L : GoLib GoValue GoType).

Lemma sd_bind {A B : Type} (m : M A) (f : A -> M B) (w : World) :
  stderr_discipline (m w) ->
  (forall a, stderr_discipline (f a w)) ->
  stderr_discipline (bind m f w).
Proof.
  unfold stderr_discipline. intros Hm Hf.
  rewrite snd_bind, fst_bind. unfold stderr in *. rewrite flat_map_app.
  destruct (snd (m w)) as [a | c | msg].
  - rewrite Hm. apply Hf.
  - now rewrite app_nil_r.
  - now rewrite app_nil_r.
Qed.

Lemma sd_ret {A : Type} (a : A) (w : World) : stderr_discipline (ret a w).
Proof. reflexivity. Qed.

Lemma sd_Fatal {A : Type} (exitCode : Z) (msg : string) (args : list Arg) (w : World) :
  stderr_discipline (Fatal L (A := A) exitCode msg args w).
Proof. reflexivity. Qed.

Lemma sd_Verbose (msg : string) (args : list Arg) (w : World) :
  OptsVerbose w = false -> stderr_discipline (Verbose L msg args w).
Proof. intros H. unfold Verbose. rewrite H. reflexivity. Qed.

Lemma sd_os_Getenv (name : string) (w : World) : stderr_discipline (os_Getenv name w).
Proof. reflexivity. Qed.

Lemma sd_runtime_GOOS (w : World) : stderr_discipline (runtime_GOOS w).
Proof. reflexivity. Qed.

Lemma sd_IsDryRun (w : World) : stderr_discipline (IsDryRun w).
Proof. reflexivity. Qed.

Lemma sd_index0 (l : list Z) (w : World) : stderr_discipline (index0 l w).
Proof. destruct l; reflexivity. Qed.

Lemma sd_http_Get (url : string) (w : World) : stderr_discipline (http_Get url w).
Proof. reflexivity. Qed.

Lemma sd_httpClient_Do (req : Request) (w : World) : stderr_discipline (httpClient_Do req w).
Proof. reflexivity. Qed.

Lemma sd_http_NewRequest (method url : string) (body : option string) (w : World) :
  stderr_discipline (http_NewRequest L method url body w).
Proof. reflexivity. Qed.

Ltac discipline :=
  repeat first
    [ apply sd_ret | apply sd_Fatal | apply sd_Verbose; assumption
    | apply sd_os_Getenv | apply sd_runtime_GOOS | apply sd_IsDryRun | apply sd_index0
    | apply sd_http_Get | apply sd_httpClient_Do | apply sd_http_NewRequest
    | apply sd_bind; [| intros ?]
    | progress cbv beta zeta
    | match goal with
      | |- stderr_discipline ((if ?b then _ else _) _) => destruct b
      | |- stderr_discipline (match ?x with _ => _ end _) => destruct x
      end ].

(** With the verbose flag off, each operation of the two clients, the
    credential lookup, TrimOrg and RequiredWithDefaultEnvVar write to
    stderr only when they end the process, and then one text; a call that
    returns (or panics) has written nothing. *)
Theorem stderr_only_on_exit (w : World) (Hquiet : OptsVerbose w = false)
    (method urlBase urlSuffix credentials userPw nodeIdTok org id flag envVarName errMsg : string)
    (goodHttpCodes : list Z) (structure : Target GoType) (quiet : bool)
    (body : Body GoValue) :
  stderr_discipline (HorizonGet L urlSuffix goodHttpCodes structure quiet w)
  /\ stderr_discipline (HorizonDelete L urlSuffix goodHttpCodes w)
  /\ stderr_discipline (HorizonPutPost L method urlSuffix goodHttpCodes body w)
  /\ stderr_discipline (ExchangeGet L urlBase urlSuffix credentials goodHttpCodes structure w)
  /\ stderr_discipline (ExchangePutPost L method urlBase urlSuffix credentials goodHttpCodes
                          body w)
  /\ stderr_discipline (ExchangeDelete L urlBase urlSuffix credentials goodHttpCodes w)
  /\ stderr_discipline (GetExchangeAuth L userPw nodeIdTok w)
  /\ stderr_discipline (TrimOrg L org id w)
  /\ stderr_discipline (RequiredWithDefaultEnvVar L flag envVarName errMsg w).
Proof.
  repeat apply conj.
  - unfold HorizonGet, GetHorizonUrlBase, printHorizonRestError. discipline.
  - unfold HorizonDelete, GetHorizonUrlBase, printHorizonRestError. discipline.
  - unfold HorizonPutPost, GetHorizonUrlBase, printHorizonRestError. discipline.
  - unfold ExchangeGet, printHorizonExchRestError. discipline.
  - unfold ExchangePutPost, printHorizonExchRestError. discipline.
  - unfold ExchangeDelete, printHorizonExchRestError. discipline.
  - unfold GetExchangeAuth, WithDefaultEnvVar. discipline.
  - unfold TrimOrg. discipline.
  - unfold RequiredWithDefaultEnvVar. discipline.
Qed.

End Stderr.

Lemma stderr_only_on_exit_witness :
  OptsVerbose (answering (ok_response 500 "down")) = false
  /\ snd (HorizonDelete Ref.lib "node" [204] (answering (ok_response 500 "down")))
     = Exited HTTP_ERROR
  /\ List.length
       (stderr (fst (HorizonDelete Ref.lib "node" [204] (answering (ok_response 500 "down")))))
     = 1%nat.
Proof.
  split; [reflexivity | split; [reflexivity |]].
  pose proof (stderr_only_on_exit Ref.lib (answering (ok_response 500 "down")) eq_refl
                "PUT" "https://exchange/v1" "node" "" "" "" "" "" "" "" ""
                [204] StringPtr false (BodyString "")) as (_ & Hdelete & _).
  exact Hdelete.
Defined.

(** ** Dry-run and the calls that fail before the network *)

Section BeforeNetwork.

Context {GoValue GoType : Type} (L : GoLib GoValue GoType).




Lemma network_bind {A B : Type} (m : M A) (f : A -> M B) (w : World) :
  existsb is_network (fst (bind m f w)) =
  existsb is_network (fst (m w))
  || match snd (m w) with
     | Returned a => existsb is_network (fst (f a w))
     | _ => false
     end.
Proof.
  rewrite fst_bind, existsb_app. destruct (snd (m w)); reflexivity.
Qed.

(** A PUT or POST whose body does not marshal ends with the JSON-parse
    code before a request is built, and an operation whose request cannot
    be built ends with the HTTP code before anything is sent. *)
Theorem fails_before_network (w : World) (method urlBase urlSuffix credentials : string)
    (goodHttpCodes : list Z) (structure : Target GoType) (v : GoValue) (body : Body GoValue)
    (Hwet : OptsIsDryRun w = false) :
  (forall err, json_Marshal L v = inl err ->
     (snd (HorizonPutPost L method urlSuffix goodHttpCodes (BodyOther v) w)
      = Exited JSON_PARSING_ERROR
      /\ existsb is_network
           (fst (HorizonPutPost L method urlSuffix goodHttpCodes (BodyOther v) w)) = false)
     /\ (snd (ExchangePutPost L method urlBase urlSuffix credentials goodHttpCodes
                (BodyOther v) w) = Exited JSON_PARSING_ERROR
         /\ existsb is_network
              (fst (ExchangePutPost L method urlBase urlSuffix credentials goodHttpCodes
                      (BodyOther v) w)) = false))
  /\ (forall err, NewRequest_err L MethodDelete (horizon_base w ++ "/" ++ urlSuffix) = Some err ->
        snd (HorizonDelete L urlSuffix goodHttpCodes w) = Exited HTTP_ERROR
        /\ sent (fst (HorizonDelete L urlSuffix goodHttpCodes w)) = [])
  /\ (forall err, NewRequest_err L MethodDelete (urlBase ++ "/" ++ urlSuffix) = Some err ->
        snd (ExchangeDelete L urlBase urlSuffix credentials goodHttpCodes w) = Exited HTTP_ERROR
        /\ sent (fst (ExchangeDelete L urlBase urlSuffix credentials goodHttpCodes w)) = [])
  /\ (forall err, NewRequest_err L MethodGet (urlBase ++ "/" ++ urlSuffix) = Some err ->
        snd (ExchangeGet L urlBase urlSuffix credentials goodHttpCodes structure w)
        = Exited HTTP_ERROR
        /\ sent (fst (ExchangeGet L urlBase urlSuffix credentials goodHttpCodes structure w))
           = [])
  /\ (forall err jsonBytes bodyIsBytes,
        NewRequest_err L method (horizon_base w ++ "/" ++ urlSuffix) = Some err ->
        payload L true body = inr (jsonBytes, bodyIsBytes) ->
        snd (HorizonPutPost L method urlSuffix goodHttpCodes body w) = Exited HTTP_ERROR
        /\ sent (fst (HorizonPutPost L method urlSuffix goodHttpCodes body w)) = [])
  /\ (forall err jsonBytes bodyIsBytes,
        NewRequest_err L method (urlBase ++ "/" ++ urlSuffix) = Some err ->
        payload L false body = inr (jsonBytes, bodyIsBytes) ->
        snd (ExchangePutPost L method urlBase urlSuffix credentials goodHttpCodes body w)
        = Exited HTTP_ERROR
        /\ sent (fst (ExchangePutPost L method urlBase urlSuffix credentials goodHttpCodes
                        body w)) = []).
Proof.
  split; [| repeat apply conj].
  - intros err H. repeat apply conj.
    + rewrite HorizonPutPost_outcome, Hwet. cbn [payload]. now rewrite H.
    + unfold HorizonPutPost.
      rewrite network_bind, run_GetHorizonUrlBase. cbn [fst snd existsb orb].
      rewrite network_bind, network_Verbose, snd_Verbose. cbn [orb].
      rewrite network_bind, snd_IsDryRun, fst_IsDryRun, Hwet. cbn [existsb orb].
      rewrite network_bind. rewrite H. reflexivity.
    + rewrite ExchangePutPost_outcome, Hwet. cbn [payload]. now rewrite H.
    + unfold ExchangePutPost.
      rewrite network_bind, network_Verbose, snd_Verbose. cbn [orb].
      rewrite network_bind, snd_IsDryRun, fst_IsDryRun, Hwet. cbn [existsb orb].
      rewrite network_bind. rewrite H. reflexivity.
  - intros err H. split.
    + rewrite HorizonDelete_outcome, Hwet. now rewrite H.
    + rewrite sent_HorizonDelete, Hwet. now rewrite H.
  - intros err H. split.
    + rewrite ExchangeDelete_outcome, Hwet. now rewrite H.
    + rewrite sent_ExchangeDelete, Hwet. now rewrite H.
  - intros err H. split.
    + now apply ExchangeGet_new_request_failure with (err := err).
    + rewrite sent_ExchangeGet. now rewrite H.
  - intros err jsonBytes bodyIsBytes H H0. split.
    + rewrite HorizonPutPost_outcome, Hwet, H0. now rewrite H.
    + rewrite sent_HorizonPutPost, Hwet, H0. now rewrite H.
  - intros err jsonBytes bodyIsBytes H H0. split.
    + rewrite ExchangePutPost_outcome, Hwet, H0. now rewrite H.
    + rewrite sent_ExchangePutPost, Hwet, H0. now rewrite H.
Qed.

End BeforeNetwork.

Lemma fails_before_network_witness :
  OptsIsDryRun (answering (ok_response 204 "")) = false
  /\ NewRequest_err Ref.lib "DELETE" ("https://exchange/v1" ++ "/" ++ "orgs/o/nodes/" ++ nl)
     = Some "net/url: invalid control character in URL"
  /\ snd (ExchangeDelete Ref.lib "https://exchange/v1" ("orgs/o/nodes/" ++ nl) "o/u:pw" [204]
            (answering (ok_response 204 ""))) = Exited HTTP_ERROR.
Proof.
  split; [reflexivity | split; [reflexivity |]].
  pose proof (fails_before_network Ref.lib (answering (ok_response 204 ""))
                "PUT" "https://exchange/v1" ("orgs/o/nodes/" ++ nl) "o/u:pw" [204] StringPtr
                Ref.Null (BodyString "") eq_refl) as (_ & _ & Hdelete & _).
  exact (proj1 (Hdelete "net/url: invalid control character in URL" eq_refl)).
Defined.

(** ** Trimming *)

Lemma string_rev_app (a b : string) : string_rev (a ++ b) = string_rev b ++ string_rev a.
Proof.
  induction a as [| c a IH]; [cbn; now rewrite append_nil_r |].
  cbn [append string_rev]. now rewrite IH, append_assoc.
Qed.

Lemma string_rev_involutive (s : string) : string_rev (string_rev s) = s.
Proof.
  induction s as [| c s IH]; [reflexivity |].
  cbn [string_rev]. now rewrite string_rev_app, IH.
Qed.

Lemma all_chars_app (p : ascii -> bool) (a b : string) :
  all_chars p (a ++ b) = all_chars p a && all_chars p b.
Proof.
  induction a as [| c a IH]; [reflexivity |].
  cbn [append all_chars]. now rewrite IH, andb_assoc.
Qed.

Lemma all_chars_rev (p : ascii -> bool) (s : string) :
  all_chars p (string_rev s) = all_chars p s.
Proof.
  induction s as [| c s IH]; [reflexivity |].
  cbn [string_rev]. rewrite all_chars_app, IH. cbn [all_chars].
  now rewrite andb_true_r, andb_comm.
Qed.

Lemma all_chars_weaken (p q : ascii -> bool) (s : string) :
  (forall c, p c = true -> q c = true) -> all_chars p s = true -> all_chars q s = true.
Proof.
  intros Hpq. induction s as [| c s IH]; [reflexivity |].
  cbn [all_chars]. intros H. apply andb_true_iff in H as [Hc Hs].
  now rewrite (Hpq _ Hc), (IH Hs).
Qed.

(** A text that begins with none of the encodings is left as it is. *)
Lemma trim_left_stays (encodings : list string) (p : ascii -> bool) (s : string) :
  (forall c r, p c = true ->
     find (fun enc => String.prefix enc (String c r)) encodings = None) ->
  all_chars p s = true ->
  trim_left encodings s 0 = s.
Proof.
  intros Hnone Hs. destruct s as [| c r]; [reflexivity |].
  cbn [all_chars] in Hs. apply andb_true_iff in Hs as [Hc _].
  cbn [trim_left]. now rewrite (Hnone c r Hc).
Qed.

Lemma graphic_no_space (c : ascii) (r : string) :
  graphic c = true ->
  find (fun enc => String.prefix enc (String c r)) space_encodings = None.
Proof.
  destruct c as [[] [] [] [] [] [] [] []]; intros H; try reflexivity; discriminate H.
Qed.

Lemma graphic_no_space_rev (c : ascii) (r : string) :
  graphic c = true ->
  find (fun enc => String.prefix enc (String c r)) (map string_rev space_encodings) = None.
Proof.
  destruct c as [[] [] [] [] [] [] [] []]; intros H; try reflexivity; discriminate H.
Qed.

Lemma TrimSpace_graphic (s : string) : all_chars graphic s = true -> TrimSpace s = s.
Proof.
  intros Hs. unfold TrimSpace.
  rewrite (trim_left_stays _ graphic s graphic_no_space Hs).
  rewrite (trim_left_stays _ graphic (string_rev s) graphic_no_space_rev)
    by now rewrite all_chars_rev.
  apply string_rev_involutive.
Qed.

Lemma other_no_cutset (cutset c : ascii) (r : string) :
  negb (Ascii.eqb c cutset) = true ->
  find (fun enc => String.prefix enc (String c r)) [String cutset ""] = None.
Proof.
  intros Hc. cbn [find]. rewrite prefix_byte, (Ascii.eqb_sym cutset c).
  apply negb_true_iff in Hc. now rewrite Hc.
Qed.

Lemma Trim_free (s : string) (cutset : ascii) :
  all_chars (fun c => negb (Ascii.eqb c cutset)) s = true -> Trim s cutset = s.
Proof.
  intros Hs. unfold Trim.
  rewrite (trim_left_stays _ _ s (other_no_cutset cutset) Hs).
  rewrite (trim_left_stays _ _ (string_rev s) (other_no_cutset cutset))
    by now rewrite all_chars_rev.
  apply string_rev_involutive.
Qed.

Lemma trim_left_cutset (cutset : ascii) (s : string) :
  trim_left [String cutset ""] (String cutset s) 0 = trim_left [String cutset ""] s 0.
Proof.
  cbn [trim_left find]. rewrite prefix_byte, Ascii.eqb_refl. reflexivity.
Qed.

(** A text free of the cutset character, wrapped in a pair of them, is
    unwrapped. *)
Lemma Trim_wrapped (s : string) (cutset : ascii) :
  all_chars (fun c => negb (Ascii.eqb c cutset)) s = true ->
  Trim (String cutset "" ++ s ++ String cutset "") cutset = s.
Proof.
  intros Hs. unfold Trim. cbn [append]. rewrite trim_left_cutset.
  destruct s as [| d s'].
  - cbn [append]. rewrite trim_left_cutset. reflexivity.
  - assert (Hleft : trim_left [String cutset ""] (String d s' ++ String cutset "") 0
                    = String d s' ++ String cutset "").
    { cbn [all_chars] in Hs. apply andb_true_iff in Hs as [Hd _].
      cbn [append trim_left]. now rewrite (other_no_cutset cutset d _ Hd). }
    rewrite Hleft, string_rev_app. cbn [string_rev append]. rewrite trim_left_cutset.
    rewrite (trim_left_stays _ _ _ (other_no_cutset cutset))
      by (change (string_rev s' ++ String d "") with (string_rev (String d s'));
          now rewrite all_chars_rev).
    change (string_rev s' ++ String d "") with (string_rev (String d s')).
    apply string_rev_involutive.
Qed.

(** ** Values read from a file of key=value lines *)

Lemma Contains_unfold (s substr : string) :
  Contains s substr =
  if String.prefix substr s then true
  else match s with
       | EmptyString => false
       | String _ r => Contains r substr
       end.
Proof. destruct s; reflexivity. Qed.

Lemma prefix_app (a b : string) : String.prefix a (a ++ b) = true.
Proof.
  induction a as [| c a IH]; [now destruct b |].
  cbn [append]. rewrite prefix_cons. now destruct (ascii_dec c c).
Qed.

Lemma Contains_prefix (a b : string) : Contains (a ++ b) a = true.
Proof. rewrite Contains_unfold. now rewrite prefix_app. Qed.

Lemma all_chars_free (s : string) (x : ascii) :
  all_chars (fun c => negb (Ascii.eqb c x)) s = true -> Contains s (String x "") = false.
Proof.
  induction s as [| c s IH]; [reflexivity |].
  cbn [all_chars]. intros H. apply andb_true_iff in H as [Hc Hs].
  rewrite Contains_byte_cons, (IH Hs). apply negb_true_iff in Hc. now rewrite Hc.
Qed.

Lemma plain_char_facts (c : ascii) :
  plain_char c = true ->
  graphic c = true /\ negb (Ascii.eqb c "'") = true
  /\ negb (Ascii.eqb c Ref.dquote) = true /\ negb (Ascii.eqb c "=") = true.
Proof.
  unfold plain_char. intros H.
  apply andb_true_iff in H as [H Heq]. apply andb_true_iff in H as [H Hdq].
  apply andb_true_iff in H as [Hg Hq]. auto.
Qed.

Lemma scan_for_passes (key line : string) (rest : list string) :
  passed_over key line -> scan_for key (line :: rest) = scan_for key rest.
Proof.
  intros [Hfree | (text & ->)]; cbn [scan_for].
  - now rewrite Hfree.
  - destruct (Contains ("#" ++ text) key); [| reflexivity].
    replace (Contains (nth 0 (Split ("#" ++ text) "=") "") "#") with true; [reflexivity |].
    cbn [append Split]. change (Ascii.eqb "#" "=") with false. cbv iota.
    pose proof (Split_nonempty text "=") as Hlen.
    destruct (Split text "=") as [| piece pieces]; [cbn in Hlen; lia |].
    cbn [nth]. now rewrite Contains_byte_cons.
Qed.

Lemma scan_for_skips (key : string) (before rest : list string) :
  (forall line, In line before -> passed_over key line) ->
  scan_for key (before ++ rest)%list = scan_for key rest.
Proof.
  induction before as [| line before IH]; intros Hbefore; [reflexivity |].
  cbn [app]. rewrite scan_for_passes by (apply Hbefore; now left).
  apply IH. intros l Hl. apply Hbefore. now right.
Qed.

Lemma line_value_plain (key value q : string) :
  all_chars plain_char value = true ->
  q = "" \/ q = "'" \/ q = String Ref.dquote "" ->
  Contains (q ++ value ++ q) "=" = false
  /\ line_value [key; q ++ value ++ q] = value.
Proof.
  intros Hvalue Hq.
  assert (Hgraphic : all_chars graphic value = true)
    by (apply (all_chars_weaken plain_char); [apply plain_char_facts | exact Hvalue]).
  assert (Hsingle : all_chars (fun c => negb (Ascii.eqb c "'")) value = true)
    by (apply (all_chars_weaken plain_char); [apply plain_char_facts | exact Hvalue]).
  assert (Hdouble : all_chars (fun c => negb (Ascii.eqb c Ref.dquote)) value = true)
    by (apply (all_chars_weaken plain_char); [apply plain_char_facts | exact Hvalue]).
  assert (Hequals : Contains value "=" = false)
    by (apply all_chars_free, (all_chars_weaken plain_char);
        [apply plain_char_facts | exact Hvalue]).
  unfold line_value. cbn [List.length Nat.ltb Nat.leb nth].
  destruct Hq as [-> | [-> | ->]].
  - cbn [append]. rewrite append_nil_r. split; [exact Hequals |].
    now rewrite (TrimSpace_graphic _ Hgraphic), (Trim_free _ _ Hsingle), (Trim_free _ _ Hdouble).
  - split; [now rewrite !Contains_byte_app, Hequals |].
    rewrite TrimSpace_graphic by (now rewrite !all_chars_app, Hgraphic).
    now rewrite (Trim_wrapped _ _ Hsingle), (Trim_free _ _ Hdouble).
  - split; [now rewrite !Contains_byte_app, Hequals |].
    rewrite TrimSpace_graphic by (now rewrite !all_chars_app, Hgraphic).
    rewrite (Trim_free (String Ref.dquote "" ++ value ++ String Ref.dquote "") "'")
      by (now rewrite !all_chars_app, Hsingle).
    apply (Trim_wrapped _ _ Hdouble).
Qed.

(** GetEnvVarFromFile returns the value of the first line that mentions
    the key and is no comment; lines after it and an error of the scanner
    after it do not count.  When the lines before it do not mention the
    key or begin with #, the line is the key, "=" and a value of graphic
    characters without quotes or "=", bare or in a pair of single or
    double quotes, and the key holds no # and no =, the value comes back
    without the quotes.  A file in which every line is passed over gives
    the empty value with the error of the scanner, and a file that is not
    there gives the empty value and no error. *)
Theorem GetEnvVarFromFile_value (fs : FileSystem) (filename key value q : string)
    (before after lines : list string) (err : option error) :
  (ScanFile fs filename = Scans (before ++ (key ++ "=" ++ q ++ value ++ q) :: after) err ->
   (forall line, In line before -> passed_over key line) ->
   Contains key "#" = false ->
   Contains key "=" = false ->
   all_chars plain_char value = true ->
   q = "" \/ q = "'" \/ q = String Ref.dquote "" ->
   GetEnvVarFromFile fs filename key = (value, None))
  /\ (ScanFile fs filename = Scans lines err ->
      (forall line, In line lines -> passed_over key line) ->
      GetEnvVarFromFile fs filename key = ("", err))
  /\ (ScanFile fs filename = NotExist -> GetEnvVarFromFile fs filename key = ("", None)).
Proof.
  unfold GetEnvVarFromFile. repeat apply conj.
  - intros -> Hbefore Hhash Hequals Hvalue Hq.
    rewrite (scan_for_skips _ _ _ Hbefore). cbn [scan_for].
    rewrite Contains_prefix.
    destruct (line_value_plain key value q Hvalue Hq) as [Hraw Hline].
    change (key ++ "=" ++ q ++ value ++ q) with (key ++ String "=" (q ++ value ++ q)).
    rewrite (Split_app _ _ _ Hequals), (Split_free _ _ Hraw).
    cbn [nth]. now rewrite Hhash, Hline.
  - intros -> Hlines.
    rewrite <- (app_nil_r lines), (scan_for_skips _ _ _ Hlines). cbn [scan_for].
    now destruct err.
  - now intros ->.
Qed.

Lemma GetEnvVarFromFile_value_witness :
  GetEnvVarFromFile
    (only_overwrite_file
       ["# HZN_EXCHANGE_URL=https://old.example.com/v1/"; "HZN_DEVICE_ID=node1";
        "HZN_EXCHANGE_URL=" ++ quote "https://exchange.example.com/v1/";
        "HZN_EXCHANGE_URL=https://later.example.com/v1/"])
    ANAX_OVERWRITE_FILE "HZN_EXCHANGE_URL"
  = ("https://exchange.example.com/v1/", None).
Proof.
  apply (proj1 (GetEnvVarFromFile_value
                  (only_overwrite_file
                     ["# HZN_EXCHANGE_URL=https://old.example.com/v1/"; "HZN_DEVICE_ID=node1";
                      "HZN_EXCHANGE_URL=" ++ quote "https://exchange.example.com/v1/";
                      "HZN_EXCHANGE_URL=https://later.example.com/v1/"])
                  ANAX_OVERWRITE_FILE "HZN_EXCHANGE_URL" "https://exchange.example.com/v1/"
                  (String Ref.dquote "")
                  ["# HZN_EXCHANGE_URL=https://old.example.com/v1/"; "HZN_DEVICE_ID=node1"]
                  ["HZN_EXCHANGE_URL=https://later.example.com/v1/"] [] None)).
  - reflexivity.
  - intros line [<- | [<- | []]].
    + right. exists " HZN_EXCHANGE_URL=https://old.example.com/v1/". reflexivity.
    + left. reflexivity.
  - reflexivity.
  - reflexivity.
  - reflexivity.
  - right. right. reflexivity.
Defined.

(** ** The URL of the exchange *)

Section ExchangeUrlFacts.

Context {GoValue GoType : Type} (L : GoLib GoValue GoType).
Variable HorizonConfig : Type.
Variable Unmarshal_HorizonConfig : string -> error + HorizonConfig.
Variable Edge_ExchangeURL : HorizonConfig -> string.

Local Abbreviation FromAnax := (GetExchangeUrlFromAnax L HorizonConfig Unmarshal_HorizonConfig Edge_ExchangeURL).
Local Abbreviation ExchangeUrl := (GetExchangeUrl L HorizonConfig Unmarshal_HorizonConfig Edge_ExchangeURL).
Local Abbreviation AnaxConfig := (GetAnaxConfig L HorizonConfig Unmarshal_HorizonConfig).

Ltac url_walk :=
  repeat (rewrite ?snd_bind, ?snd_os_Getenv, ?snd_Verbose, ?snd_ret; cbv beta iota).

(** What anax.json contributes. *)
Lemma snd_GetExchangeUrlFromAnax_config (fs : FileSystem) (w : World) (value : string)
    (err : option error) :
  GetEnvVarFromFile fs ANAX_OVERWRITE_FILE "HZN_EXCHANGE_URL" = (value, err) ->
  err <> None \/ value = "" ->
  snd (FromAnax fs w)
  = Returned match AnaxConfig fs ANAX_CONFIG_FILE with
             | (Some anaxConfig, None) => Edge_ExchangeURL anaxConfig
             | _ => ""
             end.
Proof.
  intros Hfile Hnone. unfold GetExchangeUrlFromAnax. rewrite Hfile.
  assert (Hfound :
            snd ((match err with
                 | Some err =>
                     Verbose L (Sprintf L "Error getting HZN_EXCHANGE_URL from %v. %v"
                                  [AStr ANAX_OVERWRITE_FILE; AErr err]) [] ;;;
                     ret None
                 | None => if nonempty value then ret (Some value) else ret None
                 end) w) = Returned None).
  { destruct err as [e |].
    - now url_walk.
    - destruct Hnone as [Hnone | ->]; [now contradiction Hnone | reflexivity]. }
  rewrite snd_bind, Hfound.
  destruct (AnaxConfig fs ANAX_CONFIG_FILE) as [[anaxConfig |] [e |]]; now url_walk.
Qed.

Lemma snd_GetExchangeUrlFromAnax_overwrite (fs : FileSystem) (w : World) (value : string) :
  GetEnvVarFromFile fs ANAX_OVERWRITE_FILE "HZN_EXCHANGE_URL" = (value, None) ->
  value <> "" ->
  snd (FromAnax fs w) = Returned value.
Proof.
  intros Hfile Hvalue. unfold GetExchangeUrlFromAnax. rewrite Hfile.
  apply nonempty_neq in Hvalue. rewrite Hvalue. now url_walk.
Qed.

Lemma snd_GetExchangeUrl_env (fs : FileSystem) (usingApiKey : bool) (w : World) :
  Getenv w "HZN_EXCHANGE_URL" <> "" ->
  snd (ExchangeUrl fs usingApiKey w)
  = Returned (tidy_url (api_key_mode usingApiKey w) (Getenv w "HZN_EXCHANGE_URL")).
Proof.
  intros Henv. apply String.eqb_neq in Henv.
  unfold GetExchangeUrl, tidy_url, api_key_mode. url_walk. rewrite Henv. url_walk.
  destruct usingApiKey; now url_walk.
Qed.




Lemma FromAnax_returns (fs : FileSystem) (w : World) :
  exists value, snd (FromAnax fs w) = Returned value.
Proof.
  destruct (GetEnvVarFromFile fs ANAX_OVERWRITE_FILE "HZN_EXCHANGE_URL") as [value err] eqn:Hfile.
  destruct err as [e |].
  - eexists. apply (snd_GetExchangeUrlFromAnax_config _ _ _ _ Hfile). now left.
  - destruct (String.eqb_spec value "") as [Hempty | Hvalue].
    + eexists. apply (snd_GetExchangeUrlFromAnax_config _ _ _ _ Hfile). now right.
    + eexists. apply (snd_GetExchangeUrlFromAnax_overwrite _ _ _ Hfile Hvalue).
Qed.




Lemma network_GetExchangeUrlFromAnax (fs : FileSystem) (w : World) :
  existsb is_network (fst (FromAnax fs w)) = false.
Proof.
  unfold GetExchangeUrlFromAnax.
  destruct (GetEnvVarFromFile fs ANAX_OVERWRITE_FILE "HZN_EXCHANGE_URL") as [value [e |]];
    [| destruct (nonempty value)];
    destruct (AnaxConfig fs ANAX_CONFIG_FILE) as [[anaxConfig |] [e' |]];
    repeat (rewrite ?network_bind, ?snd_bind, ?snd_Verbose, ?snd_ret, ?network_Verbose;
            cbv beta iota; cbn [orb]);
    reflexivity.
Qed.


Lemma network_GetExchangeUrl (fs : FileSystem) (usingApiKey : bool) (w : World) :
  existsb is_network (fst (ExchangeUrl fs usingApiKey w)) = false.
Proof.
  destruct (FromAnax_returns fs w) as [value Hvalue].
  pose proof (network_GetExchangeUrlFromAnax fs w) as Hfst.
  unfold GetExchangeUrl.
  destruct (String.eqb (Getenv w "HZN_EXCHANGE_URL") "") eqn:Henv;
    destruct usingApiKey; destruct (nonempty value) eqn:Hne;
    repeat (rewrite ?network_bind, ?snd_bind, ?snd_os_Getenv, ?fst_os_Getenv, ?snd_Verbose,
             ?snd_ret, ?network_Verbose, ?Hvalue, ?Hfst, ?Henv, ?Hne;
            cbv beta iota; cbn [orb existsb]);
    reflexivity.
Qed.


Lemma substring_take (a b : string) : substring 0 (String.length a) (a ++ b) = a.
Proof.
  induction a as [| c a IH]; [now destruct b |].
  cbn [String.length append substring]. now rewrite IH.
Qed.

Lemma substring_skip (a b : string) :
  substring (String.length a) (String.length b) (a ++ b) = b.
Proof.
  induction a as [| c a IH]; [apply substring_all | exact IH].
Qed.

Lemma HasSuffix_app (a b : string) : HasSuffix (a ++ b) b = true.
Proof.
  unfold HasSuffix. rewrite length_append.
  replace (String.length b <=? String.length a + String.length b)%nat with true
    by (symmetry; apply Nat.leb_le; lia).
  replace (String.length a + String.length b - String.length b)%nat with (String.length a)
    by lia.
  rewrite substring_skip. apply String.eqb_refl.
Qed.

Lemma TrimSuffix_app (a b : string) : TrimSuffix (a ++ b) b = a.
Proof.
  unfold TrimSuffix. rewrite HasSuffix_app, length_append.
  replace (String.length a + String.length b - String.length b)%nat with (String.length a)
    by lia.
  apply substring_take.
Qed.

Lemma HasSuffix_last (a : string) (c d : ascii) :
  HasSuffix (a ++ String c "") (String d "") = Ascii.eqb c d.
Proof.
  unfold HasSuffix. rewrite length_append. cbn [String.length].
  replace (1 <=? String.length a + 1)%nat with true by (symmetry; apply Nat.leb_le; lia).
  replace (String.length a + 1 - 1)%nat with (String.length a) by lia.
  pose proof (substring_skip a (String c "")) as Hlast. cbn [String.length] in Hlast.
  rewrite Hlast. cbn [String.eqb].
  now destruct (Ascii.eqb c d).
Qed.

Lemma replace_edgenode_app (base : string) :
  replace_edgenode (base ++ "edgenode") = base ++ "edge".
Proof.
  unfold replace_edgenode. now rewrite HasSuffix_app, TrimSuffix_app.
Qed.

Lemma TrimSuffix_edgenode (base : string) :
  TrimSuffix (base ++ "edgenode") "/" = base ++ "edgenode".
Proof.
  unfold TrimSuffix.
  change (base ++ "edgenode") with (base ++ "edgenod" ++ "e").
  now rewrite <- append_assoc, HasSuffix_last.
Qed.

(** What GetExchangeUrl does to the URL of HZN_EXCHANGE_URL.  Outside
    API-key mode one trailing slash is taken off and nothing else: the URL
    base/ comes back as base, also when base ends in edgenode or in a
    slash of its own.  In API-key mode (the flag, or USING_API_KEY=1) a URL
    that ends in edgenode, with or without a slash after it, comes back
    with edge in its place. *)
Theorem GetExchangeUrl_tidies (fs : FileSystem) (usingApiKey : bool) (w : World)
    (base : string) :
  (Getenv w "HZN_EXCHANGE_URL" = base ++ "/" ->
   api_key_mode usingApiKey w = false ->
   snd (ExchangeUrl fs usingApiKey w) = Returned base)
  /\ (Getenv w "HZN_EXCHANGE_URL" = base ++ "edgenode" ++ "/"
      \/ Getenv w "HZN_EXCHANGE_URL" = base ++ "edgenode" ->
      api_key_mode usingApiKey w = true ->
      snd (ExchangeUrl fs usingApiKey w) = Returned (base ++ "edge")).
Proof.
  split.
  - intros Henv Hmode. rewrite snd_GetExchangeUrl_env, Hmode, Henv.
    + unfold tidy_url. now rewrite TrimSuffix_app.
    + rewrite Henv. now destruct base.
  - intros Henv Hmode. rewrite snd_GetExchangeUrl_env, Hmode.
    + unfold tidy_url. destruct Henv as [-> | ->].
      * now rewrite <- append_assoc, TrimSuffix_app, replace_edgenode_app.
      * now rewrite TrimSuffix_edgenode, replace_edgenode_app.
    + destruct Henv as [-> | ->]; now destruct base.
Qed.

End ExchangeUrlFacts.


Lemma GetExchangeUrl_tidies_witness :
  snd (GetExchangeUrl Ref.lib unit (fun _ => inr tt) (fun _ => "")
         (only_overwrite_file []) false
         (set_env "USING_API_KEY" "1"
            (set_env "HZN_EXCHANGE_URL" "https://exchange.example.com/v1/edgenode/"
               (answering (ok_response 200 "")))))
  = Returned "https://exchange.example.com/v1/edge".
Proof.
  apply (proj2 (GetExchangeUrl_tidies Ref.lib unit (fun _ => inr tt) (fun _ => "")
                  (only_overwrite_file []) false
                  (set_env "USING_API_KEY" "1"
                     (set_env "HZN_EXCHANGE_URL" "https://exchange.example.com/v1/edgenode/"
                        (answering (ok_response 200 ""))))
                  "https://exchange.example.com/v1/")).
  - left. reflexivity.
  - reflexivity.
Defined.

(** ** Comments in JSON files *)

Lemma first_index_unfold (s substr : string) :
  first_index s substr =
  if String.prefix substr s then Some 0%nat
  else match s with
       | EmptyString => None
       | String _ r => option_map S (first_index r substr)
       end.
Proof. destruct s; reflexivity. Qed.

Lemma Contains_tail (c : ascii) (s substr : string) :
  Contains (String c s) substr = false ->
  String.prefix substr (String c s) = false /\ Contains s substr = false.
Proof.
  rewrite Contains_unfold. destruct (String.prefix substr (String c s)); [discriminate |].
  now split.
Qed.

Lemma first_index_free (s substr : string) :
  Contains s substr = false -> first_index s substr = None.
Proof.
  induction s as [| c s IH]; intros Hfree; rewrite first_index_unfold.
  - rewrite Contains_unfold in Hfree. now destruct (String.prefix substr "").
  - apply Contains_tail in Hfree as [Hhere Hlater]. now rewrite Hhere, (IH Hlater).
Qed.

(** A pattern of two bytes that does not begin [a] does not begin [a]
    followed by a text either, unless that text starts with the second
    byte. *)
Lemma prefix_two_app (x y c : ascii) (a t : string) :
  String.prefix (String x (String y "")) (String c a) = false ->
  (forall t', t <> String y t') ->
  String.prefix (String x (String y "")) (String c a ++ t) = false.
Proof.
  intros Hhere Ht. cbn [append]. rewrite prefix_cons in *.
  destruct (ascii_dec x c) as [Hxc |]; [| reflexivity].
  destruct a as [| d a].
  - destruct t as [| e t]; [reflexivity |]. cbn [append]. rewrite prefix_cons.
    destruct (ascii_dec y e) as [-> |]; [| reflexivity]. now contradiction (Ht t).
  - cbn [append]. rewrite prefix_cons in *.
    destruct (ascii_dec y d); [now destruct a | reflexivity].
Qed.

Lemma first_index_app (c b : string) :
  Contains c "*/" = false -> first_index (c ++ "*/" ++ b) "*/" = Some (String.length c).
Proof.
  induction c as [| e c IH]; intros Hfree; rewrite first_index_unfold.
  - change ("" ++ "*/" ++ b) with ("*/" ++ b). now rewrite (prefix_app "*/" b).
  - apply Contains_tail in Hfree as [Hhere Hlater].
    rewrite (prefix_two_app _ _ _ _ ("*/" ++ b) Hhere) by discriminate.
    change (String e c ++ "*/" ++ b) with (String e (c ++ "*/" ++ b)).
    cbv iota. now rewrite (IH Hlater).
Qed.

Lemma comment_length_none (s : string) :
  String.prefix "/*" s = false -> comment_length s = None.
Proof. unfold comment_length. now intros ->. Qed.

Lemma comment_length_open (rest : string) :
  comment_length ("/*" ++ rest)
  = option_map (fun i => (i + 4)%nat) (first_index rest "*/").
Proof.
  unfold comment_length. rewrite prefix_app.
  change ("/*" ++ rest) with (String "/" (String "*" rest)).
  cbn [String.length substring].
  replace (S (S (String.length rest)) - 2)%nat with (String.length rest) by lia.
  now rewrite substring_all.
Qed.

Lemma strip_comments_skip (x y : string) :
  strip_comments (x ++ y) (String.length x) = strip_comments y 0.
Proof. induction x as [| c x IH]; [reflexivity | exact IH]. Qed.

Lemma strip_comments_plain (a t : string) :
  Contains a "/*" = false ->
  (forall t', t <> String "*" t') ->
  strip_comments (a ++ t) 0 = a ++ strip_comments t 0.
Proof.
  intros Hfree Ht. induction a as [| c a IH]; [reflexivity |].
  apply Contains_tail in Hfree as [Hhere Hlater].
  pose proof (prefix_two_app _ _ _ _ t Hhere Ht) as Hopen.
  apply comment_length_none in Hopen. cbn [append] in *.
  cbn [strip_comments]. now rewrite Hopen, (IH Hlater).
Qed.

Lemma strip_comments_unclosed (s : string) :
  Contains s "*/" = false -> strip_comments s 0 = s.
Proof.
  induction s as [| c s IH]; intros Hfree; [reflexivity |].
  assert (Hnone : comment_length (String c s) = None).
  { unfold comment_length. destruct (String.prefix "/*" (String c s)) eqn:Hopen; [| reflexivity].
    destruct s as [| d s]; [now rewrite prefix_cons in Hopen; destruct (ascii_dec "/" c) |].
    cbn [String.length substring].
    replace (S (S (String.length s)) - 2)%nat with (String.length s) by lia.
    rewrite substring_all.
    apply Contains_tail in Hfree as [_ Hfree]. apply Contains_tail in Hfree as [_ Hfree].
    now rewrite (first_index_free _ _ Hfree). }
  apply Contains_tail in Hfree as [_ Hlater].
  cbn [strip_comments]. now rewrite Hnone, (IH Hlater).
Qed.

Lemma strip_comments_comment (a c b : string) :
  Contains a "/*" = false ->
  Contains c "*/" = false ->
  strip_comments (a ++ "/*" ++ c ++ "*/" ++ b) 0 = a ++ strip_comments b 0.
Proof.
  intros Ha Hc. rewrite (strip_comments_plain _ _ Ha) by discriminate. f_equal.
  pose proof (comment_length_open (c ++ "*/" ++ b)) as Hlength.
  rewrite (first_index_app _ b Hc) in Hlength. cbn [option_map append] in Hlength.
  cbn [append strip_comments]. rewrite Hlength.
  replace (String.length c + 4 - 1)%nat with (String.length ("*" ++ c ++ "*/"))
    by (rewrite !length_append; cbn [String.length]; lia).
  rewrite <- (strip_comments_skip ("*" ++ c ++ "*/") b).
  now rewrite !append_assoc.
Qed.

Lemma strip_comments_open (a c : string) :
  Contains a "/*" = false ->
  Contains c "*/" = false ->
  strip_comments (a ++ "/*" ++ c) 0 = a ++ "/*" ++ c.
Proof.
  intros Ha Hc. rewrite (strip_comments_plain _ _ Ha) by discriminate. f_equal.
  pose proof (comment_length_open c) as Hlength.
  rewrite (first_index_free _ _ Hc) in Hlength. cbn [option_map append] in Hlength.
  cbn [append strip_comments]. rewrite Hlength.
  rewrite (comment_length_none (String "*" c)) by reflexivity.
  now rewrite (strip_comments_unclosed _ Hc).
Qed.

Section FilesFacts.

Context {GoValue GoType : Type} (L : GoLib GoValue GoType).
Variable ExpandEnv : string -> M string.

(** ReadJsonFile ends the process with FILE_IO_ERROR when the file (or
    standard input, for the path "-") cannot be read.  With
    HZN_DONT_SUBST_ENV_VARS=1 it returns the text without its comments: a
    text with no "/*" comes back as it is; in a ++ "/*" ++ c ++ "*/" ++ b,
    where a holds no "/*" and c no "*/", the comment goes, a stays and the
    rest b is treated in the same way; and a comment that is opened and
    never closed is kept. *)
Theorem ReadJsonFile_comments (fs : FileSystem) (stdin : error + string)
    (filePath text : string) (w : World) :
  (forall err,
     (if String.eqb filePath "-" then stdin else ReadFile_io fs filePath) = inl err ->
     snd (ReadJsonFile L ExpandEnv fs stdin filePath w) = Exited FILE_IO_ERROR)
  /\ ((if String.eqb filePath "-" then stdin else ReadFile_io fs filePath) = inr text ->
      Getenv w "HZN_DONT_SUBST_ENV_VARS" = "1" ->
      (Contains text "/*" = false ->
       snd (ReadJsonFile L ExpandEnv fs stdin filePath w) = Returned text)
      /\ (forall a c b,
            text = a ++ "/*" ++ c ++ "*/" ++ b ->
            Contains a "/*" = false ->
            Contains c "*/" = false ->
            snd (ReadJsonFile L ExpandEnv fs stdin filePath w)
            = Returned (a ++ strip_comments b 0))
      /\ (forall a c,
            text = a ++ "/*" ++ c ->
            Contains a "/*" = false ->
            Contains c "*/" = false ->
            snd (ReadJsonFile L ExpandEnv fs stdin filePath w) = Returned text)).
Proof.
  split.
  - intros err Hread. unfold ReadJsonFile. rewrite Hread.
    now rewrite !snd_bind, snd_Fatal.
  - intros Hread Henv.
    assert (Hrun : snd (ReadJsonFile L ExpandEnv fs stdin filePath w)
                   = Returned (strip_comments text 0)).
    { unfold ReadJsonFile. rewrite Hread.
      rewrite snd_bind, snd_ret, snd_bind, snd_os_Getenv, Henv. reflexivity. }
    rewrite Hrun. repeat apply conj.
    + intros Hfree. f_equal.
      rewrite <- (append_nil_r text) at 1.
      rewrite (strip_comments_plain _ _ Hfree) by discriminate. apply append_nil_r.
    + intros a c b -> Ha Hc. f_equal. now apply strip_comments_comment.
    + intros a c -> Ha Hc. f_equal. now apply strip_comments_open.
Qed.

End FilesFacts.

Lemma ReadJsonFile_comments_witness :
  snd (ReadJsonFile Ref.lib (fun s => ret s) (only_overwrite_file []) (inr "[1, /* two */ 3]")
         "-" (set_env "HZN_DONT_SUBST_ENV_VARS" "1" (answering (ok_response 200 ""))))
  = Returned "[1,  3]".
Proof.
  apply (proj1 (proj2 (proj2 (ReadJsonFile_comments Ref.lib (fun s => ret s)
                                (only_overwrite_file []) (inr "[1, /* two */ 3]") "-"
                                "[1, /* two */ 3]"
                                (set_env "HZN_DONT_SUBST_ENV_VARS" "1"
                                   (answering (ok_response 200 ""))))
                               eq_refl eq_refl))
           "[1, " " two " " 3]").
  - reflexivity.
  - reflexivity.
  - reflexivity.
Defined.

(** ** Calling the exchange at the URL that GetExchangeUrl gives *)

Lemma sent_no_network (t : list Event) : existsb is_network t = false -> sent t = [].
Proof.
  induction t as [| e t IH]; [reflexivity |].
  cbn [existsb]. intros H. apply orb_false_iff in H as [He Ht].
  destruct e; [exact (IH Ht) | discriminate He | discriminate He].
Qed.

Section ExchangeCalls.

Context {GoValue GoType : Type} (L : GoLib GoValue GoType).
Variable HorizonConfig : Type.
Variable Unmarshal_HorizonConfig : string -> error + HorizonConfig.
Variable Edge_ExchangeURL : HorizonConfig -> string.

Local Abbreviation ExchangeUrl :=
  (GetExchangeUrl L HorizonConfig Unmarshal_HorizonConfig Edge_ExchangeURL).

Lemma GetExchangeUrl_then {A : Type} (fs : FileSystem) (usingApiKey : bool) (w : World)
    (base : string) (call : string -> M A) :
  Getenv w "HZN_EXCHANGE_URL" = base ++ "/" ->
  api_key_mode usingApiKey w = false ->
  snd (bind (ExchangeUrl fs usingApiKey) call w) = snd (call base w)
  /\ sent (fst (bind (ExchangeUrl fs usingApiKey) call w)) = sent (fst (call base w)).
Proof.
  intros Henv Hmode.
  assert (Hurl : snd (ExchangeUrl fs usingApiKey w) = Returned base).
  { rewrite snd_GetExchangeUrl_env by (rewrite Henv; now destruct base).
    rewrite Hmode, Henv. unfold tidy_url. now rewrite TrimSuffix_app. }
  split.
  - now rewrite snd_bind, Hurl.
  - rewrite sent_bind, Hurl. now rewrite (sent_no_network _ (network_GetExchangeUrl _ _ _ _ _ _ _)).
Qed.

(** An operation of the exchange client called with what GetExchangeUrl
    returns: when HZN_EXCHANGE_URL is base/ and API-key mode is off, the
    call ends as the same call made with base does and sends the same
    requests, so the URL of a request is base/urlSuffix with one slash
    between the two. *)
Theorem GetExchangeUrl_then_exchange (fs : FileSystem) (usingApiKey : bool) (w : World)
    (base method urlSuffix credentials : string) (goodHttpCodes : list Z)
    (structure : Target GoType) (body : Body GoValue) :
  Getenv w "HZN_EXCHANGE_URL" = base ++ "/" ->
  api_key_mode usingApiKey w = false ->
  let get urlBase := ExchangeGet L urlBase urlSuffix credentials goodHttpCodes structure in
  let put_post urlBase :=
    ExchangePutPost L method urlBase urlSuffix credentials goodHttpCodes body in
  let delete urlBase := ExchangeDelete L urlBase urlSuffix credentials goodHttpCodes in
  (snd (bind (ExchangeUrl fs usingApiKey) get w) = snd (get base w)
   /\ sent (fst (bind (ExchangeUrl fs usingApiKey) get w)) = sent (fst (get base w)))
  /\ (snd (bind (ExchangeUrl fs usingApiKey) put_post w) = snd (put_post base w)
      /\ sent (fst (bind (ExchangeUrl fs usingApiKey) put_post w))
         = sent (fst (put_post base w)))
  /\ (snd (bind (ExchangeUrl fs usingApiKey) delete w) = snd (delete base w)
      /\ sent (fst (bind (ExchangeUrl fs usingApiKey) delete w)) = sent (fst (delete base w)))
  /\ forall req,
       In req (sent (fst (bind (ExchangeUrl fs usingApiKey) get w)))
       \/ In req (sent (fst (bind (ExchangeUrl fs usingApiKey) put_post w)))
       \/ In req (sent (fst (bind (ExchangeUrl fs usingApiKey) delete w))) ->
       URL req = base ++ "/" ++ urlSuffix.
Proof.
  intros Henv Hmode get put_post delete.
  destruct (GetExchangeUrl_then fs usingApiKey w base get Henv Hmode) as [Hget Hget_sent].
  destruct (GetExchangeUrl_then fs usingApiKey w base put_post Henv Hmode)
    as [Hput Hput_sent].
  destruct (GetExchangeUrl_then fs usingApiKey w base delete Henv Hmode)
    as [Hdelete Hdelete_sent].
  repeat split; try assumption.
  intros req. rewrite Hget_sent, Hput_sent, Hdelete_sent. subst get put_post delete.
  cbv beta. rewrite sent_ExchangeGet, sent_ExchangePutPost, sent_ExchangeDelete.
  intros [Hin | [Hin | Hin]].
  - destruct (NewRequest_err L MethodGet _); [contradiction Hin |].
    destruct Hin as [<- | []]. unfold exchange_get_request.
    now destruct (nonempty credentials).
  - destruct (OptsIsDryRun w); [contradiction Hin |].
    destruct (payload L false body) as [err | [jsonBytes bodyIsBytes]]; [contradiction Hin |].
    destruct (NewRequest_err L method _); [contradiction Hin |].
    destruct Hin as [<- | []]. unfold with_credentials, put_post_request.
    now destruct (nonempty credentials), bodyIsBytes.
  - destruct (OptsIsDryRun w); [contradiction Hin |].
    destruct (NewRequest_err L MethodDelete _); [contradiction Hin |].
    now destruct Hin as [<- | []].
Qed.

End ExchangeCalls.

Lemma GetExchangeUrl_then_exchange_witness :
  URL (exchange_delete_request Ref.lib "https://exchange.example.com/v1" "orgs/IBM/nodes/n1"
         "IBM/me:secret")
  = "https://exchange.example.com/v1/orgs/IBM/nodes/n1".
Proof.
  apply (proj2 (proj2 (proj2
           (GetExchangeUrl_then_exchange Ref.lib unit (fun _ => inr tt) (fun _ => "")
              (only_overwrite_file []) false
              (set_env "HZN_EXCHANGE_URL" "https://exchange.example.com/v1/"
                 (answering (ok_response 204 "")))
              "https://exchange.example.com/v1" "PUT" "orgs/IBM/nodes/n1" "IBM/me:secret"
              [204] StringPtr (BodyString "") eq_refl eq_refl)))).
  right. right. left. reflexivity.
Defined.

(** ** Messages *)

Section Messages.

Context {GoValue GoType : Type} (L : GoLib GoValue GoType).

Lemma with_newline_app (msg : string) : with_newline (msg ++ nl) = msg ++ nl.
Proof. unfold with_newline. now rewrite HasSuffix_app. Qed.

Lemma with_newline_missing (msg : string) :
  HasSuffix msg nl = false -> with_newline msg = msg ++ nl.
Proof. unfold with_newline. now intros ->. Qed.

(** Verbose, Fatal and Warning end their message with a newline when it
    has none, and add none when it has one: a message that does not end
    in a newline and the same message with a newline after it are written
    in the same way, and the message as it is completed is not completed
    again. *)
Theorem messages_end_in_newline {A : Type} (exitCode : Z) (msg : string) (args : list Arg)
    (w : World) :
  HasSuffix (with_newline msg) nl = true
  /\ with_newline (with_newline msg) = with_newline msg
  /\ (HasSuffix msg nl = false ->
      Verbose L (msg ++ nl) args w = Verbose L msg args w
      /\ Fatal L (A := A) exitCode (msg ++ nl) args w = Fatal L exitCode msg args w
      /\ Warning L (msg ++ nl) args w = Warning L msg args w).
Proof.
  destruct (HasSuffix msg nl) eqn:Hsuffix.
  - unfold with_newline. rewrite !Hsuffix. repeat split; discriminate.
  - rewrite (with_newline_missing _ Hsuffix), with_newline_app, HasSuffix_app.
    repeat split; unfold Verbose, Fatal, Warning;
      now rewrite with_newline_app, (with_newline_missing _ Hsuffix).
Qed.

End Messages.

Lemma messages_end_in_newline_witness :
  Fatal Ref.lib (A := unit) HTTP_ERROR ("bad HTTP code %d" ++ nl) [] (dry_run (ok_response 200 ""))
  = Fatal Ref.lib HTTP_ERROR "bad HTTP code %d" [] (dry_run (ok_response 200 "")).
Proof.
  apply (proj2 (proj2 (messages_end_in_newline Ref.lib HTTP_ERROR "bad HTTP code %d" []
                         (dry_run (ok_response 200 ""))))).
  reflexivity.
Defined.
